(** * Python-Basics-Webinar: the notebooks' functions and cells

    The repository holds two Jupyter notebooks.  The functions they define
    ([Theta], twice, and [another_function]) are embedded below as Rocq
    functions over a universe of Python values; the cells themselves are
    transcribed as syntax trees further down so that statements about what
    the notebooks contain can be checked by computation. *)

From Stdlib Require Import ZArith List String Ascii Bool Lia DecimalString.
From Stdlib Require Import Floats.SpecFloat.
From Stdlib Require DecimalPos DecimalZ.
From stdpp Require Import base gmap strings sorting.

Set Warnings "-register-all".

Import ListNotations.
Local Open Scope string_scope.
Local Open Scope list_scope.
Local Open Scope Z_scope.

(** ** Python values and exceptions *)

(** A one-dimensional [ndarray]; the constructor records the dtype.  Elements
    of an [AInt] vector are int64 values.  Vectors of other dtypes (complex,
    object, strings) are not modelled. *)
Inductive ndarray : Type :=
| AInt (xs : list Z)
| AFloat (xs : list spec_float)
| ABool (xs : list bool).

Inductive value : Type :=
| VInt (z : Z)
| VFloat (f : spec_float)
| VBool (b : bool)
| VComplex (re im : spec_float)
| VStr (s : string)
| VNone
| VArr (a : ndarray).

(** [OutsideModel] is not a Python exception: it marks a value that the
    model below does not represent. *)
Inductive exn : Type :=
| TypeError
| ValueError
| OverflowError
| OutsideModel.

Inductive result (A : Type) : Type :=
| Ok (a : A)
| Raise (e : exn).

Arguments Ok {A} a.
Arguments Raise {A} e.

Definition bind {A B : Type} (r : result A) (k : A -> result B) : result B :=
  match r with
  | Ok a => k a
  | Raise e => Raise e
  end.

Notation "'let*' x ':=' r 'in' k" := (bind r (fun x => k))
  (at level 10, x name, r at level 100, k at level 200).

Fixpoint mapM {A B : Type} (f : A -> result B) (l : list A) : result (list B) :=
  match l with
  | [] => Ok []
  | a :: l' => let* b := f a in let* bs := mapM f l' in Ok (b :: bs)
  end.

(** ** The operators the two [Theta] bodies use *)

Definition float_zero : spec_float := S754_zero false.

Definition ndarray_size (a : ndarray) : nat :=
  match a with
  | AInt xs => length xs
  | AFloat xs => length xs
  | ABool xs => length xs
  end.

(** The elements of a vector as Python objects, as [ndarray.tolist] and the
    conversion to an object array produce them. *)
Definition items (a : ndarray) : list value :=
  match a with
  | AInt xs => map VInt xs
  | AFloat xs => map VFloat xs
  | ABool xs => map VBool xs
  end.

(** [x >= 0] with the int literal [0] on the right.  A [bool] is the int 0 or
    1; a float compares by IEEE order, so that NaN gives [False]; complex
    numbers, strings and [None] have no order against an int; on a vector the
    comparison is taken elementwise. *)
Definition ge0 (x : value) : result value :=
  match x with
  | VInt z => Ok (VBool (0 <=? z))
  | VBool b => Ok (VBool (0 <=? Z.b2z b))
  | VFloat f => Ok (VBool (SFleb float_zero f))
  | VComplex _ _ | VStr _ | VNone => Raise TypeError
  | VArr (AInt xs) => Ok (VArr (ABool (map (fun z => 0 <=? z) xs)))
  | VArr (AFloat xs) => Ok (VArr (ABool (map (SFleb float_zero) xs)))
  | VArr (ABool xs) => Ok (VArr (ABool (map (fun b => 0 <=? Z.b2z b) xs)))
  end.

(** The order of a real scalar against zero, as mathematics has it: [None]
    for NaN, which is unordered, and for values that are not real numbers.
    It is not used by the code and serves to state what [Theta] returns. *)
Definition cmp0 (x : value) : option comparison :=
  match x with
  | VInt z => Some (z ?= 0)
  | VBool b => Some (Z.b2z b ?= 0)
  | VFloat f => SFcompare f float_zero
  | _ => None
  end.

Definition is_scalar (x : value) : bool :=
  match x with
  | VArr _ => false
  | _ => true
  end.

Definition float_nonzero (f : spec_float) : bool :=
  match f with
  | S754_zero _ => false
  | _ => true
  end.

Definition scalar_truth (x : value) : bool :=
  match x with
  | VInt z => negb (z =? 0)
  | VFloat f => float_nonzero f
  | VBool b => b
  | VComplex re im => float_nonzero re || float_nonzero im
  | VStr s => negb (String.eqb s EmptyString)
  | VNone => false
  | VArr _ => true
  end.

(** The truth test an [if] statement applies to its condition.  A vector of
    one element has the truth value of that element, a vector of several
    elements has none and raises [ValueError].  The empty vector is false
    (with a deprecation warning) in the numpy releases the notebook runs on:
    it uses [np.sctypes], which numpy 2.0 removed.  From numpy 2.2 on the
    empty vector raises [ValueError] as well. *)
Definition truth (x : value) : result bool :=
  match x with
  | VArr a =>
      match items a with
      | [] => Ok false
      | [v] => Ok (scalar_truth v)
      | _ :: _ :: _ => Raise ValueError
      end
  | _ => Ok (scalar_truth x)
  end.

(** [1 * x]: the identity on numbers except that a [bool] becomes an int; a
    string repeated once is itself; on a vector the product is elementwise,
    and a boolean vector is promoted to an integer one. *)
Definition one_times (x : value) : result value :=
  match x with
  | VInt z => Ok (VInt z)
  | VBool b => Ok (VInt (Z.b2z b))
  | VFloat f => Ok (VFloat f)
  | VComplex re im => Ok (VComplex re im)
  | VStr s => Ok (VStr s)
  | VNone => Raise TypeError
  | VArr (AInt xs) => Ok (VArr (AInt xs))
  | VArr (AFloat xs) => Ok (VArr (AFloat xs))
  | VArr (ABool xs) => Ok (VArr (AInt (map Z.b2z xs)))
  end.

(** ** The scalar Heaviside step function (introduction-to-numpy, cell 138)

<<
def Theta(x):
    if x >= 0:
        return 1
    else:
        return 0
>> *)
Module Scalar.

Definition Theta (x : value) : result value :=
  let* c := ge0 x in
  let* b := truth c in
  if b then Ok (VInt 1) else Ok (VInt 0).

End Scalar.

(** ** The vector-aware Heaviside step function (cell 144)

<<
def Theta(x):
    return 1 * (x >= 0)
>> *)
Module VectorAware.

Definition Theta (x : value) : result value :=
  let* c := ge0 x in
  one_times c.

End VectorAware.

(** ** [np.vectorize] (cell 141: [Theta_vec = np.vectorize(Theta)])

    The library routine is not part of the repository; it is modelled here
    from its documented behaviour for a function of one argument, called
    without [otypes]: the output dtype is found by calling the function on
    the first element of the input, which is why an input of size 0 is
    refused with [ValueError]; the function is then applied to every element
    and the outputs are converted to that dtype.  Arguments that are not
    vectors, and outputs that are not ints, floats or bools, lie outside the
    three dtypes modelled here and are reported as [OutsideModel]. *)

Inductive dtype : Type := int64 | float64 | bool_.

Definition dtype_of (v : value) : result dtype :=
  match v with
  | VInt _ => Ok int64
  | VFloat _ => Ok float64
  | VBool _ => Ok bool_
  | _ => Raise OutsideModel
  end.

Definition in_int64 (z : Z) : bool :=
  (- 2 ^ 63 <=? z) && (z <? 2 ^ 63).

(** [int(f)] for a float: truncation towards zero, computed exactly on the
    mantissa and exponent. *)
Definition trunc_float (f : spec_float) : result Z :=
  match f with
  | S754_zero _ => Ok 0
  | S754_nan => Raise ValueError
  | S754_infinity _ => Raise OverflowError
  | S754_finite s m e =>
      let a := if 0 <=? e then Z.shiftl (Z.pos m) e else Z.shiftr (Z.pos m) (- e) in
      Ok (if s then - a else a)
  end.

Definition to_int64 (v : value) : result Z :=
  let* z := match v with
            | VInt z => Ok z
            | VBool b => Ok (Z.b2z b)
            | VFloat f => trunc_float f
            | _ => Raise OutsideModel
            end in
  if in_int64 z then Ok z else Raise OverflowError.

Definition to_float64 (v : value) : result spec_float :=
  match v with
  | VInt z =>
      match binary_normalize 53 1024 z 0 false with
      | S754_infinity _ => Raise OverflowError
      | f => Ok f
      end
  | VBool b => Ok (binary_normalize 53 1024 (Z.b2z b) 0 false)
  | VFloat f => Ok f
  | _ => Raise OutsideModel
  end.

Definition to_bool (v : value) : result bool :=
  match v with
  | VInt _ | VBool _ | VFloat _ => Ok (scalar_truth v)
  | _ => Raise OutsideModel
  end.

Definition asarray (t : dtype) (outputs : list value) : result ndarray :=
  match t with
  | int64 => let* xs := mapM to_int64 outputs in Ok (AInt xs)
  | float64 => let* xs := mapM to_float64 outputs in Ok (AFloat xs)
  | bool_ => let* xs := mapM to_bool outputs in Ok (ABool xs)
  end.

Definition np_vectorize (pyfunc : value -> result value) (arg : value)
  : result value :=
  match arg with
  | VArr a =>
      match items a with
      | [] => Raise ValueError
      | first :: _ =>
          let* probe := pyfunc first in
          let* otype := dtype_of probe in
          let* outputs := mapM pyfunc (items a) in
          let* out := asarray otype outputs in
          Ok (VArr out)
      end
  | _ => Raise OutsideModel
  end.

Definition Theta_vec : value -> result value := np_vectorize Scalar.Theta.

(** [v1 = np.array([-3,-2,-1,0,1,2,3])] (cell 139): a list of Python ints
    becomes an integer vector. *)
Definition v1 : value := VArr (AInt [-3; -2; -1; 0; 1; 2; 3]).

(** The float literals of cell 146, [-1.2] and [2.6], in binary64. *)
Definition float_m1_2 : spec_float := S754_finite true 5404319552844595 (-52).
Definition float_2_6 : spec_float := S754_finite false 5854679515581645 (-51).

(** ** initial-python-tutorial: [my_function] and [another_function] *)

(** <<
def my_function(an_object):
    return an_object
>> *)
Definition my_function (an_object : value) : result value := Ok an_object.

(** *** Binding the arguments of a call to the parameters of a [def]

    Positional arguments fill the parameters from the left; a keyword
    argument fills the parameter of that name; a parameter left unfilled
    takes its default.  Too many positional arguments, an unknown keyword, a
    parameter given twice and a parameter without value all raise
    [TypeError]. *)

Record param : Type := { pname : string; pdefault : option value }.

Definition slots : Type := list (param * option value).

Fixpoint bind_positional (params : list param) (args : list value) : result slots :=
  match params, args with
  | _, [] => Ok (map (fun p => (p, None)) params)
  | [], _ :: _ => Raise TypeError
  | p :: params', v :: args' =>
      let* rest := bind_positional params' args' in Ok ((p, Some v) :: rest)
  end.

Fixpoint bind_keyword (k : string) (v : value) (env : slots) : result slots :=
  match env with
  | [] => Raise TypeError
  | (p, slot) :: env' =>
      if String.eqb (pname p) k then
        match slot with
        | None => Ok ((p, Some v) :: env')
        | Some _ => Raise TypeError
        end
      else
        let* rest := bind_keyword k v env' in Ok ((p, slot) :: rest)
  end.

Fixpoint bind_keywords (kwargs : list (string * value)) (env : slots) : result slots :=
  match kwargs with
  | [] => Ok env
  | (k, v) :: kwargs' =>
      let* env' := bind_keyword k v env in bind_keywords kwargs' env'
  end.

Definition fill_default (s : param * option value) : result value :=
  match s with
  | (_, Some v) => Ok v
  | (p, None) =>
      match pdefault p with
      | Some d => Ok d
      | None => Raise TypeError
      end
  end.

Definition bind_args (params : list param) (args : list value)
    (kwargs : list (string * value)) : result (list value) :=
  let* env := bind_positional params args in
  let* env' := bind_keywords kwargs env in
  mapM fill_default env'.

Section Formatting.

(** The text of a float, a complex number or an array is produced by the
    interpreter's and the library's printers, which are left abstract. *)
Variable repr_inexact : value -> string.

(** The interpreter's limit on the number of digits of an int that is turned
    into text, [sys.get_int_max_str_digits()]: 4300 by default from Python
    3.11 on, and 0 where there is no limit (a limit set to 0, and every
    interpreter before 3.11, the notebooks' Python 3.7 among them).  The
    interpreter accepts no limit between 1 and 639. *)
Variable int_max_str_digits : N.

(** [str(z)] raises [ValueError] when the limit is set and [z] has more
    decimal digits than it allows. *)
Definition within_digit_limit (z : Z) : bool :=
  N.eqb int_max_str_digits 0 || (Z.abs z <? 10 ^ Z.of_N int_max_str_digits).

(** What a replacement field [{x}] of an f-string inserts when it carries no
    conversion and no format specification: [str(x)]. *)
Definition format (x : value) : result string :=
  match x with
  | VInt z =>
      if within_digit_limit z then Ok (NilZero.string_of_int (Z.to_int z))
      else Raise ValueError
  | VBool true => Ok "True"
  | VBool false => Ok "False"
  | VStr s => Ok s
  | VNone => Ok "None"
  | VFloat _ | VComplex _ _ | VArr _ => Ok (repr_inexact x)
  end.

(** <<
def another_function(number=0, name="No name"):
    return f"{number}, {name}"
>>
    The fields of the f-string are formatted from left to right.
    [bind_args] returns one value per parameter, so the second branch of the
    match is never taken. *)
Definition another_function_params : list param :=
  [ {| pname := "number"; pdefault := Some (VInt 0) |};
    {| pname := "name"; pdefault := Some (VStr "No name") |} ].

Definition another_function (args : list value) (kwargs : list (string * value))
  : result value :=
  let* bound := bind_args another_function_params args kwargs in
  match bound with
  | [number; name] =>
      let* number_text := format number in
      let* name_text := format name in
      Ok (VStr (number_text +:+ ", " +:+ name_text))
  | _ => Raise TypeError
  end.

End Formatting.

(** ** The notebooks as syntax

    What a notebook does not contain (an exception handler, a class, a second
    file write) is a property of its text.  The code cells are therefore also
    transcribed, statement by statement, into the abstract syntax below, which
    follows the node names of Python's [ast] module; [SShell] and [SPinfo] are
    IPython's [!command] and [object?] lines. *)

Inductive operator : Type :=
| OpAdd | OpSub | OpMult | OpMatMult | OpDiv | OpFloorDiv | OpMod | OpPow
| OpBitAnd | OpBitOr | OpBitXor | OpLShift | OpRShift.

Inductive unaryop : Type := USub | UAdd | UNot | UInvert.

Inductive cmpop : Type :=
| CmpEq | CmpNotEq | CmpLt | CmpLtE | CmpGt | CmpGtE
| CmpIs | CmpIsNot | CmpIn | CmpNotIn.

Inductive expr : Type :=
| EName (id : string)
| EInt (n : Z)
| EFloat (literal : string)
| EImag (literal : string)
| EStr (s : string)
| EBool (b : bool)
| ENone
| EEllipsis
| EJoinedStr (values : list expr)
| EFormattedValue (e : expr)
| EAttribute (e : expr) (attr : string)
| ECall (func : expr) (args : list expr) (keywords : list (string * expr))
| ESubscript (e : expr) (slice : expr)
| ESlice (lower upper step : option expr)
| ETuple (elts : list expr)
| EList (elts : list expr)
| EDict (entries : list (expr * expr))
| EBinOp (l : expr) (op : operator) (r : expr)
| EUnaryOp (op : unaryop) (e : expr)
| ECompare (l : expr) (op : cmpop) (r : expr)
| EIfExp (test body orelse : expr)
| EListComp (elt target iter : expr)
| ELambda (params : list string) (body : expr)
| EAwait (e : expr).

Inductive stmt : Type :=
| SExpr (e : expr)
| SAssign (target value : expr)
| SAugAssign (target : expr) (op : operator) (value : expr)
| SDelete (target : expr)
| SFor (target iter : expr) (body orelse : list stmt)
| SWhile (test : expr) (body orelse : list stmt)
| SIf (test : expr) (body orelse : list stmt)
| SBreak
| SContinue
| SPass
| SReturn (value : option expr)
| SFunctionDef (name : string) (params : list (string * option expr)) (body : list stmt)
| SAsyncFunctionDef (name : string) (params : list (string * option expr)) (body : list stmt)
| SClassDef (name : string) (bases : list expr) (body : list stmt)
| SImport (module : string) (asname : option string)
| SImportFrom (module name : string) (asname : option string)
| STry (body handlers orelse finalbody : list stmt)
| SExceptHandler (type : option expr) (body : list stmt)
| SWith (context : expr) (body : list stmt)
| SRaise (exc : option expr)
| SAssert (test : expr)
| SGlobal (names : list string)
| SShell (command : string)
| SPinfo (object : string).

Definition cell : Type := list stmt.

(** *** The code cells of introduction-to-numpy.ipynb *)

Definition numpy_cell_3 : cell :=
  [SImport "numpy" (Some "np"); SImport "matplotlib.pyplot" (Some "plt")].

Definition numpy_cell_4 : cell :=
  [SExpr (EAttribute (EName "np") "__version__")].

Definition numpy_cell_6 : cell :=
  [SPinfo "np.ndarray"].

Definition numpy_cell_7 : cell :=
  [SExpr (ECall (EName "help") [EAttribute (EName "np") "mean"] [])].

Definition numpy_cell_10 : cell :=
  [ SAssign (EName "lst") (EList [EInt 1; EInt 2; EInt 3; EFloat "4.0"]);
    SAssign
      (EName "v")
      (ECall
        (EAttribute (EName "np") "array")
        [EName "lst"]
        [("dtype", EAttribute (EName "np") "int32")]);
    SExpr (EName "v") ].

Definition numpy_cell_11 : cell :=
  [SExpr (EAttribute (EName "v") "dtype")].

Definition numpy_cell_12 : cell :=
  [ SAssign (EName "list_of_lists") (EList [EList [EInt 1; EInt 2]; EList [EInt 3; EInt 4]]);
    SAssign (EName "M") (ECall (EAttribute (EName "np") "array") [EName "list_of_lists"] []);
    SExpr (EName "M") ].

Definition numpy_cell_13 : cell :=
  [ SAssign
      (EName "row_vec")
      (ESubscript
        (EName "v")
        (ETuple [EAttribute (EName "np") "newaxis"; ESlice None None None]));
    SExpr (EName "row_vec") ].

Definition numpy_cell_14 : cell :=
  [ SAssign
      (EName "col_vec")
      (ESubscript
        (EName "v")
        (ETuple [ESlice None None None; EAttribute (EName "np") "newaxis"]));
    SExpr (EName "col_vec") ].

Definition numpy_cell_17 : cell :=
  [SExpr (ECall (EAttribute (EName "np") "linspace") [EInt 0; EInt 10] [])].

Definition numpy_cell_18 : cell :=
  [ SExpr
      (ECall
        (EAttribute (EName "np") "logspace")
        [EInt 0; EInt 5; EInt 10]
        [("base", EAttribute (EName "np") "e")]) ].

Definition numpy_cell_19 : cell :=
  [ SAssign
      (EName "gaussian")
      (ECall
        (EAttribute (EAttribute (EName "np") "random") "randn")
        [EBinOp (EBinOp (EInt 2) OpMult (EInt 3)) OpMult (EInt 4)]
        []);
    SExpr (ECall (EName "print") [EName "gaussian"] []);
    SAssign
      (EName "gaussian")
      (ECall (EAttribute (EName "gaussian") "reshape") [EInt 2; EInt 3; EInt 4] []);
    SExpr (EName "gaussian") ].

Definition numpy_cell_20 : cell :=
  [ SAssign
      (EName "zero_arr")
      (ECall (EAttribute (EName "np") "zeros") [ETuple [EInt 3; EInt 4]] []);
    SExpr (EName "zero_arr") ].

Definition numpy_cell_21 : cell :=
  [ SAssign
      (EName "ones_arr")
      (ECall
        (EAttribute (EName "np") "ones")
        [ETuple [EInt 3; EInt 4]]
        [("dtype", EAttribute (EName "np") "float32")]);
    SExpr (EName "ones_arr") ].

Definition numpy_cell_22 : cell :=
  [ SAssign
      (EName "iden")
      (ECall
        (EAttribute (EName "np") "identity")
        [EInt 3]
        [("dtype", EAttribute (EName "np") "float128")]);
    SExpr (ECall (EName "print") [EName "iden"] []);
    SAssign
      (EName "iden4")
      (ECall
        (EAttribute (EName "np") "eye")
        [EInt 4]
        [("dtype", EAttribute (EName "np") "float128")]);
    SExpr (EName "iden4") ].

Definition numpy_cell_23 : cell :=
  [ SAssign
      (EName "diag")
      (ECall (EAttribute (EName "np") "diag") [EList [EInt 1; EInt 2; EInt 3; EFloat "4.0"]] []);
    SExpr (EName "diag") ].

Definition numpy_cell_24 : cell :=
  [SExpr (EAttribute (EName "np") "sctypes")].

Definition numpy_cell_29 : cell :=
  [ SAssign
      (EName "gaussian")
      (ECall
        (EAttribute
          (ECall
            (EAttribute (EAttribute (EName "np") "random") "randn")
            [EBinOp (EBinOp (EInt 2) OpMult (EInt 3)) OpMult (EInt 4)]
            [])
          "reshape")
        [ETuple [EInt 2; EInt 3; EInt 4]]
        []) ].

Definition numpy_cell_30 : cell :=
  [ SExpr (EAttribute (EName "gaussian") "ndim");
    SExpr
      (ECall
        (EName "print")
        [EStr "total dimensions of the array is: "; EAttribute (EName "gaussian") "ndim"]
        []);
    SExpr (EAttribute (EName "gaussian") "shape");
    SExpr
      (ECall
        (EName "print")
        [EStr "the shape of the array is: "; EAttribute (EName "gaussian") "shape"]
        []);
    SExpr (EAttribute (EName "gaussian") "size");
    SExpr
      (ECall
        (EName "print")
        [EStr "total number of items is: "; EAttribute (EName "gaussian") "size"]
        []);
    SExpr (EAttribute (EName "gaussian") "itemsize");
    SExpr
      (ECall
        (EName "print")
        [EStr "memory consumed by each item is: "; EAttribute (EName "gaussian") "itemsize"]
        []);
    SExpr (EAttribute (EName "gaussian") "nbytes");
    SExpr
      (ECall
        (EName "print")
        [ EStr "total memory consumed by the whole array is: ";
          EAttribute (EName "gaussian") "nbytes" ]
        []) ].

Definition numpy_cell_32 : cell :=
  [ SAssign (EName "num_samples") (EInt 10);
    SAssign
      (EName "integers")
      (ECall
        (EAttribute (EAttribute (EName "np") "random") "randint")
        [EInt 23]
        [("size", EName "num_samples")]);
    SExpr (EName "integers") ].

Definition numpy_cell_33 : cell :=
  [SExpr (ESubscript (EName "integers") (EInt 2))].

Definition numpy_cell_34 : cell :=
  [ SAssign
      (EName "twoD_arr")
      (ECall
        (EAttribute (ECall (EAttribute (EName "np") "arange") [EInt 1; EInt 46] []) "reshape")
        [EInt 3; EUnaryOp USub (EInt 1)]
        []);
    SExpr (EName "twoD_arr") ].

Definition numpy_cell_35 : cell :=
  [ SExpr
      (ESubscript (EName "twoD_arr") (ETuple [EUnaryOp USub (EInt 1); EUnaryOp USub (EInt 1)])) ].

Definition numpy_cell_36 : cell :=
  [SExpr (ESubscript (EName "twoD_arr") (EUnaryOp USub (EInt 1)))].

Definition numpy_cell_37 : cell :=
  [ SExpr
      (EStr
        "     Page :               0                               1 
        Row  :     0         1         2           0         1         2
     Column  :  0 1 2 3   0 1 2 3   0 1 2 3     0 1 2 3   0 1 2 3   0 1 2 3               ");
    SExpr (EName "gaussian") ].

Definition numpy_cell_38 : cell :=
  [SExpr (ESubscript (EName "gaussian") (EUnaryOp USub (EInt 1)))].

Definition numpy_cell_39 : cell :=
  [SExpr (ESubscript (EName "gaussian") (ETuple [EUnaryOp USub (EInt 1); EInt 0]))].

Definition numpy_cell_40 : cell :=
  [ SExpr
      (ESubscript (EName "gaussian") (ETuple [EUnaryOp USub (EInt 1); EUnaryOp USub (EInt 1)])) ].

Definition numpy_cell_41 : cell :=
  [ SAssign
      (EName "idx")
      (ETuple [EUnaryOp USub (EInt 1); EUnaryOp USub (EInt 1); EUnaryOp USub (EInt 1)]);
    SExpr (ESubscript (EName "gaussian") (EName "idx")) ].

Definition numpy_cell_43 : cell :=
  [ SExpr (ECall (EName "print") [EName "integers"] []);
    SAssign (ESubscript (EName "integers") (EInt 4)) (EFloat "99.21");
    SExpr (EName "integers") ].

Definition numpy_cell_45 : cell :=
  [SExpr (EName "integers")].

Definition numpy_cell_46 : cell :=
  [SExpr (ESubscript (EName "integers") (ESlice (Some (EUnaryOp USub (EInt 5))) None None))].

Definition numpy_cell_47 : cell :=
  [SExpr (ESubscript (EName "integers") (ESlice None None (Some (EInt 2))))].

Definition numpy_cell_48 : cell :=
  [SExpr (ESubscript (EName "integers") (ESlice None None (Some (EUnaryOp USub (EInt 1)))))].

Definition numpy_cell_49 : cell :=
  [SExpr (ESubscript (EName "integers") (ESlice (Some (EInt 3)) None None))].

Definition numpy_cell_50 : cell :=
  [ SExpr
      (ESubscript
        (EName "integers")
        (ESlice (Some (EInt 3)) None (Some (EUnaryOp USub (EInt 1))))) ].

Definition numpy_cell_52 : cell :=
  [SExpr (EName "integers")].

Definition numpy_cell_53 : cell :=
  [ SAssign
      (ESubscript (EName "integers") (ESlice (Some (EUnaryOp USub (EInt 2))) None None))
      (EList [EUnaryOp USub (EInt 23); EUnaryOp USub (EInt 46)]);
    SExpr (EName "integers") ].

Definition numpy_cell_55 : cell :=
  [ SAssign
      (EName "twenty")
      (ECall
        (EAttribute (ECall (EAttribute (EName "np") "arange") [EInt 20] []) "reshape")
        [EInt 4; EInt 5]
        []);
    SExpr (EName "twenty") ].

Definition numpy_cell_56 : cell :=
  [ SExpr
      (ESubscript
        (EName "twenty")
        (ETuple [ESlice None (Some (EInt 2)) None; ESlice None (Some (EInt 3)) None])) ].

Definition numpy_cell_57 : cell :=
  [ SExpr
      (ESubscript
        (EName "twenty")
        (ETuple [ESlice None None (Some (EInt 3)); ESlice None None (Some (EInt 4))])) ].

Definition numpy_cell_58 : cell :=
  [ SExpr
      (ESubscript
        (EName "twenty")
        (ETuple [ESlice None None (Some (EUnaryOp USub (EInt 1))); EEllipsis])) ].

Definition numpy_cell_59 : cell :=
  [ SExpr
      (ESubscript
        (EName "twenty")
        (ETuple [EEllipsis; ESlice None None (Some (EUnaryOp USub (EInt 1)))])) ].

Definition numpy_cell_60 : cell :=
  [ SExpr
      (ESubscript
        (EName "twenty")
        (ETuple
          [ ESlice None None (Some (EUnaryOp USub (EInt 1)));
            ESlice None None (Some (EUnaryOp USub (EInt 1))) ])) ].

Definition numpy_cell_61 : cell :=
  [ SExpr
      (ECall
        (EAttribute (EName "np") "flip")
        [EName "twenty"]
        [("axis", ETuple [EInt 0; EInt 1])]);
    SExpr
      (ECall
        (EAttribute (EName "np") "flipud")
        [ECall (EAttribute (EName "np") "fliplr") [EName "twenty"] []]
        []);
    SExpr
      (ECall
        (EAttribute (EName "np") "fliplr")
        [ECall (EAttribute (EName "np") "flipud") [EName "twenty"] []]
        []) ].

Definition numpy_cell_63 : cell :=
  [SExpr (EName "twenty")].

Definition numpy_cell_64 : cell :=
  [ SAssign (EName "row_indices") (EList [EInt 1; EInt 2; EInt 3]);
    SExpr (ESubscript (EName "twenty") (EName "row_indices")) ].

Definition numpy_cell_65 : cell :=
  [ SAssign (EName "col_indices") (EList [EInt 1; EInt 2; EUnaryOp USub (EInt 1)]);
    SExpr (ESubscript (EName "twenty") (ETuple [EName "row_indices"; EName "col_indices"])) ].

Definition numpy_cell_67 : cell :=
  [SExpr (EName "integers")].

Definition numpy_cell_68 : cell :=
  [ SAssign
      (EName "row_mask")
      (ECall
        (EAttribute (EName "np") "array")
        [ EList
            [ EBool true;
              EBool false;
              EBool true;
              EBool false;
              EBool true;
              EBool false;
              EBool true;
              EBool false;
              EBool true;
              EBool false ] ]
        []);
    SExpr (ESubscript (EName "integers") (EName "row_mask")) ].

Definition numpy_cell_69 : cell :=
  [ SAssign
      (EName "row_mask")
      (ECall
        (EAttribute (EName "np") "array")
        [EList [EInt 1; EInt 0; EInt 1; EInt 0; EInt 1; EInt 0; EInt 1; EInt 0; EInt 1; EInt 0]]
        [("dtype", EAttribute (EName "np") "bool")]);
    SExpr (ESubscript (EName "integers") (EName "row_mask")) ].

Definition numpy_cell_71 : cell :=
  [ SAssign
      (EName "range_arr")
      (ECall (EAttribute (EName "np") "arange") [EInt 0; EInt 10; EFloat "0.5"] []);
    SExpr (EName "range_arr") ].

Definition numpy_cell_72 : cell :=
  [ SAssign
      (EName "mask")
      (EBinOp
        (ECompare (EName "range_arr") CmpGt (EInt 5))
        OpMult
        (ECompare (EName "range_arr") CmpLt (EFloat "7.5")));
    SExpr (EName "mask") ].

Definition numpy_cell_73 : cell :=
  [SExpr (ESubscript (EName "range_arr") (EName "mask"))].

Definition numpy_cell_74 : cell :=
  [ SAssign
      (EName "mask")
      (EBinOp
        (ECompare (EInt 5) CmpLt (EName "range_arr"))
        OpBitAnd
        (ECompare (EName "range_arr") CmpLt (EFloat "7.5")));
    SExpr (ESubscript (EName "range_arr") (EName "mask")) ].

Definition numpy_cell_77 : cell :=
  [ SAssign (EName "a") (ECall (EAttribute (EName "np") "arange") [EInt 10] []);
    SExpr (EName "a") ].

Definition numpy_cell_78 : cell :=
  [ SAssign (EName "s1") (ESubscript (EName "a") (ESlice (Some (EInt 1)) None (Some (EInt 3))));
    SExpr (EName "s1") ].

Definition numpy_cell_79 : cell :=
  [SExpr (EName "a")].

Definition numpy_cell_81 : cell :=
  [SAssign (ESubscript (EName "a") (EInt 7)) (EInt 77); SExpr (EName "s1")].

Definition numpy_cell_83 : cell :=
  [ SAssign
      (EName "b")
      (ECall (EAttribute (EName "np") "arange") [EInt 10] [("dtype", EStr "int16")]);
    SExpr (EName "b") ].

Definition numpy_cell_84 : cell :=
  [ SAssign
      (EName "b32")
      (ECall (EAttribute (EName "b") "view") [EAttribute (EName "np") "int32"] []);
    SAugAssign (EName "b32") OpAdd (EInt 1);
    SExpr (EName "b") ].

Definition numpy_cell_85 : cell :=
  [ SAssign
      (EName "b8")
      (ECall (EAttribute (EName "b") "view") [EAttribute (EName "np") "int8"] []);
    SExpr (EName "b8") ].

Definition numpy_cell_88 : cell :=
  [ SAssign
      (EName "arr")
      (ECall
        (EAttribute
          (ECall (EAttribute (EName "np") "arange") [EBinOp (EInt 5) OpMult (EInt 7)] [])
          "reshape")
        [EInt 5; EInt 7]
        []);
    SExpr (EName "arr") ].

Definition numpy_cell_89 : cell :=
  [ SExpr (ECall (EAttribute (EAttribute (EName "np") "random") "shuffle") [EName "arr"] []);
    SExpr (EName "arr") ].

Definition numpy_cell_91 : cell :=
  [ SAssign
      (EName "arr")
      (ECall
        (EAttribute
          (ECall
            (EAttribute (EName "np") "arange")
            [EInt 4; EBinOp (EInt 2) OpMult (EInt 11)]
            [])
          "reshape")
        [EInt 2; EInt 9]
        []);
    SExpr (EName "arr") ].

Definition numpy_cell_92 : cell :=
  [ SAssign
      (EName "amax")
      (ECall (EAttribute (EName "np") "argmax") [EName "arr"] [("axis", ENone)]);
    SAssign
      (EName "idx")
      (ECall
        (EAttribute (EName "np") "unravel_index")
        [EName "amax"; EAttribute (EName "arr") "shape"]
        []);
    SExpr (EName "idx") ].

Definition numpy_cell_93 : cell :=
  [SExpr (ESubscript (EName "arr") (EName "idx"))].

Definition numpy_cell_94 : cell :=
  [SExpr (ECall (EAttribute (EName "np") "max") [EName "arr"] [])].

Definition numpy_cell_95 : cell :=
  [SExpr (EName "arr")].

Definition numpy_cell_96 : cell :=
  [ SAssign
      (EName "avg")
      (ECall
        (EAttribute (EName "np") "mean")
        [EName "arr"]
        [("axis", EInt 0); ("keepdims", EBool true)]);
    SExpr (EName "avg") ].

Definition numpy_cell_97 : cell :=
  [ SAssign
      (EName "idxs")
      (ECall (EAttribute (EName "np") "where") [ECompare (EName "arr") CmpGt (EInt 10)] []);
    SExpr (EName "idxs") ].

Definition numpy_cell_98 : cell :=
  [ SAssign (EName "greater10") (ESubscript (EName "arr") (EName "idxs"));
    SExpr (EName "greater10") ].

Definition numpy_cell_99 : cell :=
  [ SAssign (ESubscript (EName "greater10") (EUnaryOp USub (EInt 1))) (EInt 0);
    SExpr (EName "arr") ].

Definition numpy_cell_101 : cell :=
  [ SAssign
      (EName "random_arr")
      (ECall
        (EAttribute (EAttribute (EName "np") "random") "randn")
        [EInt 2; EInt 3; EInt 4]
        []);
    SExpr
      (ECall
        (EAttribute (EName "np") "save")
        [EStr "./random-array.npy"; EName "random_arr"]
        []);
    SShell "file persist/random-array.npy" ].

Definition numpy_cell_105 : cell :=
  [ SAssign (EName "vec") (ECall (EAttribute (EName "np") "arange") [EInt 0; EInt 5] []);
    SExpr (EName "vec") ].

Definition numpy_cell_106 : cell :=
  [SExpr (EBinOp (EName "vec") OpMult (EInt 2))].

Definition numpy_cell_107 : cell :=
  [SExpr (EBinOp (EName "vec") OpAdd (EInt 2))].

Definition numpy_cell_109 : cell :=
  [ SAssign
      (EName "arr")
      (ECall
        (EAttribute
          (ECall (EAttribute (EName "np") "arange") [EBinOp (EInt 4) OpMult (EInt 5)] [])
          "reshape")
        [EInt 4; EInt 5]
        []);
    SExpr (EName "arr") ].

Definition numpy_cell_110 : cell :=
  [ SExpr
      (ECall (EAttribute (EName "np") "matmul") [EName "arr"; EAttribute (EName "arr") "T"] []) ].

Definition numpy_cell_111 : cell :=
  [ SExpr
      (ECall
        (EName "print")
        [EAttribute (EName "vec") "shape"; EAttribute (EName "arr") "shape"]
        []);
    SExpr (EBinOp (EName "vec") OpMult (EName "arr")) ].

Definition numpy_cell_112 : cell :=
  [ SExpr
      (EBinOp
        (ESubscript (EName "vec") (ETuple [ESlice None None None; ENone]))
        OpMult
        (EName "arr")) ].

Definition numpy_cell_113 : cell :=
  [ SExpr
      (EBinOp
        (ESubscript (EName "vec") (ETuple [ESlice None (Some (EInt 4)) None; ENone]))
        OpMult
        (EName "arr")) ].

Definition numpy_cell_115 : cell :=
  [ SExpr
      (ECall
        (EName "print")
        [EAttribute (EAttribute (EName "arr") "T") "shape"; EAttribute (EName "arr") "shape"]
        []);
    SExpr (ECall (EAttribute (EName "np") "dot") [EAttribute (EName "arr") "T"; EName "arr"] []) ].

Definition numpy_cell_116 : cell :=
  [ SExpr
      (ECall
        (EName "print")
        [EStr "shapes: "; EAttribute (EName "arr") "shape"; EAttribute (EName "vec") "shape"]
        []);
    SExpr (ECall (EAttribute (EName "np") "dot") [EName "arr"; EName "vec"] []) ].

Definition numpy_cell_117 : cell :=
  [ SAssign (EName "col_vec") (ESubscript (EName "vec") (ETuple [ESlice None None None; ENone]));
    SExpr
      (ECall
        (EName "print")
        [ EStr "shapes: ";
          EAttribute (EAttribute (EName "col_vec") "T") "shape";
          EAttribute (EName "col_vec") "shape" ]
        []);
    SExpr (EBinOp (EAttribute (EName "col_vec") "T") OpMatMult (EName "col_vec")) ].

Definition numpy_cell_120 : cell :=
  [ SAssign
      (EName "a")
      (ECall
        (EAttribute (EName "np") "array")
        [EList [EList [EInt 1; EInt 2]; EList [EInt 3; EInt 4]]]
        []);
    SExpr (EName "a") ].

Definition numpy_cell_121 : cell :=
  [SExpr (ECall (EAttribute (EName "np") "repeat") [EName "a"; EInt 3] [])].

Definition numpy_cell_122 : cell :=
  [SExpr (ECall (EAttribute (EName "np") "tile") [EName "a"; EInt 3] [])].

Definition numpy_cell_123 : cell :=
  [ SAssign
      (EName "b")
      (ECall (EAttribute (EName "np") "array") [EList [EList [EInt 5; EInt 6]]] []);
    SExpr (EName "b") ].

Definition numpy_cell_124 : cell :=
  [ SExpr
      (ECall
        (EAttribute (EName "np") "concatenate")
        [ETuple [EName "a"; EName "b"]]
        [("axis", EInt 0)]) ].

Definition numpy_cell_125 : cell :=
  [ SExpr
      (ECall
        (EAttribute (EName "np") "concatenate")
        [ETuple [EName "a"; EAttribute (EName "b") "T"]]
        [("axis", EInt 1)]) ].

Definition numpy_cell_127 : cell :=
  [SExpr (ECall (EAttribute (EName "np") "vstack") [ETuple [EName "a"; EName "b"]] [])].

Definition numpy_cell_128 : cell :=
  [ SExpr
      (ECall
        (EAttribute (EName "np") "hstack")
        [ETuple [EName "a"; EAttribute (EName "b") "T"]]
        []) ].

Definition numpy_cell_131 : cell :=
  [ SAssign
      (EName "A")
      (ECall
        (EAttribute (EName "np") "array")
        [EList [EList [EInt 1; EInt 2]; EList [EInt 3; EInt 4]]]
        []);
    SExpr (EName "A") ].

Definition numpy_cell_132 : cell :=
  [SAssign (EName "B") (EName "A"); SExpr (EName "B")].

Definition numpy_cell_133 : cell :=
  [SAssign (ESubscript (EName "B") (ETuple [EInt 0; EInt 0])) (EInt 10); SExpr (EName "A")].

Definition numpy_cell_135 : cell :=
  [SAssign (EName "B") (ECall (EAttribute (EName "np") "copy") [EName "A"] [])].

Definition numpy_cell_136 : cell :=
  [ SAssign (ESubscript (EName "B") (ETuple [EInt 0; EInt 0])) (EUnaryOp USub (EInt 5));
    SExpr (EName "A") ].

Definition numpy_cell_138 : cell :=
  [ SFunctionDef
      "Theta"
      [("x", None)]
      [ SExpr
          (EStr
            "
    scalar implementation of the Heaviside step function.
    ");
        SIf
          (ECompare (EName "x") CmpGtE (EInt 0))
          [SReturn (Some (EInt 1))]
          [SReturn (Some (EInt 0))] ] ].

Definition numpy_cell_139 : cell :=
  [ SAssign
      (EName "v1")
      (ECall
        (EAttribute (EName "np") "array")
        [ EList
            [ EUnaryOp USub (EInt 3);
              EUnaryOp USub (EInt 2);
              EUnaryOp USub (EInt 1);
              EInt 0;
              EInt 1;
              EInt 2;
              EInt 3 ] ]
        []);
    SExpr (ECall (EName "Theta") [EName "v1"] []) ].

Definition numpy_cell_141 : cell :=
  [SAssign (EName "Theta_vec") (ECall (EAttribute (EName "np") "vectorize") [EName "Theta"] [])].

Definition numpy_cell_142 : cell :=
  [SExpr (ECall (EName "Theta_vec") [EName "v1"] [])].

Definition numpy_cell_144 : cell :=
  [ SFunctionDef
      "Theta"
      [("x", None)]
      [ SExpr
          (EStr
            "
    Vector-aware implementation of the Heaviside step function.
    ");
        SReturn (Some (EBinOp (EInt 1) OpMult (ECompare (EName "x") CmpGtE (EInt 0)))) ] ].

Definition numpy_cell_145 : cell :=
  [SExpr (ECall (EName "Theta") [EName "v1"] [])].

Definition numpy_cell_146 : cell :=
  [ SExpr
      (ETuple
        [ ECall (EName "Theta") [EUnaryOp USub (EFloat "1.2")] [];
          ECall (EName "Theta") [EFloat "2.6"] [] ]) ].

Definition numpy_cell_148 : cell :=
  [].

Definition introduction_to_numpy : list cell :=
  [ numpy_cell_3; numpy_cell_4; numpy_cell_6; numpy_cell_7; numpy_cell_10; numpy_cell_11;
    numpy_cell_12; numpy_cell_13; numpy_cell_14; numpy_cell_17; numpy_cell_18; numpy_cell_19;
    numpy_cell_20; numpy_cell_21; numpy_cell_22; numpy_cell_23; numpy_cell_24; numpy_cell_29;
    numpy_cell_30; numpy_cell_32; numpy_cell_33; numpy_cell_34; numpy_cell_35; numpy_cell_36;
    numpy_cell_37; numpy_cell_38; numpy_cell_39; numpy_cell_40; numpy_cell_41; numpy_cell_43;
    numpy_cell_45; numpy_cell_46; numpy_cell_47; numpy_cell_48; numpy_cell_49; numpy_cell_50;
    numpy_cell_52; numpy_cell_53; numpy_cell_55; numpy_cell_56; numpy_cell_57; numpy_cell_58;
    numpy_cell_59; numpy_cell_60; numpy_cell_61; numpy_cell_63; numpy_cell_64; numpy_cell_65;
    numpy_cell_67; numpy_cell_68; numpy_cell_69; numpy_cell_71; numpy_cell_72; numpy_cell_73;
    numpy_cell_74; numpy_cell_77; numpy_cell_78; numpy_cell_79; numpy_cell_81; numpy_cell_83;
    numpy_cell_84; numpy_cell_85; numpy_cell_88; numpy_cell_89; numpy_cell_91; numpy_cell_92;
    numpy_cell_93; numpy_cell_94; numpy_cell_95; numpy_cell_96; numpy_cell_97; numpy_cell_98;
    numpy_cell_99; numpy_cell_101; numpy_cell_105; numpy_cell_106; numpy_cell_107;
    numpy_cell_109; numpy_cell_110; numpy_cell_111; numpy_cell_112; numpy_cell_113;
    numpy_cell_115; numpy_cell_116; numpy_cell_117; numpy_cell_120; numpy_cell_121;
    numpy_cell_122; numpy_cell_123; numpy_cell_124; numpy_cell_125; numpy_cell_127;
    numpy_cell_128; numpy_cell_131; numpy_cell_132; numpy_cell_133; numpy_cell_135;
    numpy_cell_136; numpy_cell_138; numpy_cell_139; numpy_cell_141; numpy_cell_142;
    numpy_cell_144; numpy_cell_145; numpy_cell_146; numpy_cell_148 ].

(** *** The code cells of initial-python-tutorial.ipynb *)

Definition tutorial_cell_2 : cell :=
  [ SAssign (EName "x") (EInt 5);
    SExpr (ECall (EName "print") [EName "x"] []);
    SAssign (EName "my_string") (EStr "Hello, world");
    SExpr (ECall (EName "print") [EName "my_string"] []);
    SAssign (EName "my_string") (EInt 3908274213408);
    SExpr
      (ECall
        (EName "print")
        [ EJoinedStr
            [ EStr "Type of string: ";
              EFormattedValue (ECall (EName "type") [EName "my_string"] []) ] ]
        []) ].

Definition tutorial_cell_4 : cell :=
  [ SAssign (EName "integer_var") (EInt 3);
    SAssign (EName "float_var") (EFloat "3.1");
    SAssign (EName "complex_var") (EBinOp (EInt 3) OpAdd (EImag "2j"));
    SExpr
      (ECall
        (EName "print")
        [ EJoinedStr
            [ EStr "Type of integer_var: ";
              EFormattedValue (ECall (EName "type") [EName "integer_var"] []) ] ]
        []);
    SExpr
      (ECall
        (EName "print")
        [ EJoinedStr
            [ EStr "Type of float_var: ";
              EFormattedValue (ECall (EName "type") [EName "float_var"] []) ] ]
        []);
    SExpr
      (ECall
        (EName "print")
        [ EJoinedStr
            [ EStr "Type of complex_var: ";
              EFormattedValue (ECall (EName "type") [EName "complex_var"] []) ] ]
        []) ].

Definition tutorial_cell_6 : cell :=
  [ SExpr (ECall (EName "print") [EStr "You can make a string using double quotes"] []);
    SExpr (ECall (EName "print") [EStr "You can also make a string using single quotes"] []) ].

Definition tutorial_cell_8 : cell :=
  [ SAssign (EName "statement") (EStr "My whole name is Bob Builder");
    SExpr (ECall (EName "print") [ECall (EAttribute (EName "statement") "lower") [] []] []);
    SExpr (ECall (EName "print") [ECall (EAttribute (EName "statement") "upper") [] []] []);
    SExpr
      (ECall
        (EName "print")
        [ECall (EAttribute (EName "statement") "replace") [EStr "Bob"; EStr "Bran, The"] []]
        []) ].

Definition tutorial_cell_10 : cell :=
  [ SFor
      (EName "number")
      (ECall (EName "range") [EInt 6] [])
      [ SExpr
          (ECall
            (EName "print")
            [ EJoinedStr
                [ EStr "The number is: ";
                  EFormattedValue (EName "number");
                  EStr " and it is ";
                  EFormattedValue
                    (EIfExp
                      (ECompare (EBinOp (EName "number") OpMod (EInt 2)) CmpEq (EInt 0))
                      (EStr "even")
                      (EStr "false")) ] ]
            []) ]
      [] ].

Definition tutorial_cell_12 : cell :=
  [ SAssign
      (EName "my_list")
      (EList [EStr "hello"; EInt 0; EDict [(EStr "name", EStr "Yatri")]]);
    SExpr (ECall (EName "print") [EName "my_list"] []);
    SExpr
      (ECall
        (EName "print")
        [EListComp (ECall (EName "type") [EName "item"] []) (EName "item") (EName "my_list")]
        []) ].

Definition tutorial_cell_14 : cell :=
  [ SAssign (EName "number_list") (EList [EInt 0; EInt 15; EInt 32; EInt 99; EInt 852; EInt 16]);
    SExpr (ECall (EAttribute (EName "number_list") "append") [EInt 82] []);
    SExpr (ECall (EName "print") [EName "number_list"] []);
    SExpr (ECall (EAttribute (EName "number_list") "remove") [EInt 15] []);
    SExpr (ECall (EName "print") [EName "number_list"] []);
    SDelete (ESubscript (EName "number_list") (EInt 3));
    SExpr (ECall (EName "print") [EName "number_list"] []);
    SAssign (EName "number") (ECall (EAttribute (EName "number_list") "pop") [EInt 2] []);
    SExpr (ECall (EName "print") [EName "number"; EName "number_list"] []);
    SExpr (ECall (EAttribute (EName "number_list") "reverse") [] []);
    SExpr (ECall (EName "print") [EName "number_list"] []);
    SExpr (ECall (EAttribute (EName "number_list") "sort") [] []);
    SExpr (ECall (EName "print") [EName "number_list"] []);
    SAssign (EName "minimum") (ECall (EName "min") [EName "number_list"] []);
    SAssign (EName "maximum") (ECall (EName "max") [EName "number_list"] []);
    SExpr
      (ECall
        (EName "print")
        [ EJoinedStr
            [ EStr "Minimum number: ";
              EFormattedValue (EName "minimum");
              EStr ", maximum number: ";
              EFormattedValue (EName "maximum") ] ]
        []) ].

Definition tutorial_cell_16 : cell :=
  [ SAssign
      (EName "my_2d_array")
      (EList [EList [EInt 1; EInt 2]; EList [EInt 2; EInt 5]; EList [EStr "cat"; EStr "dog"]]);
    SExpr (ECall (EName "print") [EName "my_2d_array"] []) ].

Definition tutorial_cell_18 : cell :=
  [ SAssign
      (EName "my_age_dictionary")
      (EDict
        [ (EStr "Yatri", EInt 21);
          (EStr "Freny", EStr "some age");
          (EStr "Trian", EList [EStr "zoomer"; EStr "age"]) ]);
    SExpr
      (ECall
        (EName "print")
        [ EJoinedStr
            [ EStr "Yatri's age is: ";
              EFormattedValue (ESubscript (EName "my_age_dictionary") (EStr "Yatri")) ] ]
        []);
    SExpr
      (ECall
        (EName "print")
        [ EJoinedStr
            [ EStr "Freny's age is: ";
              EFormattedValue (ESubscript (EName "my_age_dictionary") (EStr "Freny")) ] ]
        []);
    SExpr
      (ECall
        (EName "print")
        [ EJoinedStr
            [ EStr "Trian's age is: ";
              EFormattedValue (ESubscript (EName "my_age_dictionary") (EStr "Trian")) ] ]
        []) ].

Definition tutorial_cell_20 : cell :=
  [ SAssign (EName "my_dictionary") (EDict []);
    SAssign (ESubscript (EName "my_dictionary") (EStr "something")) (EStr "exists");
    SAssign
      (ESubscript (EName "my_dictionary") (EBinOp (EInt 3) OpAdd (EImag "2j")))
      (EStr "its complicated");
    SExpr (ECall (EName "print") [EName "my_dictionary"] []);
    SExpr
      (ECall
        (EName "print")
        [ESubscript (EName "my_dictionary") (EBinOp (EInt 3) OpAdd (EImag "2j"))]
        []) ].

Definition tutorial_cell_22 : cell :=
  [ SAssign
      (EName "my_2d_array")
      (EList [EList [EInt 1; EInt 2]; EList [EInt 2; EInt 5]; EList [EStr "cat"; EStr "dog"]]);
    SFor
      (EName "row")
      (EName "my_2d_array")
      [SFor (EName "value") (EName "row") [SExpr (ECall (EName "print") [EName "value"] [])] []]
      [] ].

Definition tutorial_cell_24 : cell :=
  [ SFor
      (EName "i")
      (ECall (EName "range") [EInt 0; ECall (EName "len") [EName "my_2d_array"] []; EInt 1] [])
      [SExpr (ECall (EName "print") [ESubscript (EName "my_2d_array") (EName "i")] [])]
      [];
    SFor
      (EName "i")
      (ECall (EName "range") [ECall (EName "len") [EName "my_2d_array"] []] [])
      [SExpr (ECall (EName "print") [ESubscript (EName "my_2d_array") (EName "i")] [])]
      [] ].

Definition tutorial_cell_26 : cell :=
  [ SAssign (EName "names") (EList [EStr "Leanord"; EStr "Sheldon"; EStr "Penny"]);
    SFor
      (EName "name")
      (EName "names")
      [ SIf
          (ECompare (EName "name") CmpEq (EStr "Leanord"))
          [SExpr (ECall (EName "print") [EStr "Found Leanord!"] []); SBreak]
          [] ]
      [SExpr (ECall (EName "print") [EStr "Did not find Leanord!"] [])];
    SFor
      (EName "name")
      (EName "names")
      [ SIf
          (ECompare (EName "name") CmpEq (EStr "Evan"))
          [SExpr (ECall (EName "print") [EStr "Found Evan!"] []); SBreak]
          [] ]
      [SExpr (ECall (EName "print") [EStr "Did not find Evan!"] [])] ].

Definition tutorial_cell_28 : cell :=
  [ SAssign (EName "some_int") (EInt 0);
    SWhile
      (EBool true)
      [ SExpr (ECall (EName "print") [EName "some_int"] []);
        SAugAssign (EName "some_int") OpAdd (EInt 1);
        SIf (ECompare (EName "some_int") CmpGt (EInt 5)) [SBreak] [] ]
      [] ].

Definition tutorial_cell_30 : cell :=
  [ SAssign (EName "some_object") (EInt 0);
    SFunctionDef "my_function" [("an_object", None)] [SReturn (Some (EName "an_object"))];
    SExpr (ECall (EName "print") [ECall (EName "my_function") [EName "some_object"] []] []) ].

Definition tutorial_cell_32 : cell :=
  [ SFunctionDef
      "another_function"
      [("number", Some (EInt 0)); ("name", Some (EStr "No name"))]
      [ SReturn
          (Some
            (EJoinedStr
              [EFormattedValue (EName "number"); EStr ", "; EFormattedValue (EName "name")])) ];
    SExpr (ECall (EName "print") [ECall (EName "another_function") [EInt 12] []] []);
    SExpr
      (ECall
        (EName "print")
        [ECall (EName "another_function") [] [("name", EStr "Yatri"); ("number", EInt 16)]]
        []) ].

Definition tutorial_cell_35 : cell :=
  [].

Definition initial_python_tutorial : list cell :=
  [ tutorial_cell_2; tutorial_cell_4; tutorial_cell_6; tutorial_cell_8; tutorial_cell_10;
    tutorial_cell_12; tutorial_cell_14; tutorial_cell_16; tutorial_cell_18; tutorial_cell_20;
    tutorial_cell_22; tutorial_cell_24; tutorial_cell_26; tutorial_cell_28; tutorial_cell_30;
    tutorial_cell_32; tutorial_cell_35 ].

(** ** Reading the syntax *)

Definition option_list {A : Type} (o : option A) : list A :=
  match o with
  | Some a => [a]
  | None => []
  end.

(** An expression together with all the expressions nested in it. *)
Fixpoint subexprs (e : expr) : list expr :=
  e ::
  match e with
  | EName _ | EInt _ | EFloat _ | EImag _ | EStr _ | EBool _ | ENone | EEllipsis => []
  | EJoinedStr values => flat_map subexprs values
  | EFormattedValue e1 => subexprs e1
  | EAttribute e1 _ => subexprs e1
  | ECall func args keywords =>
      subexprs func ++ flat_map subexprs args
        ++ flat_map (fun kw => subexprs (snd kw)) keywords
  | ESubscript e1 slice => subexprs e1 ++ subexprs slice
  | ESlice lower upper step =>
      match lower with Some e1 => subexprs e1 | None => [] end
        ++ match upper with Some e1 => subexprs e1 | None => [] end
        ++ match step with Some e1 => subexprs e1 | None => [] end
  | ETuple elts | EList elts => flat_map subexprs elts
  | EDict entries =>
      flat_map (fun kv => subexprs (fst kv) ++ subexprs (snd kv)) entries
  | EBinOp l _ r => subexprs l ++ subexprs r
  | EUnaryOp _ e1 => subexprs e1
  | ECompare l _ r => subexprs l ++ subexprs r
  | EIfExp test body orelse => subexprs test ++ subexprs body ++ subexprs orelse
  | EListComp elt target iter => subexprs elt ++ subexprs target ++ subexprs iter
  | ELambda _ body => subexprs body
  | EAwait e1 => subexprs e1
  end.

(** A statement together with all the statements nested in it. *)
Fixpoint substmts (s : stmt) : list stmt :=
  s ::
  match s with
  | SFor _ _ body orelse | SWhile _ body orelse | SIf _ body orelse =>
      flat_map substmts body ++ flat_map substmts orelse
  | SFunctionDef _ _ body | SAsyncFunctionDef _ _ body | SClassDef _ _ body
  | SExceptHandler _ body | SWith _ body =>
      flat_map substmts body
  | STry body handlers orelse finalbody =>
      flat_map substmts body ++ flat_map substmts handlers
        ++ flat_map substmts orelse ++ flat_map substmts finalbody
  | _ => []
  end.

(** The expressions a statement holds itself, outside its nested statements. *)
Definition own_exprs (s : stmt) : list expr :=
  match s with
  | SExpr e => [e]
  | SAssign target value => [target; value]
  | SAugAssign target _ value => [target; value]
  | SDelete target => [target]
  | SFor target iter _ _ => [target; iter]
  | SWhile test _ _ | SIf test _ _ | SAssert test => [test]
  | SReturn value => option_list value
  | SFunctionDef _ params _ | SAsyncFunctionDef _ params _ =>
      flat_map (fun p => option_list (snd p)) params
  | SClassDef _ bases _ => bases
  | SExceptHandler type _ => option_list type
  | SWith context _ => [context]
  | SRaise exc => option_list exc
  | _ => []
  end.

Definition cell_stmts (c : cell) : list stmt := flat_map substmts c.

Definition cell_exprs (c : cell) : list expr :=
  flat_map subexprs (flat_map own_exprs (cell_stmts c)).

(** Both notebooks, every code cell in order. *)
Definition all_cells : list cell := introduction_to_numpy ++ initial_python_tutorial.

Definition all_stmts : list stmt := flat_map cell_stmts all_cells.

Definition all_exprs : list expr := flat_map cell_exprs all_cells.

(** *** Exception handling

    Python code intercepts an exception with [try] (its [except] and
    [finally] clauses) or with a context manager entered by [with]. *)
Definition handles_exceptions (s : stmt) : bool :=
  match s with
  | STry _ _ _ _ | SExceptHandler _ _ | SWith _ _ => true
  | _ => false
  end.

(** An exception of the code's own making starts at a [raise] or an
    [assert]. *)
Definition raises_itself (s : stmt) : bool :=
  match s with
  | SRaise _ | SAssert _ => true
  | _ => false
  end.

(** *** Type declarations

    A new type is declared by a [class] statement, or built at run time by
    the three-argument call [type(name, bases, namespace)]. *)
Definition declares_class (s : stmt) : bool :=
  match s with
  | SClassDef _ _ _ => true
  | _ => false
  end.

Definition builds_class (e : expr) : bool :=
  match e with
  | ECall (EName "type") [_; _; _] _ => true
  | _ => false
  end.

(** *** What a call refers to

    A bare name is a function of the notebook when the notebook binds it with
    [def] (or to [np.vectorize] of such a function) and a builtin otherwise;
    an attribute path rooted at an import alias names a library routine; any
    other attribute is a method of the value it is taken from. *)
Inductive callee : Type :=
| Builtin (name : string)
| Library (module : string) (path : list string)
| Method (name : string)
| Notebook (name : string)
| Unresolved.

Fixpoint dotted (e : expr) : option (list string) :=
  match e with
  | EName x => Some [x]
  | EAttribute e1 a =>
      match dotted e1 with
      | Some p => Some (p ++ [a])
      | None => None
      end
  | _ => None
  end.

Fixpoint assoc (k : string) (l : list (string * string)) : option string :=
  match l with
  | [] => None
  | (k', v) :: l' => if String.eqb k k' then Some v else assoc k l'
  end.

Definition mem (x : string) (l : list string) : bool :=
  existsb (String.eqb x) l.

Definition import_of (s : stmt) : list (string * string) :=
  match s with
  | SImport module (Some alias) => [(alias, module)]
  | SImport module None => [(module, module)]
  | SImportFrom module name (Some alias) => [(alias, module +:+ "." +:+ name)]
  | SImportFrom module name None => [(name, module +:+ "." +:+ name)]
  | _ => []
  end.

Definition imports : list (string * string) := flat_map import_of all_stmts.

Definition def_of (s : stmt) : list string :=
  match s with
  | SFunctionDef name _ _ | SAsyncFunctionDef name _ _ => [name]
  | _ => []
  end.

Definition defs : list string := flat_map def_of all_stmts.

Definition vectorized_of (s : stmt) : list string :=
  match s with
  | SAssign (EName g) (ECall (EAttribute (EName m) "vectorize") [EName f] []) =>
      match assoc m imports with
      | Some "numpy" => if mem f defs then [g] else []
      | _ => []
      end
  | _ => []
  end.

Definition notebook_functions : list string :=
  defs ++ flat_map vectorized_of all_stmts.

Definition resolve (func : expr) : callee :=
  match func with
  | EName f => if mem f notebook_functions then Notebook f else Builtin f
  | EAttribute receiver attr =>
      match dotted receiver with
      | Some (root :: path) =>
          match assoc root imports with
          | Some module => Library module (path ++ [attr])
          | None => Method attr
          end
      | _ => Method attr
      end
  | _ => Unresolved
  end.

Definition call_of (e : expr) : list (callee * list expr) :=
  match e with
  | ECall func args _ => [(resolve func, args)]
  | _ => []
  end.

Definition all_calls : list (callee * list expr) := flat_map call_of all_exprs.

(** *** Effects

    What running a statement can do, as far as the notebooks' vocabulary
    goes.  The tables below record, for each builtin, library routine and
    method the notebooks call, the effect its documentation gives it; a
    callee that is in no table has the effect [Unknown]. *)
Inductive effect : Type :=
| Computes
| UpdatesSession
| Displays
| DrawsRandom
| LoadsModule (module : string)
| RunsProgram (program arguments : string)
| WritesFile (path : string)
| Unknown.

Definition ends_with (suffix s : string) : bool :=
  let n := String.length s in
  let k := String.length suffix in
  (k <=? n)%nat && String.eqb (String.substring (n - k) k s) suffix.

(** [np.save(file, arr)] appends the extension [.npy] to a file name that
    does not already end with it. *)
Definition npy_filename (file : string) : string :=
  if ends_with ".npy" file then file else file +:+ ".npy".

Definition pure_builtins : list string := ["len"; "range"; "type"; "min"; "max"].

Definition printing_builtins : list string := ["print"; "help"].

Definition pure_numpy : list string :=
  [ "array"; "arange"; "linspace"; "logspace"; "zeros"; "ones"; "identity"; "eye"; "diag";
    "flip"; "fliplr"; "flipud"; "argmax"; "unravel_index"; "max"; "mean"; "where";
    "matmul"; "dot"; "repeat"; "tile"; "concatenate"; "vstack"; "hstack"; "copy";
    "vectorize" ].

Definition pure_methods : list string := ["reshape"; "view"; "lower"; "upper"; "replace"].

Definition mutating_methods : list string := ["append"; "remove"; "pop"; "reverse"; "sort"].

(** [np.random.randn], [randint] and [shuffle] read and advance the state of
    the generator that the library keeps for the whole process. *)
Definition callee_effects (c : callee) (args : list expr) : list effect :=
  match c with
  | Builtin f =>
      if mem f pure_builtins then [Computes]
      else if mem f printing_builtins then [Displays]
      else [Unknown]
  | Library "numpy" [f] =>
      if mem f pure_numpy then [Computes]
      else if String.eqb f "save" then
        match args with
        | EStr file :: _ => [WritesFile (npy_filename file)]
        | _ => [Unknown]
        end
      else [Unknown]
  | Library "numpy" ["random"; f] =>
      if mem f ["randn"; "randint"] then [DrawsRandom]
      else if String.eqb f "shuffle" then [DrawsRandom; UpdatesSession]
      else [Unknown]
  | Library _ _ => [Unknown]
  | Method m =>
      if mem m pure_methods then [Computes]
      else if mem m mutating_methods then [UpdatesSession]
      else [Unknown]
  | Notebook _ => [Computes]
  | Unresolved => [Unknown]
  end.

Definition expr_effects (e : expr) : list effect :=
  flat_map (fun c => callee_effects (fst c) (snd c)) (call_of e).

Fixpoint split_word (s : string) : string * string :=
  match s with
  | EmptyString => (EmptyString, EmptyString)
  | String c s' =>
      if Ascii.eqb c " " then (EmptyString, s')
      else let (w, rest) := split_word s' in (String c w, rest)
  end.

(** The programs of the table read the files they are given and write
    none: [file] prints the type of each. *)
Definition reading_programs : list string := ["file"].

(** [!command] runs the program in a process of its own and shows what it
    prints; a program that is not in the table has the effect [Unknown]. *)
Definition shell_effects (command : string) : list effect :=
  let (program, arguments) := split_word command in
  if mem program reading_programs then [RunsProgram program arguments; Displays]
  else [Unknown].

(** The effect of a statement itself, apart from the calls in its
    expressions and from the statements nested in it.  An [import] runs the
    module's own code when the module is loaded, and binds its name in the
    session. *)
Definition own_effects (s : stmt) : list effect :=
  match s with
  | SAssign _ _ | SAugAssign _ _ _ | SDelete _ | SFor _ _ _ _
  | SFunctionDef _ _ _ | SAsyncFunctionDef _ _ _ | SClassDef _ _ _
  | SGlobal _ => [UpdatesSession]
  | SImport module _ | SImportFrom module _ _ => [LoadsModule module; UpdatesSession]
  | SShell command => shell_effects command
  | SPinfo _ => [Displays]
  | _ => []
  end.

(** The notebook shows the value of a cell's last statement when that
    statement is an expression. *)
Definition display_effect (c : cell) : list effect :=
  match last c with
  | Some (SExpr _) => [Displays]
  | _ => []
  end.

(** The effects of a cell, statement by statement in the order of the text:
    first what evaluating the statement's expressions does, then what the
    statement itself does.  An effect inside a loop or a function body is
    listed once, however often it runs. *)
Definition stmt_effects (s : stmt) : list effect :=
  flat_map expr_effects (flat_map subexprs (own_exprs s)) ++ own_effects s.

Definition cell_effects (c : cell) : list effect :=
  flat_map stmt_effects (cell_stmts c) ++ display_effect c.

(** The file a call writes, by the name the call gives it; [None] where the
    effect is not known. *)
Definition writes (e : effect) : list (option string) :=
  match e with
  | WritesFile path => [Some path]
  | Unknown => [None]
  | _ => []
  end.

Definition cell_writes (c : cell) : list (option string) :=
  flat_map writes (cell_effects c).

Definition loads (e : effect) : list string :=
  match e with
  | LoadsModule module => [module]
  | _ => []
  end.

Definition cell_loads (c : cell) : list string :=
  flat_map loads (cell_effects c).

(** The three activities a cell is made of: executing a call that computes a
    value from its arguments, updating the variables of the session, and
    showing a result.  Drawing from the process-wide random generator,
    loading a module, running a program and writing a file act on something
    else than the call's arguments and the session, and are none of the
    three. *)
Inductive activity : Type := ExecutesCall | UpdatesVariables | ShowsResult.

Definition activity_of (e : effect) : option activity :=
  match e with
  | Computes => Some ExecutesCall
  | UpdatesSession => Some UpdatesVariables
  | Displays => Some ShowsResult
  | DrawsRandom | LoadsModule _ | RunsProgram _ _ | WritesFile _ | Unknown => None
  end.

(** *** The files on disk

    A file is known by its canonical path, the list of the directory names
    from the root down to the file's own name.  A file name in the code is
    resolved as [os.path.abspath] does, against the working directory of the
    kernel, and then through the symbolic links of the machine. *)
Definition filepath : Type := list string.

(** The components of a file name, as separated by [/]. *)
Fixpoint split_slash (s : string) : string * list string :=
  match s with
  | EmptyString => (EmptyString, [])
  | String c s' =>
      let (w, rest) := split_slash s' in
      if Ascii.eqb c "/" then (EmptyString, w :: rest) else (String c w, rest)
  end.

Definition components (s : string) : list string :=
  let (w, rest) := split_slash s in w :: rest.

(** One component applied to the directory reached so far, innermost
    directory first: an empty component and [.] stay, [..] goes up (and stays
    at the root), a name goes down. *)
Definition enter (reached : list string) (component : string) : list string :=
  if String.eqb component EmptyString || String.eqb component "." then reached
  else if String.eqb component ".." then tl reached
  else component :: reached.

Definition normpath (base : filepath) (steps : list string) : filepath :=
  rev (fold_left enter steps (rev base)).

Definition is_absolute (name : string) : bool :=
  match name with
  | String c _ => Ascii.eqb c "/"
  | EmptyString => false
  end.

Definition abspath (cwd : filepath) (name : string) : filepath :=
  normpath (if is_absolute name then [] else cwd) (components name).

(** The machine the kernel runs on: its working directory, the canonical
    path behind each path (the identity where no symbolic link is involved),
    and the files that loading a module creates when they do not exist yet
    (caches of the library or of the interpreter), which are the library's
    business and are not fixed here. *)
Record environment : Type := Environment {
  cwd : filepath;
  realpath : filepath -> filepath;
  created_on_load : string -> list filepath
}.

Definition locate (env : environment) (name : string) : filepath :=
  realpath env (abspath (cwd env) name).

(** A file system maps canonical paths to contents.  What is written to a
    file (the [.npy] encoding of an array of random numbers, the content of a
    cache) is left abstract. *)
Section Files.

Variable env : environment.
Variable contents : filepath -> list Byte.byte.

Definition create (fs : gmap filepath (list Byte.byte)) (p : filepath)
  : gmap filepath (list Byte.byte) :=
  match fs !! p with
  | Some _ => fs
  | None => <[p := contents p]> fs
  end.

Definition apply_effect (fs : gmap filepath (list Byte.byte)) (e : effect)
  : gmap filepath (list Byte.byte) :=
  match e with
  | WritesFile name => <[locate env name := contents (locate env name)]> fs
  | LoadsModule module => fold_left create (created_on_load env module) fs
  | _ => fs
  end.

Definition run_cell_files (fs : gmap filepath (list Byte.byte)) (c : cell)
  : gmap filepath (list Byte.byte) :=
  fold_left apply_effect (cell_effects c) fs.

Definition run_files (cells : list cell) (fs : gmap filepath (list Byte.byte))
  : gmap filepath (list Byte.byte) :=
  fold_left run_cell_files cells fs.

End Files.

(** A Linux machine on which matplotlib has not run before.  On its first
    import [matplotlib.pyplot] builds the list of the installed fonts and
    stores it in the library's cache directory, [.cache/matplotlib] under the
    user's home directory; the file is [fontlist-v330.json] for the font
    manager of the releases 3.3 to 3.8. *)
Definition home : filepath := ["home"; "user"].

Definition font_cache : filepath :=
  home ++ [".cache"; "matplotlib"; "fontlist-v330.json"].

Definition fresh_home : environment :=
  {| cwd := home ++ ["Python-Basics-Webinar"];
     realpath := fun p => p;
     created_on_load := fun module =>
       if String.eqb module "matplotlib.pyplot" then [font_cache] else [] |}.

(** *** The environment of the session

    What a cell can act on apart from the variables of the session and the
    output under the cell: the files on disk, the state of the numeric
    library's random generator (known here by the number of drawing calls
    made so far) and the programs that have been run, each with its
    arguments.  An effect that is not known is given no action; the
    properties below show that the cells have none. *)
Record world : Type := World {
  disk : gmap filepath (list Byte.byte);
  draws : nat;
  programs : list (string * string)
}.

Section World.

Variable env : environment.
Variable contents : filepath -> list Byte.byte.

Definition act (w : world) (e : effect) : world :=
  match e with
  | DrawsRandom => World (disk w) (S (draws w)) (programs w)
  | RunsProgram program arguments =>
      World (disk w) (draws w) (programs w ++ [(program, arguments)])
  | WritesFile _ | LoadsModule _ =>
      World (apply_effect env contents (disk w) e) (draws w) (programs w)
  | Computes | UpdatesSession | Displays | Unknown => w
  end.

Definition run_cell (w : world) (c : cell) : world :=
  fold_left act (cell_effects c) w.

(** The cells run once each, in the order of the text. *)
Definition run (cells : list cell) (w : world) : world :=
  fold_left run_cell cells w.

End World.

Definition drawn (e : effect) : nat :=
  match e with
  | DrawsRandom => 1
  | _ => 0
  end.

Definition ran (e : effect) : list (string * string) :=
  match e with
  | RunsProgram program arguments => [(program, arguments)]
  | _ => []
  end.

(** The effects of the cells that are none of the three activities, each
    with its cell. *)
Definition within_activities (e : effect) : bool :=
  match activity_of e with
  | Some _ => true
  | None => false
  end.

Definition outside_activities (e : effect) : bool := negb (within_activities e).

Definition cell_side_effects (c : cell) : list (cell * effect) :=
  map (pair c) (List.filter outside_activities (cell_effects c)).


(** *** Checks over the whole source, as boolean functions *)

Definition known_callee (c : callee) : bool :=
  match c with
  | Builtin f => mem f pure_builtins || mem f printing_builtins
  | Library "numpy" [f] => mem f pure_numpy || String.eqb f "save"
  | Library "numpy" ["random"; f] => mem f ["randn"; "randint"; "shuffle"]
  | Library _ _ => false
  | Method m => mem m pure_methods || mem m mutating_methods
  | Notebook f => mem f notebook_functions
  | Unresolved => false
  end.

(** *** What the notebook shows under a cell

    The value of the cell's last expression, or the traceback of the
    exception that ended the cell. *)
Inductive output : Type :=
| Shown (v : value)
| Traceback (e : exn).

Definition display (r : result value) : output :=
  match r with
  | Ok v => Shown v
  | Raise e => Traceback e
  end.

(** * The cells as functions of the session variables they read

    A cell that reads a variable bound by an earlier cell (the random vector
    [integers], the arrays [a], [A] and [arr], the list [my_2d_array]) is a
    function of that variable's value; a cell that starts by binding its own
    data is split into the binding and the statements that follow.  The cells
    below are embedded in that way, over Python's lists and the numeric
    library's integer vectors. *)

(** ** Exceptions and outcomes *)

(** The exceptions met in this part: those of [exn]; [IndexError], which a
    sequence raises for a position out of range; [NameError], for a name that
    is not bound. *)
Inductive exception : Type :=
| Standard (e : exn)
| IndexError
| NameError.

Inductive outcome (A : Type) : Type :=
| Returns (a : A)
| Throws (e : exception).

Arguments Returns {A} a.
Arguments Throws {A} e.

#[global] Instance outcome_ret : MRet outcome := @Returns.

#[global] Instance outcome_bind : MBind outcome :=
  fun A B k r =>
    match r with
    | Returns a => k a
    | Throws e => Throws e
    end.

Definition lift {A : Type} (r : result A) : outcome A :=
  match r with
  | Ok a => Returns a
  | Raise e => Throws (Standard e)
  end.

(** ** Sequences: positions, items and slices *)

Definition len {A : Type} (l : list A) : Z := Z.of_nat (length l).

(** A negative position counts from the end. *)
Definition wrap_index (n i : Z) : Z := if i <? 0 then i + n else i.

(** [l[i]] *)
Definition getitem {A : Type} (l : list A) (i : Z) : outcome A :=
  let j := wrap_index (len l) i in
  if j <? 0 then Throws IndexError
  else match l !! Z.to_nat j with
       | Some a => Returns a
       | None => Throws IndexError
       end.

(** [l[i] = a] *)
Definition setitem {A : Type} (l : list A) (i : Z) (a : A) : outcome (list A) :=
  let j := wrap_index (len l) i in
  if (0 <=? j) && (j <? len l) then Returns (<[Z.to_nat j := a]> l)
  else Throws IndexError.

(** [del l[i]] *)
Definition delitem {A : Type} (l : list A) (i : Z) : outcome (list A) :=
  let j := wrap_index (len l) i in
  if (0 <=? j) && (j <? len l) then Returns (delete (Z.to_nat j) l)
  else Throws IndexError.

(** A slice [lower:upper:step]; an omitted bound is [None]. *)
Record slice : Type := Slice { lower : option Z; upper : option Z; step : option Z }.

(** One bound of a slice brought into range for a sequence of [n] items, as
    the interpreter does it: a negative bound counts from the end, and a bound
    beyond either end is clipped to that end (to the position before the
    first item when the slice runs backwards). *)
Definition clip (n stp i : Z) : Z :=
  if i <? 0 then
    (if i + n <? 0 then (if stp <? 0 then -1 else 0) else i + n)
  else if n <=? i then (if stp <? 0 then n - 1 else n)
  else i.

(** The first position, the step and the number of positions a slice selects
    in a sequence of [n] items.  A step of zero is a [ValueError]. *)
Definition slice_indices (n : Z) (s : slice) : outcome (Z * Z * Z) :=
  let stp := default 1 (step s) in
  if stp =? 0 then Throws (Standard ValueError)
  else
    let start := match lower s with
                 | Some i => clip n stp i
                 | None => if stp <? 0 then n - 1 else 0
                 end in
    let stop := match upper s with
                | Some i => clip n stp i
                | None => if stp <? 0 then -1 else n
                end in
    let count := if stp <? 0
                 then (if stop <? start then (start - stop - 1) / (- stp) + 1 else 0)
                 else (if start <? stop then (stop - start - 1) / stp + 1 else 0) in
    Returns (start, stp, count).

Definition positions (start stp count : Z) : list nat :=
  (fun k => Z.to_nat (start + k * stp)) <$> seqZ 0 count.

(** [l[lower:upper:step]] *)
Definition getslice {A : Type} (l : list A) (s : slice) : outcome (list A) :=
  '(start, stp, count) ← slice_indices (len l) s;
  Returns (omap (fun p => l !! p) (positions start stp count)).

(** [range(start, stop, step)] as the list of its items. *)
Definition range3 (start stop stp : Z) : outcome (list Z) :=
  if stp =? 0 then Throws (Standard ValueError)
  else
    let count := if stp <? 0
                 then (if stop <? start then (start - stop - 1) / (- stp) + 1 else 0)
                 else (if start <? stop then (stop - start - 1) / stp + 1 else 0) in
    Returns ((fun k => start + k * stp) <$> seqZ 0 count).

(** [range(stop)] *)
Definition range1 (stop : Z) : outcome (list Z) := range3 0 stop 1.

(** ** initial-python-tutorial, cell 14: the list methods

<<
number_list = [0, 15, 32, 99, 852, 16]
number_list.append(82)
number_list.remove(15)
del number_list[3]
number = number_list.pop(2)
number_list.reverse()
number_list.sort()
minimum = min(number_list)
maximum = max(number_list)
>> *)

(** [l.remove(x)] deletes the first item equal to [x]; there must be one. *)
Fixpoint list_remove (x : Z) (l : list Z) : outcome (list Z) :=
  match l with
  | [] => Throws (Standard ValueError)
  | y :: l' =>
      if y =? x then Returns l'
      else l'' ← list_remove x l'; Returns (y :: l'')
  end.

(** [l.pop(i)] returns the item at [i] and the list without it. *)
Definition list_pop (l : list Z) (i : Z) : outcome (Z * list Z) :=
  x ← getitem l i;
  l' ← delitem l i;
  Returns (x, l').

(** [min(l)] and [max(l)] need a non-empty list. *)
Definition py_min (l : list Z) : outcome Z :=
  match l with
  | [] => Throws (Standard ValueError)
  | x :: l' => Returns (foldl Z.min x l')
  end.

Definition py_max (l : list Z) : outcome Z :=
  match l with
  | [] => Throws (Standard ValueError)
  | x :: l' => Returns (foldl Z.max x l')
  end.

(** The variables the cell leaves in the session. *)
Record list_demo : Type := ListDemo {
  number_list : list Z;
  number : Z;
  minimum : Z;
  maximum : Z
}.

(** The statements of the cell after the first, from the list they start
    with.  [l.sort()] orders a list of ints ascending. *)
Definition list_methods (l0 : list Z) : outcome list_demo :=
  let l1 := l0 ++ [82] in
  l2 ← list_remove 15 l1;
  l3 ← delitem l2 3;
  '(n, l4) ← list_pop l3 2;
  let l5 := rev l4 in
  let l6 := merge_sort Z.le l5 in
  lo ← py_min l6;
  hi ← py_max l6;
  Returns (ListDemo l6 n lo hi).

Definition tutorial_cell_14_result : outcome list_demo :=
  list_methods [0; 15; 32; 99; 852; 16].

(** ** initial-python-tutorial, cell 24: two loops over the positions

<<
for i in range(0, len(my_2d_array), 1):
    print(my_2d_array[i])
for i in range(len(my_2d_array)):
    print(my_2d_array[i])
>>
    A loop is run to the list of what it prints and the exception that ended
    it, if any. *)
Fixpoint print_items {A : Type} (l : list A) (indices : list Z)
  : list A * option exception :=
  match indices with
  | [] => ([], None)
  | i :: indices' =>
      match getitem l i with
      | Returns a => let (printed, e) := print_items l indices' in (a :: printed, e)
      | Throws e => ([], Some e)
      end
  end.

Definition print_over {A : Type} (l : list A) (r : outcome (list Z))
  : list A * option exception :=
  match r with
  | Returns indices => print_items l indices
  | Throws e => ([], Some e)
  end.

Definition index_loops {A : Type} (my_2d_array : list A) : list A * option exception :=
  match print_over my_2d_array (range3 0 (len my_2d_array) 1) with
  | (printed, Some e) => (printed, Some e)
  | (printed, None) =>
      let (printed', e) := print_over my_2d_array (range1 (len my_2d_array)) in
      (printed ++ printed', e)
  end.

(** ** initial-python-tutorial, cell 26: a search with [for] ... [else]

<<
for name in names:
    if name == "Leanord":
        print("Found Leanord!")
        break
else:
    print("Did not find Leanord!")
>>
    and the same loop for ["Evan"].  The [else] clause runs when the loop
    ends without [break]. *)
Fixpoint search (names : list string) (target found missing : string) : list string :=
  match names with
  | [] => [missing]
  | name :: names' =>
      if String.eqb name target then [found]
      else search names' target found missing
  end.

Definition searches (names : list string) : list string :=
  search names "Leanord" "Found Leanord!" "Did not find Leanord!"
    ++ search names "Evan" "Found Evan!" "Did not find Evan!".

(** ** initial-python-tutorial, cell 28: the [while] loop

<<
some_int = 0
while(True):
    print(some_int)
    some_int += 1
    if some_int > 5:
        break
>>
    The loop from the value [some_int] starts with, by iterations left: the
    numbers printed and the final value of [some_int], or [None] when the
    iterations run out first. *)
Fixpoint count_up (fuel : nat) (some_int : Z) : option (list Z * Z) :=
  match fuel with
  | O => None
  | S fuel' =>
      let printed := some_int in
      let some_int' := some_int + 1 in
      if 5 <? some_int' then Some ([printed], some_int')
      else
        match count_up fuel' some_int' with
        | Some (rest, final) => Some (printed :: rest, final)
        | None => None
        end
  end.

(** ** introduction-to-numpy, cells 32 to 69: the vector [integers]

    [integers = np.random.randint(23, size=num_samples)] binds a vector of
    random integers; the cells that index and slice it are functions of its
    value. *)

(** Cell 33: [integers[2]] *)
Definition integers_third (integers : list Z) : outcome Z := getitem integers 2.

(** The float literal [99.21] in binary64. *)
Definition float_99_21 : spec_float := S754_finite false 6981283109866045 (-46).

(** Cell 43: [integers[4] = 99.21].  A float stored into an integer vector is
    converted to the vector's dtype. *)
Definition integers_assign (integers : list Z) : outcome (list Z) :=
  z ← lift (to_int64 (VFloat float_99_21));
  setitem integers 4 z.

(** Cell 46: [integers[-5:]] *)
Definition integers_last_five (integers : list Z) : outcome (list Z) :=
  getslice integers (Slice (Some (-5)) None None).

(** Cell 47: [integers[::2]] *)
Definition integers_alternate (integers : list Z) : outcome (list Z) :=
  getslice integers (Slice None None (Some 2)).

(** Cell 48: [integers[::-1]] *)
Definition integers_reversed (integers : list Z) : outcome (list Z) :=
  getslice integers (Slice None None (Some (-1))).

(** Cell 49: [integers[3::]] *)
Definition integers_from_fourth (integers : list Z) : outcome (list Z) :=
  getslice integers (Slice (Some 3) None None).

(** Cell 50: [integers[3::-1]] *)
Definition integers_back_from_fourth (integers : list Z) : outcome (list Z) :=
  getslice integers (Slice (Some 3) None (Some (-1))).

(** [x[lower:upper:step] = values] on a vector: the values must number as many
    as the positions the slice selects, or be a single value, which then goes
    to every position; any other number cannot be broadcast and is a
    [ValueError]. *)
Definition setslice (l : list Z) (s : slice) (values : list Z) : outcome (list Z) :=
  '(start, stp, count) ← slice_indices (len l) s;
  let ps := positions start stp count in
  if len values =? count then
    Returns (foldl (fun acc pv => <[fst pv := snd pv]> acc) l (zip ps values))
  else
    match values with
    | [v] => Returns (foldl (fun acc p => <[p := v]> acc) l ps)
    | _ => Throws (Standard ValueError)
    end.

(** Cell 53: [integers[-2:] = [-23, -46]] *)
Definition integers_assign_tail (integers : list Z) : outcome (list Z) :=
  setslice integers (Slice (Some (-2)) None None) [-23; -46].

(** [x[mask]] with a boolean mask: the mask must be as long as the vector;
    the items under [True] are selected. *)
Fixpoint select {A : Type} (l : list A) (mask : list bool) : list A :=
  match l, mask with
  | a :: l', b :: mask' => if b then a :: select l' mask' else select l' mask'
  | _, _ => []
  end.

Definition getmask {A : Type} (l : list A) (mask : list bool) : outcome (list A) :=
  if (length l =? length mask)%nat then Returns (select l mask)
  else Throws IndexError.

(** Cell 68:
    [row_mask = np.array([True, False, True, False, True, False, True, False, True, False])] *)
Definition row_mask : list bool :=
  [true; false; true; false; true; false; true; false; true; false].

(** Cell 69: [row_mask = np.array([1, 0, 1, 0, 1, 0, 1, 0, 1, 0], dtype=np.bool)] *)
Definition row_mask_from_ints : list bool :=
  (fun z => negb (z =? 0)) <$> [1; 0; 1; 0; 1; 0; 1; 0; 1; 0].

(** Cells 68 and 69: [integers[row_mask]] *)
Definition integers_masked (integers : list Z) (mask : list bool) : outcome (list Z) :=
  getmask integers mask.

(** The items at the positions 0, 2, 4, ... of a list; it states what cells
    47, 68 and 69 select. *)
Fixpoint every_other {A : Type} (l : list A) : list A :=
  match l with
  | [] => []
  | [a] => [a]
  | a :: _ :: l' => a :: every_other l'
  end.

(** ** introduction-to-numpy, cells 77 to 81: a slice is a view

<<
a = np.arange(10)
s1 = a[1::3]
a[7] = 77
s1
>>
    A basic slice of a vector does not copy: it records where its items lie
    in the vector's buffer, and is read from the buffer as it is at that
    time. *)
Record ndview : Type := View { vstart : Z; vstep : Z; vcount : Z }.

Definition view_of (buffer : list Z) (s : slice) : outcome ndview :=
  '(start, stp, count) ← slice_indices (len buffer) s;
  Returns (View start stp count).

Definition read_view (buffer : list Z) (v : ndview) : list Z :=
  omap (fun p => buffer !! p) (positions (vstart v) (vstep v) (vcount v)).

(** Cell 78: [s1 = a[1::3]] *)
Definition view_s1 (a : list Z) : outcome ndview :=
  view_of a (Slice (Some 1) None (Some 3)).

(** Cell 81: [a[7] = 77] followed by the display of [s1]; the result is the
    buffer of [a] and what [s1] shows. *)
Definition assign_and_show (a : list Z) (s1 : ndview) : outcome (list Z * list Z) :=
  a' ← setitem a 7 77;
  Returns (a', read_view a' s1).

(** ** introduction-to-numpy, cells 131 to 136: a second name and a copy

<<
B = A
B[0,0] = 10
A
B = np.copy(A)
B[0,0] = -5
A
>>
    The session binds names to objects; an assignment of one name to another
    binds the same object, [np.copy] makes a new one. *)
Record session : Type := Session {
  names : gmap string nat;
  objects : gmap nat (list (list Z))
}.

Definition read (s : session) (x : string) : outcome (list (list Z)) :=
  match names s !! x with
  | Some o =>
      match objects s !! o with
      | Some m => Returns m
      | None => Throws (Standard OutsideModel)
      end
  | None => Throws NameError
  end.

(** [x = y] *)
Definition assign_name (s : session) (x y : string) : outcome session :=
  match names s !! y with
  | Some o => Returns (Session (<[x := o]> (names s)) (objects s))
  | None => Throws NameError
  end.

(** [x = np.copy(y)] *)
Definition assign_copy (s : session) (x y : string) : outcome session :=
  m ← read s y;
  let o := fresh (dom (objects s)) in
  Returns (Session (<[x := o]> (names s)) (<[o := m]> (objects s))).

(** [m[i, j] = v] on the rows of a matrix. *)
Definition setitem2 (m : list (list Z)) (i j v : Z) : outcome (list (list Z)) :=
  row ← getitem m i;
  row' ← setitem row j v;
  setitem m i row'.

(** [x[i, j] = v] *)
Definition assign_item (s : session) (x : string) (i j v : Z) : outcome session :=
  match names s !! x with
  | Some o =>
      match objects s !! o with
      | Some m =>
          m' ← setitem2 m i j v;
          Returns (Session (names s) (<[o := m']> (objects s)))
      | None => Throws (Standard OutsideModel)
      end
  | None => Throws NameError
  end.

(** Cells 132 and 133, then the value of [A] that cell 133 displays. *)
Definition alias_and_assign (s : session) : outcome (list (list Z)) :=
  s1 ← assign_name s "B" "A";
  s2 ← assign_item s1 "B" 0 0 10;
  read s2 "A".

(** Cells 135 and 136, then the values of [A] (which cell 136 displays) and
    of [B]. *)
Definition copy_and_assign (s : session) : outcome (list (list Z) * list (list Z)) :=
  s1 ← assign_copy s "B" "A";
  s2 ← assign_item s1 "B" 0 0 (-5);
  a ← read s2 "A";
  b ← read s2 "B";
  Returns (a, b).

(** Cell 131: [A = np.array([[1, 2], [3, 4]])] in an empty session. *)
Definition session_131 : session :=
  Session {[ "A" := 0%nat ]} {[ 0%nat := [[1; 2]; [3; 4]] ]}.

(** ** introduction-to-numpy, cells 91 to 94: the place of the maximum

<<
arr = np.arange(4, 2 * 11).reshape(2, 9)
amax = np.argmax(arr, axis=None)
idx = np.unravel_index(amax, arr.shape)
arr[idx]
np.max(arr)
>>
    A two-dimensional array is its shape and its items in row-major order. *)
Record matrix : Type := Matrix { nrows : Z; ncols : Z; flat : list Z }.

Definition well_shaped (m : matrix) : Prop :=
  0 <= nrows m /\ 0 <= ncols m /\ len (flat m) = nrows m * ncols m.

(** [np.arange(start, stop)] *)
Definition arange (start stop : Z) : list Z := seqZ start (stop - start).

(** [x.reshape(r, c)] of a vector; the number of items must not change.  One
    of the two dimensions may be given as [-1] and is then inferred from the
    other, which must be positive and divide the number of items. *)
Definition reshape (x : list Z) (r c : Z) : outcome matrix :=
  if (r =? -1) && (c =? -1) then Throws (Standard ValueError)
  else if r =? -1 then
    if (0 <? c) && (len x mod c =? 0) then Returns (Matrix (len x / c) c x)
    else Throws (Standard ValueError)
  else if c =? -1 then
    if (0 <? r) && (len x mod r =? 0) then Returns (Matrix r (len x / r) x)
    else Throws (Standard ValueError)
  else if (0 <=? r) && (0 <=? c) && (len x =? r * c) then Returns (Matrix r c x)
  else Throws (Standard ValueError).

(** The position of the first greatest item among [l], given the best
    position and item so far and the position of the head of [l]. *)
Fixpoint argmax_from (best_at best at_ : Z) (l : list Z) : Z :=
  match l with
  | [] => best_at
  | x :: l' =>
      if best <? x then argmax_from at_ x (at_ + 1) l'
      else argmax_from best_at best (at_ + 1) l'
  end.

(** [np.argmax(arr, axis=None)]: the position, in the flattened array, of the
    first occurrence of the maximum; an empty array has none. *)
Definition np_argmax (m : matrix) : outcome Z :=
  match flat m with
  | [] => Throws (Standard ValueError)
  | x :: l => Returns (argmax_from 0 x 1 l)
  end.

(** [np.unravel_index(k, (r, c))] *)
Definition unravel_index (k : Z) (r c : Z) : outcome (Z * Z) :=
  if (0 <=? k) && (k <? r * c) then Returns (k / c, k mod c)
  else Throws (Standard ValueError).

(** [arr[(i, j)]] *)
Definition getitem2 (m : matrix) (idx : Z * Z) : outcome Z :=
  let i := wrap_index (nrows m) (fst idx) in
  let j := wrap_index (ncols m) (snd idx) in
  if (0 <=? i) && (i <? nrows m) && (0 <=? j) && (j <? ncols m) then
    getitem (flat m) (i * ncols m + j)
  else Throws IndexError.

(** [np.max(arr)] *)
Definition np_max (m : matrix) : outcome Z := py_max (flat m).

(** Cells 92 and 93 *)
Definition item_at_argmax (arr : matrix) : outcome Z :=
  amax ← np_argmax arr;
  idx ← unravel_index amax (nrows arr) (ncols arr);
  getitem2 arr idx.

(** Cell 91 *)
Definition arr_91 : outcome matrix := reshape (arange 4 (2 * 11)) 2 9.

(** ** introduction-to-numpy, cells 55 to 61: the array [twenty]

    [twenty = (np.arange(20)).reshape(4, 5)].  The cells slice it along both
    axes; here a two-dimensional array is the list of its rows. *)
Fixpoint each {A B : Type} (f : A -> outcome B) (l : list A) : outcome (list B) :=
  match l with
  | [] => Returns []
  | a :: l' => b ← f a; bs ← each f l'; Returns (b :: bs)
  end.

(** [m[rows, columns]] with a slice on each axis. *)
Definition getslice2 (m : list (list Z)) (rows columns : slice) : outcome (list (list Z)) :=
  selected ← getslice m rows;
  each (fun row => getslice row columns) selected.

(** [:], which is also what [...] stands for on the one axis it covers. *)
Definition whole : slice := Slice None None None.

Definition backwards : slice := Slice None None (Some (-1)).

(** Cell 56: [twenty[:2, :3]] *)
Definition twenty_block (twenty : list (list Z)) : outcome (list (list Z)) :=
  getslice2 twenty (Slice None (Some 2) None) (Slice None (Some 3) None).

(** Cell 57: [twenty[::3, ::4]] *)
Definition twenty_corners (twenty : list (list Z)) : outcome (list (list Z)) :=
  getslice2 twenty (Slice None None (Some 3)) (Slice None None (Some 4)).

(** Cells 58 and 59: [twenty[::-1, ...]] and [twenty[..., ::-1]], which are
    what [np.flipud] and [np.fliplr] return. *)
Definition flipud (m : list (list Z)) : outcome (list (list Z)) :=
  getslice2 m backwards whole.

Definition fliplr (m : list (list Z)) : outcome (list (list Z)) :=
  getslice2 m whole backwards.

(** Cell 60: [twenty[::-1, ::-1]], which is what [np.flip(twenty, axis=(0, 1))]
    returns. *)
Definition flip_both (m : list (list Z)) : outcome (list (list Z)) :=
  getslice2 m backwards backwards.

(** Cell 61: [np.flipud(np.fliplr(twenty))] and [np.fliplr(np.flipud(twenty))] *)
Definition flipud_fliplr (twenty : list (list Z)) : outcome (list (list Z)) :=
  m ← fliplr twenty; flipud m.

Definition fliplr_flipud (twenty : list (list Z)) : outcome (list (list Z)) :=
  m ← flipud twenty; fliplr m.

(** ** introduction-to-numpy, cells 105 to 113: shapes that broadcast

<<
vec = np.arange(0, 5)
arr = np.arange(4 * 5).reshape(4, 5)
vec * arr
vec[:, None] * arr
vec[:4, None] * arr
>>
    Two shapes are aligned at their last axes; the sizes of an axis must be
    equal or one of them 1, and an axis that one shape lacks is taken from the
    other.  The functions below work on shapes written last axis first. *)
Fixpoint broadcast_reversed (s1 s2 : list Z) : outcome (list Z) :=
  match s1, s2 with
  | [], s | s, [] => Returns s
  | a :: s1', b :: s2' =>
      rest ← broadcast_reversed s1' s2';
      if a =? b then Returns (a :: rest)
      else if a =? 1 then Returns (b :: rest)
      else if b =? 1 then Returns (a :: rest)
      else Throws (Standard ValueError)
  end.

Definition broadcast_shapes (s1 s2 : list Z) : outcome (list Z) :=
  s ← broadcast_reversed (rev s1) (rev s2);
  Returns (rev s).

(** The number of items a slice selects from an axis of [n] items. *)
Definition slice_count (n : Z) (s : slice) : outcome Z :=
  '(_, _, count) ← slice_indices n s;
  Returns count.

(** Cell 111: the shape of [vec * arr], from the length of [vec] and the
    shape of [arr]. *)
Definition product_shape (n : Z) (shape : list Z) : outcome (list Z) :=
  broadcast_shapes [n] shape.

(** Cell 112: the shape of [vec[:, None] * arr]; the index [None] adds an axis
    of size 1. *)
Definition column_product_shape (n : Z) (shape : list Z) : outcome (list Z) :=
  k ← slice_count n whole;
  broadcast_shapes [k; 1] shape.

(** Cell 113: the shape of [vec[:4, None] * arr] *)
Definition short_column_product_shape (n : Z) (shape : list Z) : outcome (list Z) :=
  k ← slice_count n (Slice None (Some 4) None);
  broadcast_shapes [k; 1] shape.

(** ** Names and where they are bound

    A run of a notebook from its first cell to its last reads a name only
    after binding it, unless the name is a builtin.  The check below follows
    the statements in order and keeps the names that are certainly bound: a
    name bound inside a loop or a branch counts only there, the parameters of
    a function count in its body. *)
Definition builtin_names : list string :=
  ["print"; "len"; "range"; "type"; "min"; "max"; "help"].

Definition without (hidden names : list string) : list string :=
  List.filter (fun x => negb (mem x hidden)) names.

(** The names an assignment to [e] binds. *)
Fixpoint targets (e : expr) : list string :=
  match e with
  | EName x => [x]
  | ETuple elts | EList elts => flat_map targets elts
  | _ => []
  end.

(** The names an expression reads. *)
Fixpoint reads (e : expr) : list string :=
  match e with
  | EName x => [x]
  | EInt _ | EFloat _ | EImag _ | EStr _ | EBool _ | ENone | EEllipsis => []
  | EJoinedStr values => flat_map reads values
  | EFormattedValue e1 => reads e1
  | EAttribute e1 _ => reads e1
  | ECall func args keywords =>
      reads func ++ flat_map reads args ++ flat_map (fun kw => reads (snd kw)) keywords
  | ESubscript e1 slice => reads e1 ++ reads slice
  | ESlice lower upper step =>
      match lower with Some e1 => reads e1 | None => [] end
        ++ match upper with Some e1 => reads e1 | None => [] end
        ++ match step with Some e1 => reads e1 | None => [] end
  | ETuple elts | EList elts => flat_map reads elts
  | EDict entries => flat_map (fun kv => reads (fst kv) ++ reads (snd kv)) entries
  | EBinOp l _ r => reads l ++ reads r
  | EUnaryOp _ e1 => reads e1
  | ECompare l _ r => reads l ++ reads r
  | EIfExp test body orelse => reads test ++ reads body ++ reads orelse
  | EListComp elt target iter => reads iter ++ without (targets target) (reads elt)
  | ELambda params body => without params (reads body)
  | EAwait e1 => reads e1
  end.

(** What an assignment reads of its target: nothing of a name, the object and
    the index of a subscript, the object of an attribute. *)
Fixpoint target_reads (e : expr) : list string :=
  match e with
  | EName _ => []
  | ETuple elts | EList elts => flat_map target_reads elts
  | _ => reads e
  end.

(** The names a statement certainly binds for the statements after it. *)
Definition binds (s : stmt) : list string :=
  match s with
  | SAssign target _ | SAugAssign target _ _ => targets target
  | SFunctionDef name _ _ | SAsyncFunctionDef name _ _ | SClassDef name _ _ => [name]
  | SImport module None => [fst (split_word module)]
  | SImport _ (Some alias) | SImportFrom _ _ (Some alias) => [alias]
  | SImportFrom _ name None => [name]
  | _ => []
  end.

(** The names a statement reads that are not among [bound]. *)
Fixpoint unbound_in (bound : list string) (s : stmt) {struct s} : list string :=
  let block :=
    fix block (bound : list string) (body : list stmt) {struct body} : list string :=
      match body with
      | [] => []
      | s' :: body' => unbound_in bound s' ++ block (bound ++ binds s') body'
      end in
  let params_of := fun params : list (string * option expr) =>
    without bound (flat_map (fun p => flat_map reads (option_list (snd p))) params) in
  match s with
  | SExpr e | SAssert e => without bound (reads e)
  | SAssign target value => without bound (reads value ++ target_reads target)
  | SAugAssign target _ value => without bound (reads target ++ reads value)
  | SDelete target => without bound (reads target)
  | SFor target iter body orelse =>
      without bound (reads iter ++ target_reads target)
        ++ block (bound ++ targets target) body ++ block bound orelse
  | SWhile test body orelse | SIf test body orelse =>
      without bound (reads test) ++ block bound body ++ block bound orelse
  | SReturn value | SRaise value => without bound (flat_map reads (option_list value))
  | SFunctionDef name params body | SAsyncFunctionDef name params body =>
      params_of params ++ block (bound ++ name :: map fst params) body
  | SClassDef _ bases body => without bound (flat_map reads bases) ++ block bound body
  | STry body handlers orelse finalbody =>
      block bound body ++ block bound handlers ++ block bound orelse
        ++ block bound finalbody
  | SExceptHandler type body =>
      without bound (flat_map reads (option_list type)) ++ block bound body
  | SWith context body => without bound (reads context) ++ block bound body
  | SBreak | SContinue | SPass | SImport _ _ | SImportFrom _ _ _ | SGlobal _
  | SShell _ | SPinfo _ => []
  end.

Fixpoint unbound_from (bound : list string) (body : list stmt) : list string :=
  match body with
  | [] => []
  | s :: body' => unbound_in bound s ++ unbound_from (bound ++ binds s) body'
  end.

(** The names a notebook reads before binding them, its cells run in order
    in a fresh session. *)
Definition unbound_names (cells : list cell) : list string :=
  unbound_from builtin_names (concat cells).


(** Every name read anywhere in the cells. *)
Definition names_read (cells : list cell) : list string :=
  flat_map reads (flat_map own_exprs (flat_map cell_stmts cells)).

(** A draw of [np.random.randint(23, size=10)], used to run the cells on. *)
Definition integers_sample : list Z := [12; 5; 0; 22; 7; 19; 3; 3; 14; 8].

(** * Properties *)

(** ** The result monad and the helpers *)

Lemma bind_Ok {A B : Type} (a : A) (k : A -> result B) : bind (Ok a) k = k a.
Proof. reflexivity. Qed.

Lemma bind_Raise {A B : Type} (e : exn) (k : A -> result B) : bind (Raise e) k = Raise e.
Proof. reflexivity. Qed.

Lemma mapM_Ok {A B : Type} (f : A -> result B) (g : A -> B) (l : list A) :
  (forall a, f a = Ok (g a)) -> mapM f l = Ok (map g l).
Proof.
  intros Hf. induction l as [| a l IH]; simpl.
  - reflexivity.
  - rewrite Hf, IH. reflexivity.
Qed.

Lemma mapM_map {A B C : Type} (f : B -> result C) (h : A -> B) (l : list A) :
  mapM f (map h l) = mapM (fun a => f (h a)) l.
Proof.
  induction l as [| a l IH]; simpl.
  - reflexivity.
  - rewrite IH. reflexivity.
Qed.

Lemma items_length (a : ndarray) : length (items a) = ndarray_size a.
Proof. destruct a; simpl; apply length_map. Qed.

Lemma forallb_Forall {A : Type} (f : A -> bool) (P : A -> Prop) (l : list A) :
  (forall a, f a = true -> P a) -> forallb f l = true -> Forall P l.
Proof.
  intros HfP. induction l as [| a l IH]; simpl; intros H.
  - constructor.
  - apply andb_true_iff in H as [Ha Hl]. constructor; auto.
Qed.

(** ** The order against zero *)

(** [SFleb 0 f] holds exactly when [f] compares greater than or equal to
    zero; NaN compares neither way. *)
Lemma SFleb_zero (f : spec_float) :
  SFleb float_zero f =
  match SFcompare f float_zero with
  | Some Gt | Some Eq => true
  | _ => false
  end.
Proof. destruct f as [s | s | | s m e]; try destruct s; reflexivity. Qed.

Lemma ge0_scalar (x : value) (c : comparison) :
  cmp0 x = Some c ->
  ge0 x = Ok (VBool match c with Lt => false | _ => true end).
Proof.
  destruct x as [z | f | b | re im | s | | a]; simpl; try discriminate.
  - intros [= <-]. unfold Z.leb. rewrite (Z.compare_antisym z 0).
    destruct (z ?= 0); reflexivity.
  - intros H. rewrite SFleb_zero, H. destruct c; reflexivity.
  - intros [= <-]. destruct b; reflexivity.
Qed.

(** ** The scalar [Theta] *)

Lemma Theta_of_bool (x : value) (b : bool) :
  ge0 x = Ok (VBool b) -> Scalar.Theta x = Ok (VInt (Z.b2z b)).
Proof. intros H. unfold Scalar.Theta. rewrite H. destruct b; reflexivity. Qed.

Lemma Theta_int (z : Z) : Scalar.Theta (VInt z) = Ok (VInt (if 0 <=? z then 1 else 0)).
Proof. unfold Scalar.Theta; simpl. destruct (0 <=? z); reflexivity. Qed.

Lemma Theta_float (f : spec_float) :
  Scalar.Theta (VFloat f) = Ok (VInt (if SFleb float_zero f then 1 else 0)).
Proof. unfold Scalar.Theta; simpl. destruct (SFleb float_zero f); reflexivity. Qed.

Lemma Theta_bool (b : bool) : Scalar.Theta (VBool b) = Ok (VInt 1).
Proof. destruct b; reflexivity. Qed.

(** NaN is neither negative nor non-negative; the [else] branch takes it. *)
Example Theta_nan : Scalar.Theta (VFloat S754_nan) = Ok (VInt 0).
Proof. reflexivity. Qed.

Example Theta_negative_zero : Scalar.Theta (VFloat (S754_zero true)) = Ok (VInt 1).
Proof. reflexivity. Qed.

Example Theta_complex : Scalar.Theta (VComplex float_2_6 float_zero) = Raise TypeError.
Proof. reflexivity. Qed.

(** C8: for every scalar input x, the scalar implementation of the Heaviside
    step function returns 1 when x >= 0 and returns 0 when x < 0.  The order
    is that of the integers for an int or a bool and the IEEE order for a
    float. *)
Theorem Theta_scalar_step (x : value) :
  (cmp0 x = Some Gt \/ cmp0 x = Some Eq -> Scalar.Theta x = Ok (VInt 1)) /\
  (cmp0 x = Some Lt -> Scalar.Theta x = Ok (VInt 0)).
Proof.
  split.
  - intros [H | H]; apply ge0_scalar in H; apply (Theta_of_bool x true H).
  - intros H. apply ge0_scalar in H. apply (Theta_of_bool x false H).
Qed.

Lemma Theta_scalar_step_witness :
  Scalar.Theta (VInt 3) = Ok (VInt 1) /\
  Scalar.Theta (VInt 0) = Ok (VInt 1) /\
  Scalar.Theta (VFloat float_m1_2) = Ok (VInt 0).
Proof.
  split; [| split].
  - apply (Theta_scalar_step (VInt 3)). left. reflexivity.
  - apply (Theta_scalar_step (VInt 0)). right. reflexivity.
  - apply (Theta_scalar_step (VFloat float_m1_2)). reflexivity.
Defined.

(** ** The scalar [Theta] on a vector *)

Lemma ge0_array (a : ndarray) :
  exists bs, ge0 (VArr a) = Ok (VArr (ABool bs)) /\ length bs = ndarray_size a.
Proof.
  destruct a as [xs | xs | xs]; simpl; eexists; (split; [reflexivity | apply length_map]).
Qed.

Lemma truth_ambiguous (bs : list bool) :
  (2 <= length bs)%nat -> truth (VArr (ABool bs)) = Raise ValueError.
Proof.
  destruct bs as [| b1 [| b2 bs]]; simpl; intros H; try lia. reflexivity.
Qed.

Lemma Theta_scalar_on_vector (a : ndarray) :
  (2 <= ndarray_size a)%nat -> Scalar.Theta (VArr a) = Raise ValueError.
Proof.
  intros H. destruct (ge0_array a) as (bs & Hge & Hlen).
  unfold Scalar.Theta. rewrite Hge, bind_Ok, truth_ambiguous by lia. reflexivity.
Qed.

(** Cell 139, [Theta(v1)]. *)
Example Theta_v1 : Scalar.Theta v1 = Raise ValueError.
Proof. reflexivity. Qed.

(** Cell 142, [Theta_vec(v1)]. *)
Example Theta_vec_v1 : Theta_vec v1 = Ok (VArr (AInt [0; 0; 0; 1; 1; 1; 1])).
Proof. reflexivity. Qed.

(** Cell 145, [Theta(v1)] after the redefinition. *)
Example Theta_vector_aware_v1 : VectorAware.Theta v1 = Ok (VArr (AInt [0; 0; 0; 1; 1; 1; 1])).
Proof. reflexivity. Qed.

(** Cell 146, [Theta(-1.2), Theta(2.6)]. *)
Example Theta_vector_aware_floats :
  VectorAware.Theta (VFloat float_m1_2) = Ok (VInt 0) /\
  VectorAware.Theta (VFloat float_2_6) = Ok (VInt 1).
Proof. split; reflexivity. Qed.

(** C2: no statement of either notebook intercepts an exception (there is no
    [try], [except], [finally] or [with] anywhere) and none raises one of its
    own, so a failure is a standard exception of the language or the library
    and reaches the cell's output as its traceback.  The scalar [Theta]
    applied to [v1], and to any vector of two or more elements, raises the
    library's [ValueError], which is what the cell shows. *)
Theorem errors_surface_unhandled (a : ndarray) (Ha : (2 <= ndarray_size a)%nat) :
  Forall (fun s => handles_exceptions s = false) all_stmts /\
  Forall (fun s => raises_itself s = false) all_stmts /\
  display (Scalar.Theta v1) = Traceback ValueError /\
  display (Scalar.Theta (VArr a)) = Traceback ValueError.
Proof.
  split; [| split; [| split]].
  - apply (forallb_Forall (fun s => negb (handles_exceptions s))).
    + intros s Hs. apply negb_true_iff in Hs. exact Hs.
    + vm_compute. reflexivity.
  - apply (forallb_Forall (fun s => negb (raises_itself s))).
    + intros s Hs. apply negb_true_iff in Hs. exact Hs.
    + vm_compute. reflexivity.
  - reflexivity.
  - rewrite Theta_scalar_on_vector by exact Ha. reflexivity.
Qed.

Lemma errors_surface_unhandled_witness :
  (2 <= ndarray_size (AFloat [float_m1_2; float_2_6]))%nat /\
  display (Scalar.Theta (VArr (AFloat [float_m1_2; float_2_6]))) = Traceback ValueError.
Proof.
  assert (H : (2 <= ndarray_size (AFloat [float_m1_2; float_2_6]))%nat) by (simpl; lia).
  split; [exact H |].
  apply (errors_surface_unhandled (AFloat [float_m1_2; float_2_6]) H).
Defined.

(** ** The two implementations compared *)

Lemma vector_aware_scalar (x : value) :
  is_scalar x = true -> VectorAware.Theta x = Scalar.Theta x.
Proof.
  destruct x as [z | f | b | re im | s | | a]; simpl; try discriminate; intros _;
    try reflexivity.
  - rewrite Theta_int. unfold VectorAware.Theta; simpl. destruct (0 <=? z); reflexivity.
  - rewrite Theta_float. unfold VectorAware.Theta; simpl.
    destruct (SFleb float_zero f); reflexivity.
  - destruct b; reflexivity.
Qed.

Lemma in_int64_b2z (b : bool) : in_int64 (Z.b2z b) = true.
Proof. destruct b; reflexivity. Qed.

(** On a non-empty vector whose elements [Theta] maps to the bits [g],
    [np.vectorize(Theta)] returns the integer vector of those bits. *)
Lemma vectorize_bits {A : Type} (wrap : A -> value) (g : A -> bool) (x : A) (xs : list A)
    (a : ndarray) :
  items a = map wrap (x :: xs) ->
  (forall y, Scalar.Theta (wrap y) = Ok (VInt (Z.b2z (g y)))) ->
  Theta_vec (VArr a) = Ok (VArr (AInt (map (fun y => Z.b2z (g y)) (x :: xs)))).
Proof.
  intros Hitems Hg. unfold Theta_vec, np_vectorize. rewrite Hitems.
  change (map wrap (x :: xs)) with (wrap x :: map wrap xs) at 1.
  cbv beta iota. rewrite Hg, bind_Ok. simpl dtype_of. rewrite bind_Ok.
  rewrite mapM_map.
  rewrite (mapM_Ok _ (fun y => VInt (Z.b2z (g y)))) by exact Hg.
  rewrite bind_Ok. unfold asarray. rewrite mapM_map.
  rewrite (mapM_Ok _ (fun y => Z.b2z (g y))).
  - reflexivity.
  - intros y. unfold to_int64. rewrite bind_Ok, in_int64_b2z. reflexivity.
Qed.

Lemma vector_aware_vectorized (a : ndarray) :
  ndarray_size a <> 0%nat -> VectorAware.Theta (VArr a) = Theta_vec (VArr a).
Proof.
  intros Hsize. destruct a as [[| x xs] | [| x xs] | [| x xs]]; simpl in Hsize; try congruence.
  - rewrite (vectorize_bits VInt (fun z => 0 <=? z) x xs) by
      (try reflexivity; intros y; rewrite Theta_int; destruct (0 <=? y); reflexivity).
    unfold VectorAware.Theta. cbn [ge0 bind one_times]. rewrite map_map. reflexivity.
  - rewrite (vectorize_bits VFloat (SFleb float_zero) x xs) by
      (try reflexivity; intros y; rewrite Theta_float;
       destruct (SFleb float_zero y); reflexivity).
    unfold VectorAware.Theta. cbn [ge0 bind one_times]. rewrite map_map. reflexivity.
  - rewrite (vectorize_bits VBool (fun b => 0 <=? Z.b2z b) x xs) by
      (try reflexivity; intros y; rewrite Theta_bool; destruct y; reflexivity).
    unfold VectorAware.Theta. cbn [ge0 bind one_times]. rewrite map_map. reflexivity.
Qed.

(** C9, as the code has it: the vector-aware implementation agrees with the
    scalar one on every scalar input (also where both raise [TypeError]),
    and on every non-empty vector of integer, floating or boolean dtype it
    equals [np.vectorize] of the scalar implementation. *)
Theorem vector_aware_agrees (x : value) (a : ndarray)
    (Hx : is_scalar x = true) (Ha : ndarray_size a <> 0%nat) :
  VectorAware.Theta x = Scalar.Theta x /\
  VectorAware.Theta (VArr a) = Theta_vec (VArr a).
Proof.
  split.
  - apply vector_aware_scalar, Hx.
  - apply vector_aware_vectorized, Ha.
Qed.

Lemma vector_aware_agrees_witness :
  VectorAware.Theta (VFloat float_2_6) = Scalar.Theta (VFloat float_2_6) /\
  VectorAware.Theta v1 = Theta_vec v1.
Proof.
  apply (vector_aware_agrees (VFloat float_2_6) (AInt [-3; -2; -1; 0; 1; 2; 3])).
  - reflexivity.
  - simpl. lia.
Defined.

(** C9 as stated fails on the empty vector [np.array([])]: [np.vectorize]
    refuses an input of size 0, the vector-aware [Theta] returns the empty
    integer vector. *)
Lemma vector_aware_differs_on_empty :
  Theta_vec (VArr (AFloat [])) = Raise ValueError /\
  VectorAware.Theta (VArr (AFloat [])) = Ok (VArr (AInt [])) /\
  VectorAware.Theta (VArr (AFloat [])) <> Theta_vec (VArr (AFloat [])).
Proof. split; [| split]; [reflexivity | reflexivity | discriminate]. Qed.

(** ** [another_function] *)

Lemma within_digit_limit_true (limit : N) (z : Z) :
  limit = 0%N \/ Z.abs z < 10 ^ Z.of_N limit -> within_digit_limit limit z = true.
Proof.
  unfold within_digit_limit. intros [-> | H].
  - reflexivity.
  - apply orb_true_iff. right. apply Z.ltb_lt. exact H.
Qed.

Lemma within_digit_limit_false (limit : N) (z : Z) :
  limit <> 0%N -> 10 ^ Z.of_N limit <= Z.abs z -> within_digit_limit limit z = false.
Proof.
  unfold within_digit_limit. intros Hl Hz.
  apply orb_false_iff. split.
  - apply N.eqb_neq. exact Hl.
  - apply Z.ltb_ge. exact Hz.
Qed.

(** The default limit of 4300 digits, on ints of one or two digits and on
    the ints next to [10 ** 4300], the least int of 4301 digits. *)
Lemma two_digits_within (z : Z) : Z.abs z < 100 -> Z.abs z < 10 ^ Z.of_N 4300.
Proof.
  intros Hz. apply Z.lt_le_trans with (10 ^ 2); [exact Hz |].
  apply Z.pow_le_mono_r; [reflexivity | apply Z.leb_le; reflexivity].
Qed.

Lemma beyond_default_limit : 10 ^ Z.of_N 4300 <= Z.abs (10 ^ 4300).
Proof.
  rewrite Z.abs_eq by (apply Z.pow_nonneg; apply Z.leb_le; reflexivity).
  apply Z.le_refl.
Qed.

Lemma around_default_limit (big : Z) :
  0 < big -> Z.abs (big - 1) < big /\ big <= Z.abs (- big).
Proof. lia. Qed.

Example another_function_12 (repr : value -> string) :
  another_function repr 0 [VInt 12] [] = Ok (VStr "12, No name") /\
  another_function repr 4300 [VInt 12] [] = Ok (VStr "12, No name").
Proof.
  split; [reflexivity |].
  assert (H : within_digit_limit 4300 12 = true)
    by (apply within_digit_limit_true; right; apply two_digits_within; reflexivity).
  unfold another_function, bind_args, bind. cbn -[within_digit_limit Z.to_int].
  rewrite H. reflexivity.
Qed.

Example another_function_keywords (repr : value -> string) :
  another_function repr 0 [] [("name", VStr "Yatri"); ("number", VInt 16)]
  = Ok (VStr "16, Yatri") /\
  another_function repr 4300 [] [("name", VStr "Yatri"); ("number", VInt 16)]
  = Ok (VStr "16, Yatri").
Proof.
  split; [reflexivity |].
  assert (H : within_digit_limit 4300 16 = true)
    by (apply within_digit_limit_true; right; apply two_digits_within; reflexivity).
  unfold another_function, bind_args, bind. cbn -[within_digit_limit Z.to_int].
  rewrite H. reflexivity.
Qed.

Example another_function_twice (repr : value -> string) (limit : N) :
  another_function repr limit [VInt 1] [("number", VInt 2)] = Raise TypeError.
Proof. reflexivity. Qed.

Example format_negative (repr : value -> string) :
  format repr 0 (VInt (-42)) = Ok "-42".
Proof. reflexivity. Qed.

(** The digit limit is on the number of digits: the greatest int of 4300
    digits is formatted, the least of 4301 digits is not, whatever its sign;
    without a limit it is. *)
Example format_at_the_limit (repr : value -> string) :
  (exists text, format repr 4300 (VInt (10 ^ 4300 - 1)) = Ok text) /\
  format repr 4300 (VInt (10 ^ 4300)) = Raise ValueError /\
  format repr 4300 (VInt (- 10 ^ 4300)) = Raise ValueError /\
  (exists text, format repr 0 (VInt (10 ^ 4300)) = Ok text).
Proof.
  assert (Hpos : 0 < 10 ^ 4300)
    by (apply Z.pow_pos_nonneg; [reflexivity | apply Z.leb_le; reflexivity]).
  destruct (around_default_limit (10 ^ 4300) Hpos) as [Hbelow Hopp].
  assert (H1 : within_digit_limit 4300 (10 ^ 4300 - 1) = true)
    by (apply within_digit_limit_true; right; exact Hbelow).
  assert (H2 : within_digit_limit 4300 (10 ^ 4300) = false)
    by (apply within_digit_limit_false; [discriminate | exact beyond_default_limit]).
  assert (H3 : within_digit_limit 4300 (- 10 ^ 4300) = false)
    by (apply within_digit_limit_false; [discriminate | exact Hopp]).
  unfold format. rewrite H1, H2, H3. repeat split.
  - eexists. reflexivity.
  - eexists. reflexivity.
Qed.

(** The text of an int is its decimal numeral: read back, it is the int. *)
Lemma decimal_text_reads_back (z : Z) :
  option_map Z.of_int (NilZero.int_of_string (NilZero.string_of_int (Z.to_int z))) = Some z.
Proof.
  rewrite NilZero.isi.
  - simpl. f_equal. apply DecimalZ.of_to.
  - destruct z; simpl; try discriminate.
    intros [= H]. exact (DecimalPos.Unsigned.to_uint_nonnil _ H).
  - destruct z; simpl; try discriminate.
    intros [= H]. exact (DecimalPos.Unsigned.to_uint_nonnil _ H).
Qed.

Lemma another_function_int (repr : value -> string) (limit : N) (z : Z) (s : string) :
  limit = 0%N \/ Z.abs z < 10 ^ Z.of_N limit ->
  another_function repr limit [VInt z; VStr s] []
    = Ok (VStr (NilZero.string_of_int (Z.to_int z) +:+ ", " +:+ s)) /\
  another_function repr limit [VInt z] []
    = Ok (VStr (NilZero.string_of_int (Z.to_int z) +:+ ", No name")).
Proof.
  intros Hz. apply within_digit_limit_true in Hz.
  unfold another_function, bind_args, bind. cbn -[within_digit_limit Z.to_int].
  rewrite Hz. split; reflexivity.
Qed.

Lemma another_function_int_beyond (repr : value -> string) (limit : N) (z : Z) (s : string) :
  limit <> 0%N -> 10 ^ Z.of_N limit <= Z.abs z ->
  another_function repr limit [VInt z; VStr s] [] = Raise ValueError /\
  another_function repr limit [VInt z] [] = Raise ValueError.
Proof.
  intros Hl Hz. pose proof (within_digit_limit_false limit z Hl Hz) as Hw.
  unfold another_function, bind_args, bind. cbn -[within_digit_limit Z.to_int].
  rewrite Hw. split; reflexivity.
Qed.

(** C10: [another_function(n, s)] returns the text of [n], a comma and a
    space, and [s], where the text of an int is its decimal numeral (the one
    that reads back as the int) and the text of a float or of a complex
    number is what the interpreter prints for it; an int that has more
    digits than the interpreter's limit allows raises [ValueError] instead.
    Omitted arguments default to [number=0] and [name="No name"]; passing
    both parameters by keyword, in either order, gives the result of the
    positional call. *)
Theorem another_function_spec (repr : value -> string) (limit : N)
    (z : Z) (f re im : spec_float) (n : value) (s : string) :
  (limit = 0%N \/ Z.abs z < 10 ^ Z.of_N limit ->
   another_function repr limit [VInt z; VStr s] []
     = Ok (VStr (NilZero.string_of_int (Z.to_int z) +:+ ", " +:+ s)) /\
   another_function repr limit [VInt z] []
     = Ok (VStr (NilZero.string_of_int (Z.to_int z) +:+ ", No name"))) /\
  (limit <> 0%N /\ 10 ^ Z.of_N limit <= Z.abs z ->
   another_function repr limit [VInt z; VStr s] [] = Raise ValueError /\
   another_function repr limit [VInt z] [] = Raise ValueError) /\
  option_map Z.of_int (NilZero.int_of_string (NilZero.string_of_int (Z.to_int z)))
    = Some z /\
  another_function repr limit [VFloat f; VStr s] []
    = Ok (VStr (repr (VFloat f) +:+ ", " +:+ s)) /\
  another_function repr limit [VComplex re im; VStr s] []
    = Ok (VStr (repr (VComplex re im) +:+ ", " +:+ s)) /\
  another_function repr limit [VFloat f] []
    = Ok (VStr (repr (VFloat f) +:+ ", No name")) /\
  another_function repr limit [] [] = Ok (VStr "0, No name") /\
  another_function repr limit [] [("name", VStr s)] = Ok (VStr ("0, " +:+ s)) /\
  another_function repr limit [] [("number", n); ("name", VStr s)]
    = another_function repr limit [n; VStr s] [] /\
  another_function repr limit [] [("name", VStr s); ("number", n)]
    = another_function repr limit [n; VStr s] [].
Proof.
  assert (H0 : within_digit_limit limit 0 = true).
  { apply within_digit_limit_true. destruct limit as [| l]; [left; reflexivity | right].
    apply Z.pow_pos_nonneg; lia. }
  split; [exact (another_function_int repr limit z s) |].
  split; [intros [Hl Hz]; exact (another_function_int_beyond repr limit z s Hl Hz) |].
  split; [exact (decimal_text_reads_back z) |].
  unfold another_function, bind_args, bind. cbn -[within_digit_limit Z.to_int].
  rewrite H0. repeat split; reflexivity.
Qed.

Lemma another_function_spec_witness :
  another_function (fun _ => EmptyString) 4300 [VInt 12; VStr "Yatri"] []
    = Ok (VStr "12, Yatri") /\
  another_function (fun _ => EmptyString) 4300 [VInt (10 ^ 4300); VStr "Yatri"] []
    = Raise ValueError.
Proof.
  pose proof (another_function_spec (fun _ => EmptyString) 4300 12
                float_zero float_zero float_zero VNone "Yatri") as (Hwithin & _).
  pose proof (another_function_spec (fun _ => EmptyString) 4300 (10 ^ 4300)
                float_zero float_zero float_zero VNone "Yatri") as (_ & Hbeyond & _).
  assert (H12 : Z.abs 12 < 10 ^ Z.of_N 4300) by (apply two_digits_within; reflexivity).
  assert (Hbig : 10 ^ Z.of_N 4300 <= Z.abs (10 ^ 4300)) by exact beyond_default_limit.
  assert (Hset : 4300%N <> 0%N) by discriminate.
  destruct (Hwithin (or_intror H12)) as [H1 _].
  destruct (Hbeyond (conj Hset Hbig)) as [H2 _].
  split; [exact H1 | exact H2].
Defined.

(** C10 as stated fails where the interpreter limits the digits of an int
    (4300 by default from Python 3.11 on): [another_function(10**4300, s)]
    returns no string, it raises [ValueError]. *)
Lemma another_function_beyond_digit_limit :
  another_function (fun _ => EmptyString) 4300 [VInt (10 ^ 4300); VStr "Yatri"] []
    = Raise ValueError /\
  forall text : string,
    another_function (fun _ => EmptyString) 4300 [VInt (10 ^ 4300); VStr "Yatri"] []
      <> Ok (VStr text).
Proof.
  destruct (another_function_int_beyond (fun _ => EmptyString) 4300 (10 ^ 4300) "Yatri")
    as [E _]; [discriminate | exact beyond_default_limit |].
  split; [exact E |]. intros text. rewrite E. discriminate.
Qed.

(** ** What the notebooks contain *)

(** The traversals reach every node: the two notebooks hold 123 code cells,
    269 statements, 1188 expressions and 139 calls. *)
Example source_size :
  (length all_cells, length all_stmts, length all_exprs, length all_calls)
  = (123%nat, 269%nat, 1188%nat, 139%nat).
Proof. vm_compute. reflexivity. Qed.

Example names_resolved :
  imports = [("np", "numpy"); ("plt", "matplotlib.pyplot")] /\
  notebook_functions = ["Theta"; "Theta"; "my_function"; "another_function"; "Theta_vec"].
Proof. split; vm_compute; reflexivity. Qed.

(** Cell 101 is the one that saves an array; the shell line that follows the
    save runs [file] on [persist/random-array.npy], another path than the one
    written.  Cell 3 is the one that imports. *)
Example cell_101_effects :
  cell_effects numpy_cell_101
  = [ DrawsRandom; UpdatesSession; WritesFile "./random-array.npy";
      RunsProgram "file" "persist/random-array.npy"; Displays ].
Proof. reflexivity. Qed.

Example cell_3_effects :
  cell_effects numpy_cell_3
  = [ LoadsModule "numpy"; UpdatesSession; LoadsModule "matplotlib.pyplot"; UpdatesSession ].
Proof. reflexivity. Qed.

Example npy_filename_appends : npy_filename "random-array" = "random-array.npy".
Proof. reflexivity. Qed.

(** C5: no source file declares a class or builds a type at run time, and
    every call goes to a builtin, to a routine of the numeric library, to a
    method of a standard or library value, or to one of the notebooks' own
    functions; the values constructed are therefore of standard language
    types or library types. *)
Theorem no_types_declared :
  Forall (fun s => declares_class s = false) all_stmts /\
  Forall (fun e => builds_class e = false) all_exprs /\
  Forall (fun c => known_callee (fst c) = true) all_calls.
Proof.
  split; [| split].
  - apply (forallb_Forall (fun s => negb (declares_class s))).
    + intros s Hs. apply negb_true_iff in Hs. exact Hs.
    + vm_compute. reflexivity.
  - apply (forallb_Forall (fun e => negb (builds_class e))).
    + intros e He. apply negb_true_iff in He. exact He.
    + vm_compute. reflexivity.
  - apply (forallb_Forall (fun c => known_callee (fst c))).
    + intros c Hc. exact Hc.
    + vm_compute. reflexivity.
Qed.

(** ** Files *)

(** A file name is resolved against the working directory, whatever that
    is: a leading [./], a doubled [/], a way through a subdirectory and back,
    and the absolute name all lead to the same file. *)
Example abspath_spellings (cwd : filepath) :
  abspath cwd "random-array.npy" = cwd ++ ["random-array.npy"] /\
  abspath cwd "./random-array.npy" = cwd ++ ["random-array.npy"] /\
  abspath cwd ".//random-array.npy" = cwd ++ ["random-array.npy"] /\
  abspath cwd "persist/../random-array.npy" = cwd ++ ["random-array.npy"] /\
  abspath cwd "persist/random-array.npy" = cwd ++ ["persist"; "random-array.npy"] /\
  abspath cwd "/tmp/random-array.npy" = ["tmp"; "random-array.npy"].
Proof.
  unfold abspath, normpath. cbn. rewrite !rev_involutive.
  repeat split; try reflexivity.
  rewrite <- app_assoc. reflexivity.
Qed.

Section FileFrame.

Variable env : environment.
Variable contents : filepath -> list Byte.byte.

Lemma create_frame (ps : list filepath) (fs : gmap filepath (list Byte.byte))
    (p : filepath) :
  ~ In p ps -> fold_left (create contents) ps fs !! p = fs !! p.
Proof.
  revert fs. induction ps as [| q ps IH]; intros fs Hp; simpl.
  - reflexivity.
  - simpl in Hp. rewrite IH by tauto. unfold create.
    destruct (fs !! q); [reflexivity |].
    apply lookup_insert_ne. intros ->. tauto.
Qed.

Lemma create_keeps (ps : list filepath) (fs : gmap filepath (list Byte.byte))
    (p : filepath) :
  fs !! p = Some (contents p) -> fold_left (create contents) ps fs !! p = Some (contents p).
Proof.
  revert fs. induction ps as [| q ps IH]; intros fs Hp; simpl.
  - exact Hp.
  - apply IH. unfold create. destruct (fs !! q) eqn:Hq; [exact Hp |].
    destruct (decide (q = p)) as [-> | Hne].
    + apply lookup_insert_eq.
    + rewrite lookup_insert_ne by exact Hne. exact Hp.
Qed.

Lemma apply_effects_frame (effs : list effect) (fs : gmap filepath (list Byte.byte))
    (p : filepath) :
  (forall name, In (Some name) (flat_map writes effs) -> p <> locate env name) ->
  (forall module, In module (flat_map loads effs) -> ~ In p (created_on_load env module)) ->
  fold_left (apply_effect env contents) effs fs !! p = fs !! p.
Proof.
  revert fs. induction effs as [| e effs IH]; intros fs Hw Hl; simpl.
  - reflexivity.
  - rewrite IH.
    + destruct e; simpl; try reflexivity.
      * apply create_frame. apply Hl. simpl. left. reflexivity.
      * apply lookup_insert_ne. intros Heq. apply (Hw path); [| symmetry; exact Heq].
        simpl. left. reflexivity.
    + intros name Hin. apply Hw. simpl. apply in_or_app. right. exact Hin.
    + intros module Hin. apply Hl. simpl. apply in_or_app. right. exact Hin.
Qed.

Lemma run_files_frame (cells : list cell) (fs : gmap filepath (list Byte.byte))
    (p : filepath) :
  (forall name, In (Some name) (flat_map cell_writes cells) -> p <> locate env name) ->
  (forall module, In module (flat_map cell_loads cells) ->
                  ~ In p (created_on_load env module)) ->
  run_files env contents cells fs !! p = fs !! p.
Proof.
  unfold run_files. revert fs.
  induction cells as [| c cells IH]; intros fs Hw Hl; simpl.
  - reflexivity.
  - rewrite IH.
    + apply apply_effects_frame.
      * intros name Hin. apply Hw. simpl. apply in_or_app. left. exact Hin.
      * intros module Hin. apply Hl. simpl. apply in_or_app. left. exact Hin.
    + intros name Hin. apply Hw. simpl. apply in_or_app. right. exact Hin.
    + intros module Hin. apply Hl. simpl. apply in_or_app. right. exact Hin.
Qed.

Lemma apply_effect_keeps (e : effect) (fs : gmap filepath (list Byte.byte))
    (p : filepath) :
  fs !! p = Some (contents p) -> apply_effect env contents fs e !! p = Some (contents p).
Proof.
  intros Hp. destruct e; simpl; try exact Hp.
  - apply create_keeps. exact Hp.
  - destruct (decide (locate env path = p)) as [<- | Hne].
    + apply lookup_insert_eq.
    + rewrite lookup_insert_ne by exact Hne. exact Hp.
Qed.

Lemma apply_effects_written (effs : list effect) (fs : gmap filepath (list Byte.byte))
    (name : string) :
  fs !! locate env name = Some (contents (locate env name)) \/ In (WritesFile name) effs ->
  fold_left (apply_effect env contents) effs fs !! locate env name
    = Some (contents (locate env name)).
Proof.
  revert fs. induction effs as [| e effs IH]; intros fs H; simpl.
  - destruct H as [H | []]. exact H.
  - apply IH. destruct H as [H | [-> | H]].
    + left. apply apply_effect_keeps. exact H.
    + left. simpl. apply lookup_insert_eq.
    + right. exact H.
Qed.

Lemma run_files_written (cells : list cell) (fs : gmap filepath (list Byte.byte))
    (name : string) :
  fs !! locate env name = Some (contents (locate env name)) \/
  In (WritesFile name) (flat_map cell_effects cells) ->
  run_files env contents cells fs !! locate env name = Some (contents (locate env name)).
Proof.
  unfold run_files. revert fs.
  induction cells as [| c cells IH]; intros fs H; simpl.
  - destruct H as [H | []]. exact H.
  - apply IH. simpl in H. rewrite in_app_iff in H.
    destruct H as [H | [H | H]].
    + left. apply apply_effects_written. left. exact H.
    + left. apply apply_effects_written. right. exact H.
    + right. exact H.
Qed.

End FileFrame.

Lemma all_writes : flat_map cell_writes all_cells = [Some "./random-array.npy"].
Proof. vm_compute. reflexivity. Qed.

Lemma all_loads : flat_map cell_loads all_cells = ["numpy"; "matplotlib.pyplot"].
Proof. vm_compute. reflexivity. Qed.

Lemma cell_3_in : In numpy_cell_3 all_cells.
Proof.
  unfold all_cells. apply in_or_app. left.
  unfold introduction_to_numpy. repeat (try (left; reflexivity); right).
Qed.

Lemma cell_19_in : In numpy_cell_19 all_cells.
Proof.
  unfold all_cells. apply in_or_app. left.
  unfold introduction_to_numpy. repeat (try (left; reflexivity); right).
Qed.

Lemma cell_101_in : In numpy_cell_101 all_cells.
Proof.
  unfold all_cells. apply in_or_app. left.
  unfold introduction_to_numpy. repeat (try (left; reflexivity); right).
Qed.

Lemma save_in_effects :
  In (WritesFile "./random-array.npy") (flat_map cell_effects all_cells).
Proof.
  apply in_flat_map. exists numpy_cell_101. split.
  - exact cell_101_in.
  - rewrite cell_101_effects. simpl. tauto.
Qed.

Lemma same_file (env : environment) :
  locate env "random-array.npy" = locate env "./random-array.npy".
Proof.
  unfold locate.
  destruct (abspath_spellings (cwd env)) as (H1 & H2 & _). congruence.
Qed.

(** C3: one call in the two notebooks writes a file, the [np.save] of cell
    101, and the file it writes is [random-array.npy] in the working
    directory, however the name is spelled; the tutorial notebook writes
    none.  The other statements that can reach the disk are the two imports
    of cell 3.  Once every cell has run, the saved file holds what the save
    routine wrote, and every file that is neither the saved one nor one that
    loading [numpy] or [matplotlib.pyplot] creates is as it was. *)
Theorem one_file_written (env : environment) (contents : filepath -> list Byte.byte)
    (fs : gmap filepath (list Byte.byte)) (p : filepath)
    (Hp : p <> locate env "./random-array.npy")
    (Hnumpy : ~ In p (created_on_load env "numpy"))
    (Hmatplotlib : ~ In p (created_on_load env "matplotlib.pyplot")) :
  flat_map cell_writes all_cells = [Some "./random-array.npy"] /\
  cell_writes numpy_cell_101 = [Some "./random-array.npy"] /\
  flat_map cell_writes initial_python_tutorial = [] /\
  flat_map cell_loads all_cells = ["numpy"; "matplotlib.pyplot"] /\
  cell_loads numpy_cell_3 = ["numpy"; "matplotlib.pyplot"] /\
  locate env "random-array.npy" = locate env "./random-array.npy" /\
  run_files env contents all_cells fs !! locate env "./random-array.npy"
    = Some (contents (locate env "./random-array.npy")) /\
  run_files env contents all_cells fs !! p = fs !! p.
Proof.
  split; [exact all_writes |].
  split; [reflexivity |].
  split; [vm_compute; reflexivity |].
  split; [exact all_loads |].
  split; [reflexivity |].
  split; [exact (same_file env) |].
  split.
  - apply run_files_written. right. exact save_in_effects.
  - apply run_files_frame.
    + rewrite all_writes. simpl. intros name [[= <-] | []]. exact Hp.
    + rewrite all_loads. simpl. intros module [<- | [<- | []]]; assumption.
Qed.

Lemma one_file_written_witness :
  run_files fresh_home (fun _ => []) all_cells ∅
    !! (home ++ ["Python-Basics-Webinar"; "random-array.npy"]) = Some [] /\
  run_files fresh_home (fun _ => []) all_cells ∅
    !! (home ++ ["Python-Basics-Webinar"; "persist"; "random-array.npy"]) = None.
Proof.
  assert (Hp : home ++ ["Python-Basics-Webinar"; "persist"; "random-array.npy"]
               <> locate fresh_home "./random-array.npy") by discriminate.
  assert (Hnumpy : ~ In (home ++ ["Python-Basics-Webinar"; "persist"; "random-array.npy"])
                        (created_on_load fresh_home "numpy")) by (simpl; tauto).
  assert (Hmatplotlib :
            ~ In (home ++ ["Python-Basics-Webinar"; "persist"; "random-array.npy"])
                 (created_on_load fresh_home "matplotlib.pyplot"))
    by (simpl; intros [[=] | []]).
  destruct (one_file_written fresh_home (fun _ => []) ∅
              (home ++ ["Python-Basics-Webinar"; "persist"; "random-array.npy"])
              Hp Hnumpy Hmatplotlib)
    as (_ & _ & _ & _ & _ & _ & Hsaved & Hframe).
  split; [exact Hsaved |].
  etransitivity; [exact Hframe | apply lookup_empty].
Defined.

(** C3 as stated fails on a machine where matplotlib has not run before:
    once the cells have run, the font cache that the import of cell 3 creates
    is on the disk, a second file beside the saved array. *)
Lemma import_creates_font_cache :
  font_cache <> locate fresh_home "./random-array.npy" /\
  (∅ : gmap filepath (list Byte.byte)) !! font_cache = None /\
  run_files fresh_home (fun _ => []) all_cells ∅ !! font_cache = Some [].
Proof.
  split; [discriminate |]. split; [apply lookup_empty |].
  vm_compute. reflexivity.
Qed.

(** ** Effects *)

Lemma side_effects_listed :
  flat_map cell_side_effects all_cells
  = [ (numpy_cell_3, LoadsModule "numpy");
      (numpy_cell_3, LoadsModule "matplotlib.pyplot");
      (numpy_cell_19, DrawsRandom);
      (numpy_cell_29, DrawsRandom);
      (numpy_cell_32, DrawsRandom);
      (numpy_cell_89, DrawsRandom);
      (numpy_cell_101, DrawsRandom);
      (numpy_cell_101, WritesFile "./random-array.npy");
      (numpy_cell_101, RunsProgram "file" "persist/random-array.npy") ].
Proof. vm_compute. reflexivity. Qed.

Lemma side_effect_in (c : cell) (e : effect) :
  In c all_cells -> In e (cell_effects c) -> within_activities e = false ->
  In (c, e) (flat_map cell_side_effects all_cells).
Proof.
  intros Hc He Hw. apply in_flat_map. exists c. split; [exact Hc |].
  unfold cell_side_effects. apply in_map. apply filter_In. split; [exact He |].
  unfold outside_activities. rewrite Hw. reflexivity.
Qed.

Section WorldFrame.

Variable env : environment.
Variable contents : filepath -> list Byte.byte.

Lemma activity_leaves_world (w : world) (e : effect) :
  within_activities e = true -> act env contents w e = w.
Proof. destruct e; simpl; try discriminate; reflexivity. Qed.

Lemma act_effects (effs : list effect) (w : world) :
  fold_left (act env contents) effs w
  = World (fold_left (apply_effect env contents) effs (disk w))
          (draws w + list_sum (map drawn effs))
          (programs w ++ flat_map ran effs).
Proof.
  revert w. induction effs as [| e effs IH]; intros [d n ps]; simpl.
  - rewrite Nat.add_0_r, app_nil_r. reflexivity.
  - rewrite IH. destruct e; simpl; rewrite <- ?app_assoc; f_equal; lia.
Qed.

Lemma fold_cells {S : Type} (f : S -> effect -> S) (cells : list cell) (s : S) :
  fold_left (fun s' c => fold_left f (cell_effects c) s') cells s
  = fold_left f (flat_map cell_effects cells) s.
Proof.
  revert s. induction cells as [| c cells IH]; intros s; simpl.
  - reflexivity.
  - rewrite fold_left_app. apply IH.
Qed.

Lemma run_cells (cells : list cell) (w : world) :
  run env contents cells w
  = World (run_files env contents cells (disk w))
          (draws w + list_sum (map drawn (flat_map cell_effects cells)))
          (programs w ++ flat_map ran (flat_map cell_effects cells)).
Proof.
  unfold run, run_files, run_cell, run_cell_files.
  rewrite !fold_cells. apply act_effects.
Qed.

End WorldFrame.

Lemma all_draws : list_sum (map drawn (flat_map cell_effects all_cells)) = 5%nat.
Proof. vm_compute. reflexivity. Qed.

Lemma all_programs :
  flat_map ran (flat_map cell_effects all_cells) = [("file", "persist/random-array.npy")].
Proof. vm_compute. reflexivity. Qed.

Lemma no_unknown_effect (c : cell) :
  In c all_cells -> ~ In Unknown (cell_effects c).
Proof.
  intros Hc He.
  pose proof (side_effect_in c Unknown Hc He eq_refl) as H.
  rewrite side_effects_listed in H. simpl in H.
  repeat (destruct H as [[= ] | H]); try contradiction.
Qed.

(** C6: every effect of every code cell is the execution of a call that
    computes, an update of the session's variables or the display of a
    result, and leaves the environment as it is, except for nine effects in
    six cells of the numpy notebook: the save of the array file (cell 101),
    the loading of the two imported libraries (cell 3), a draw from the
    library's process-wide random generator (cells 19, 29, 32, 89 and 101)
    and the run of the program [file] (cell 101).  No effect is left unknown.
    Running every cell changes the environment by just that: the disk as the
    loading and the save change it, five more drawing calls, one more program
    run. *)
Theorem cell_effects_limited (env : environment) (contents : filepath -> list Byte.byte)
    (w : world) (c : cell) (e : effect)
    (Hc : In c all_cells) (He : In e (cell_effects c)) :
  (within_activities e = true \/
   In (c, e)
     [ (numpy_cell_3, LoadsModule "numpy");
      (numpy_cell_3, LoadsModule "matplotlib.pyplot");
      (numpy_cell_19, DrawsRandom);
      (numpy_cell_29, DrawsRandom);
      (numpy_cell_32, DrawsRandom);
      (numpy_cell_89, DrawsRandom);
      (numpy_cell_101, DrawsRandom);
      (numpy_cell_101, WritesFile "./random-array.npy");
      (numpy_cell_101, RunsProgram "file" "persist/random-array.npy") ]) /\
  (within_activities e = true -> act env contents w e = w) /\
  e <> Unknown /\
  flat_map cell_side_effects all_cells
  = [ (numpy_cell_3, LoadsModule "numpy");
      (numpy_cell_3, LoadsModule "matplotlib.pyplot");
      (numpy_cell_19, DrawsRandom);
      (numpy_cell_29, DrawsRandom);
      (numpy_cell_32, DrawsRandom);
      (numpy_cell_89, DrawsRandom);
      (numpy_cell_101, DrawsRandom);
      (numpy_cell_101, WritesFile "./random-array.npy");
      (numpy_cell_101, RunsProgram "file" "persist/random-array.npy") ] /\
  run env contents all_cells w
  = World (run_files env contents all_cells (disk w))
          (draws w + 5)
          (programs w ++ [("file", "persist/random-array.npy")]).
Proof.
  split; [| split; [| split; [| split]]].
  - destruct (within_activities e) eqn:Hw; [left; reflexivity | right].
    rewrite <- side_effects_listed. apply side_effect_in; assumption.
  - apply activity_leaves_world.
  - intros ->. exact (no_unknown_effect c Hc He).
  - exact side_effects_listed.
  - rewrite run_cells, all_draws, all_programs. reflexivity.
Qed.

Lemma cell_effects_limited_witness :
  (within_activities DrawsRandom = true \/
   In (numpy_cell_19, DrawsRandom)
     [ (numpy_cell_3, LoadsModule "numpy");
      (numpy_cell_3, LoadsModule "matplotlib.pyplot");
      (numpy_cell_19, DrawsRandom);
      (numpy_cell_29, DrawsRandom);
      (numpy_cell_32, DrawsRandom);
      (numpy_cell_89, DrawsRandom);
      (numpy_cell_101, DrawsRandom);
      (numpy_cell_101, WritesFile "./random-array.npy");
      (numpy_cell_101, RunsProgram "file" "persist/random-array.npy") ]) /\
  DrawsRandom <> Unknown.
Proof.
  destruct (cell_effects_limited fresh_home (fun _ => []) (World ∅ 0 [])
              numpy_cell_19 DrawsRandom) as (Hlisted & _ & Hknown & _).
  - exact cell_19_in.
  - vm_compute. tauto.
  - split; [exact Hlisted | exact Hknown].
Defined.

(** C6 as stated fails on cell 3: loading [matplotlib.pyplot] is an effect of
    the cell that is none of the three activities and is not the save, and on
    a machine where matplotlib has not run before it puts the font cache on
    the disk. *)
Lemma loading_is_another_effect :
  In numpy_cell_3 all_cells /\
  In (LoadsModule "matplotlib.pyplot") (cell_effects numpy_cell_3) /\
  within_activities (LoadsModule "matplotlib.pyplot") = false /\
  LoadsModule "matplotlib.pyplot" <> WritesFile "./random-array.npy" /\
  disk (run_cell fresh_home (fun _ => []) (World ∅ 0 []) numpy_cell_3) !! font_cache
    = Some [] /\
  run_cell fresh_home (fun _ => []) (World ∅ 0 []) numpy_cell_3 <> World ∅ 0 [].
Proof.
  split; [exact cell_3_in |].
  split; [rewrite cell_3_effects; simpl; tauto |].
  split; [reflexivity |].
  split; [discriminate |].
  assert (H : disk (run_cell fresh_home (fun _ => []) (World ∅ 0 []) numpy_cell_3)
                !! font_cache = Some [])
    by (vm_compute; reflexivity).
  split; [exact H |].
  intros Heq. rewrite Heq in H. simpl in H. rewrite lookup_empty in H. discriminate.
Qed.

(** * Properties of the cells *)

Lemma bind_Returns {A B : Type} (a : A) (k : A -> outcome B) : (Returns a ≫= k) = k a.
Proof. reflexivity. Qed.

Lemma bind_Throws {A B : Type} (e : exception) (k : A -> outcome B) :
  (Throws e ≫= k) = Throws e.
Proof. reflexivity. Qed.

(** ** The search of cell 26 *)

Lemma search_found (names : list string) (target found missing : string) :
  In target names -> search names target found missing = [found].
Proof.
  induction names as [| name names IH]; simpl; intros H.
  - destruct H.
  - destruct (String.eqb_spec name target) as [_ | Hne]; [reflexivity |].
    destruct H as [H | H]; [contradiction | auto].
Qed.

Lemma search_missing (names : list string) (target found missing : string) :
  ~ In target names -> search names target found missing = [missing].
Proof.
  induction names as [| name names IH]; simpl; intros H.
  - reflexivity.
  - destruct (String.eqb_spec name target) as [Heq | _]; [tauto |].
    apply IH. tauto.
Qed.

(** X20 (tutorial, cell 26): the search prints exactly one line, the found
    line when the name occurs in [names] (however often), the line of the
    [else] clause when it does not. *)
Theorem search_prints_one_line (names : list string) (target found missing : string) :
  (In target names -> search names target found missing = [found]) /\
  (~ In target names -> search names target found missing = [missing]).
Proof. split; [apply search_found | apply search_missing]. Qed.

(** ** The loops of cell 24 *)

Lemma len_app {A : Type} (l1 l2 : list A) : len (l1 ++ l2) = len l1 + len l2.
Proof. unfold len. rewrite length_app. lia. Qed.

Lemma len_nonneg {A : Type} (l : list A) : 0 <= len l.
Proof. unfold len. lia. Qed.

Lemma getitem_middle {A : Type} (pre l : list A) (a : A) :
  getitem (pre ++ a :: l) (len pre) = Returns a.
Proof.
  unfold getitem, wrap_index. pose proof (len_nonneg pre) as Hpre.
  destruct (Z.ltb_spec (len pre) 0) as [H | _]; [lia |].
  destruct (Z.ltb_spec (len pre) 0) as [H | _]; [lia |].
  unfold len. rewrite Nat2Z.id, list_lookup_middle by reflexivity. reflexivity.
Qed.

Lemma print_items_all {A : Type} (pre l : list A) :
  print_items (pre ++ l) (seqZ (len pre) (len l)) = (l, None).
Proof.
  revert pre. induction l as [| a l IH]; intros pre.
  - reflexivity.
  - rewrite seqZ_cons by (unfold len; simpl; lia). simpl.
    rewrite getitem_middle.
    replace (Z.pred (len (a :: l))) with (len l) by (unfold len; simpl; lia).
    replace (Z.succ (len pre)) with (len (pre ++ [a])) by (rewrite len_app; unfold len; simpl; lia).
    replace (pre ++ a :: l) with ((pre ++ [a]) ++ l) by (rewrite <- app_assoc; reflexivity).
    rewrite IH. reflexivity.
Qed.

Lemma range_len (n : Z) : 0 <= n -> range3 0 n 1 = Returns (seqZ 0 n).
Proof.
  intros Hn. unfold range3. simpl.
  destruct (Z.ltb_spec 0 n) as [Hpos | Hzero].
  - rewrite Z.sub_0_r, Z.div_1_r. replace (n - 1 + 1) with n by lia.
    f_equal. rewrite <- (list_fmap_id (seqZ 0 n)) at 2.
    apply list_fmap_ext. intros _ k _. simpl. lia.
  - replace n with 0 by lia. reflexivity.
Qed.

(** X19 (tutorial, cell 24): each of the two loops prints every row of
    [my_2d_array] once and in order, and none raises [IndexError]. *)
Theorem index_loops_print_every_row {A : Type} (my_2d_array : list A) :
  index_loops my_2d_array = (my_2d_array ++ my_2d_array, None).
Proof.
  assert (H : print_over my_2d_array (range3 0 (len my_2d_array) 1) = (my_2d_array, None)).
  { rewrite range_len by apply len_nonneg. simpl.
    apply (print_items_all [] my_2d_array). }
  unfold index_loops, range1. rewrite H. reflexivity.
Qed.

(** ** The loop of cell 28 *)

Lemma count_up_above (fuel : nat) (s : Z) :
  5 <= s -> (1 <= fuel)%nat -> count_up fuel s = Some ([s], s + 1).
Proof.
  intros Hs Hfuel. destruct fuel as [| fuel]; [lia |]. simpl.
  destruct (Z.ltb_spec 5 (s + 1)); [reflexivity | lia].
Qed.

Lemma count_up_to_five (fuel : nat) (s : Z) :
  s <= 5 -> (Z.to_nat (6 - s) <= fuel)%nat ->
  count_up fuel s = Some (seqZ s (6 - s), 6).
Proof.
  revert s. induction fuel as [| fuel IH]; intros s Hs Hfuel; [lia |].
  simpl. destruct (Z.ltb_spec 5 (s + 1)) as [Hlast | Hmore].
  - replace s with 5 by lia. reflexivity.
  - rewrite IH by lia.
    rewrite (seqZ_cons s) by lia.
    replace (Z.succ s) with (s + 1) by lia.
    replace (Z.pred (6 - s)) with (6 - (s + 1)) by lia. reflexivity.
Qed.

(** X21 (tutorial, cell 28): the loop ends; started from [some_int] at most
    5 it prints the numbers from there to 5 and leaves 6; started above 5 it
    still prints once and adds one. *)
Theorem count_up_terminates (fuel : nat) (some_int : Z)
    (Hfuel : (Z.to_nat (Z.max 1 (6 - some_int)) <= fuel)%nat) :
  count_up fuel some_int
  = Some (seqZ some_int (Z.max 1 (6 - some_int)), Z.max 6 (some_int + 1)).
Proof.
  destruct (Z.le_gt_cases some_int 5) as [Hle | Hgt].
  - rewrite Z.max_r in * by lia. rewrite Z.max_l by lia.
    apply count_up_to_five; assumption.
  - rewrite Z.max_l in * by lia. rewrite Z.max_r by lia.
    rewrite count_up_above by lia. reflexivity.
Qed.

(** ** The list methods of cell 14 *)

Lemma list_remove_absent (x : Z) (l : list Z) :
  ~ In x l -> list_remove x l = Throws (Standard ValueError).
Proof.
  induction l as [| y l IH]; simpl; intros H.
  - reflexivity.
  - destruct (Z.eqb_spec y x) as [Heq | _]; [tauto |].
    rewrite IH by tauto. reflexivity.
Qed.

Lemma list_remove_present (x : Z) (l : list Z) :
  In x l -> exists l', list_remove x l = Returns l' /\ l ≡ₚ x :: l'.
Proof.
  induction l as [| y l IH]; simpl; intros H.
  - destruct H.
  - destruct (Z.eqb_spec y x) as [-> | Hne].
    + exists l. split; reflexivity.
    + destruct H as [H | H]; [contradiction |].
      destruct (IH H) as (l' & Hl' & Hperm). exists (y :: l').
      rewrite Hl'. split; [reflexivity |].
      rewrite Hperm. apply Permutation_swap.
Qed.

Lemma getitem_in_range {A : Type} (l : list A) (i : Z) :
  0 <= i < len l -> exists a, l !! Z.to_nat i = Some a /\ getitem l i = Returns a.
Proof.
  intros Hi. unfold getitem, wrap_index.
  destruct (Z.ltb_spec i 0) as [H | _]; [lia |].
  destruct (Z.ltb_spec i 0) as [H | _]; [lia |].
  destruct (lookup_lt_is_Some_2 l (Z.to_nat i)) as [a Ha]; [unfold len in Hi; lia |].
  exists a. rewrite Ha. split; reflexivity.
Qed.

Lemma getitem_beyond {A : Type} (l : list A) (i : Z) :
  len l <= i -> getitem l i = Throws IndexError.
Proof.
  intros Hi. unfold getitem, wrap_index. pose proof (len_nonneg l).
  destruct (Z.ltb_spec i 0) as [H' | _]; [lia |].
  destruct (Z.ltb_spec i 0) as [H' | _]; [lia |].
  rewrite lookup_ge_None_2 by (unfold len in Hi; lia). reflexivity.
Qed.

Lemma delitem_in_range {A : Type} (l : list A) (i : Z) :
  0 <= i < len l -> delitem l i = Returns (delete (Z.to_nat i) l).
Proof.
  intros Hi. unfold delitem, wrap_index.
  destruct (Z.ltb_spec i 0) as [H | _]; [lia |].
  destruct (Z.leb_spec 0 i) as [_ | H]; [| lia].
  destruct (Z.ltb_spec i (len l)) as [_ | H]; [| lia]. reflexivity.
Qed.

Lemma delitem_beyond {A : Type} (l : list A) (i : Z) :
  len l <= i -> delitem l i = Throws IndexError.
Proof.
  intros Hi. unfold delitem, wrap_index. pose proof (len_nonneg l).
  destruct (Z.ltb_spec i 0) as [H' | _]; [lia |].
  destruct (Z.ltb_spec i (len l)) as [H' | _]; [lia |].
  rewrite andb_false_r. reflexivity.
Qed.

Lemma foldl_min_least (x : Z) (l : list Z) :
  Forall (Z.le x) l -> foldl Z.min x l = x.
Proof.
  revert x. induction l as [| y l IH]; simpl; intros x H.
  - reflexivity.
  - inversion H as [| ? ? Hy Hl]; subst. rewrite Z.min_l by exact Hy. apply IH, Hl.
Qed.

Lemma foldl_max_last (x : Z) (l : list Z) :
  StronglySorted Z.le (x :: l) -> last (x :: l) = Some (foldl Z.max x l).
Proof.
  revert x. induction l as [| y l IH]; simpl; intros x H.
  - reflexivity.
  - inversion H as [| ? ? Hsorted Hall]; subst.
    inversion Hall as [| ? ? Hy _]; subst.
    rewrite Z.max_r by exact Hy. rewrite <- IH by exact Hsorted. reflexivity.
Qed.

Lemma py_min_sorted (l : list Z) :
  l <> [] -> StronglySorted Z.le l ->
  exists lo, py_min l = Returns lo /\ head l = Some lo.
Proof.
  destruct l as [| x l]; intros Hne H; [congruence |].
  exists x. simpl. inversion H; subst. rewrite foldl_min_least by assumption.
  split; reflexivity.
Qed.

Lemma py_max_sorted (l : list Z) :
  l <> [] -> StronglySorted Z.le l ->
  exists hi, py_max l = Returns hi /\ last l = Some hi.
Proof.
  destruct l as [| x l]; intros Hne H; [congruence |].
  exists (foldl Z.max x l). split; [reflexivity | apply foldl_max_last, H].
Qed.

(** X17 (tutorial, cell 14): started from a list that holds 15 and has at
    least four items, the cell ends with [number_list] sorted and two items
    shorter, [minimum] its first item and [maximum] its last; the items it
    took out (15, the deleted one and [number]) together with those left are
    the initial items and 82. *)
Theorem list_methods_sorts (l0 : list Z)
    (H15 : In 15 l0) (Hlen : (4 <= length l0)%nat) :
  exists d deleted,
    list_methods l0 = Returns d /\
    Sorted Z.le (number_list d) /\
    15 :: deleted :: number d :: number_list d ≡ₚ l0 ++ [82] /\
    length (number_list d) = (length l0 - 2)%nat /\
    head (number_list d) = Some (minimum d) /\
    last (number_list d) = Some (maximum d).
Proof.
  destruct (list_remove_present 15 (l0 ++ [82])) as (l2 & Hl2 & Hp2).
  { apply in_or_app. left. exact H15. }
  assert (Hlen2 : length l2 = length l0).
  { apply Permutation_length in Hp2. rewrite length_app in Hp2. simpl in Hp2. lia. }
  destruct (getitem_in_range l2 3) as (deleted & Hdel & _); [unfold len; lia |].
  pose proof (delete_Permutation l2 (Z.to_nat 3) deleted Hdel) as Hp3.
  set (l3 := delete (Z.to_nat 3) l2) in *.
  assert (Hlen3 : S (length l3) = length l0).
  { apply Permutation_length in Hp3. simpl in Hp3. lia. }
  destruct (getitem_in_range l3 2) as (n & Hn & Hget); [unfold len; lia |].
  pose proof (delete_Permutation l3 (Z.to_nat 2) n Hn) as Hp4.
  set (l4 := delete (Z.to_nat 2) l3) in *.
  assert (Hlen4 : S (S (length l4)) = length l0).
  { apply Permutation_length in Hp4. simpl in Hp4. lia. }
  set (l6 := merge_sort Z.le (rev l4)).
  assert (Hp6 : l6 ≡ₚ l4).
  { unfold l6. rewrite merge_sort_Permutation. symmetry. apply Permutation_rev. }
  assert (Hne : l6 <> []).
  { intros Heq. apply Permutation_length in Hp6. rewrite Heq in Hp6. simpl in Hp6. lia. }
  assert (Hsorted : StronglySorted Z.le l6).
  { apply StronglySorted_merge_sort; apply _. }
  destruct (py_min_sorted l6 Hne Hsorted) as (lo & Hlo & Hhead).
  destruct (py_max_sorted l6 Hne Hsorted) as (hi & Hhi & Hlast).
  exists (ListDemo l6 n lo hi), deleted.
  split.
  - unfold list_methods. rewrite Hl2, bind_Returns.
    rewrite delitem_in_range by (unfold len; lia). rewrite bind_Returns.
    unfold list_pop. fold l3. rewrite Hget, bind_Returns.
    rewrite delitem_in_range by (unfold len; lia). rewrite bind_Returns.
    cbn beta iota zeta. rewrite bind_Returns. fold l4. fold l6.
    rewrite Hlo, bind_Returns, Hhi, bind_Returns. reflexivity.
  - simpl. split; [apply StronglySorted_Sorted, Hsorted |].
    split; [| split; [| split; assumption]].
    + rewrite Hp6, <- Hp4, <- Hp3, <- Hp2. reflexivity.
    + apply Permutation_length in Hp6. lia.
Qed.

(** X18 (tutorial, cell 14): started from a list without 15 the cell stops
    at [remove] with [ValueError]; from a list that holds 15 but has fewer than
    four items it stops at [del] with [IndexError]. *)
Theorem list_methods_fails (l0 : list Z) :
  (~ In 15 l0 -> list_methods l0 = Throws (Standard ValueError)) /\
  (In 15 l0 -> (length l0 < 4)%nat -> list_methods l0 = Throws IndexError).
Proof.
  split.
  - intros H. unfold list_methods. rewrite list_remove_absent; [reflexivity |].
    rewrite in_app_iff. simpl. intros [H' | [H' | []]]; [tauto | discriminate].
  - intros H15 Hlen.
    destruct (list_remove_present 15 (l0 ++ [82])) as (l2 & Hl2 & Hp2).
    { apply in_or_app. left. exact H15. }
    assert (Hlen2 : length l2 = length l0).
    { apply Permutation_length in Hp2. rewrite length_app in Hp2. simpl in Hp2. lia. }
    unfold list_methods. rewrite Hl2, bind_Returns.
    rewrite delitem_beyond by (unfold len; lia). reflexivity.
Qed.

(** ** Slices of a vector *)

Lemma positions_lookup (start stp count : Z) (i p : nat) :
  positions start stp count !! i = Some p ->
  p = Z.to_nat (start + Z.of_nat i * stp) /\ Z.of_nat i < count.
Proof.
  unfold positions. rewrite list_lookup_fmap.
  destruct (seqZ 0 count !! i) as [k |] eqn:Hk; simpl; [| discriminate].
  intros [= <-]. apply lookup_seqZ in Hk as [-> Hi].
  split; [reflexivity | exact Hi].
Qed.

Lemma positions_length (start stp count : Z) :
  length (positions start stp count) = Z.to_nat count.
Proof. unfold positions. rewrite length_fmap. apply length_seqZ. Qed.

Lemma omap_lookup_eq {A : Type} (l : list A) (ps : list nat) (xs : list A) :
  Forall2 (fun p x => l !! p = Some x) ps xs -> omap (fun p => l !! p) ps = xs.
Proof.
  induction 1 as [| p x ps xs Hp _ IH]; simpl.
  - reflexivity.
  - rewrite Hp. simpl. f_equal. exact IH.
Qed.

(** A slice returns [xs] when [xs] has as many items as the slice selects
    positions and holds, at each place, the item of [l] at that position. *)
Lemma getslice_eq {A : Type} (l : list A) (s : slice) (start stp count : Z) (xs : list A) :
  slice_indices (len l) s = Returns (start, stp, count) ->
  length xs = Z.to_nat count ->
  (forall i x, xs !! i = Some x -> l !! Z.to_nat (start + Z.of_nat i * stp) = Some x) ->
  getslice l s = Returns xs.
Proof.
  intros Hs Hlen Hxs. unfold getslice. rewrite Hs, bind_Returns. f_equal.
  apply omap_lookup_eq, Forall2_same_length_lookup_2.
  - rewrite positions_length, Hlen. reflexivity.
  - intros i p x Hp Hx. apply positions_lookup in Hp as [-> _]. apply Hxs, Hx.
Qed.

Lemma rev_lookup {A : Type} (l : list A) (i : nat) (x : A) :
  rev l !! i = Some x -> l !! (length l - S i)%nat = Some x /\ (i < length l)%nat.
Proof.
  intros H. rewrite rev_alt in H. change (rev_append l []) with (reverse l) in H.
  assert (Hi : (i < length l)%nat).
  { apply lookup_lt_Some in H. rewrite length_reverse in H. exact H. }
  rewrite reverse_lookup in H by exact Hi. split; assumption.
Qed.

Lemma indices_reversed (n : Z) :
  0 <= n -> slice_indices n (Slice None None (Some (-1))) = Returns (n - 1, -1, n).
Proof.
  intros Hn. unfold slice_indices. simpl.
  destruct (Z.ltb_spec (-1) (n - 1)) as [H | H].
  - do 3 f_equal. rewrite Z.div_1_r. lia.
  - do 3 f_equal. lia.
Qed.

(** X1 (cell 48): [integers[::-1]] is the vector reversed, whatever its
    length. *)
Theorem slice_reverses (integers : list Z) :
  integers_reversed integers = Returns (rev integers).
Proof.
  apply (getslice_eq _ _ (len integers - 1) (-1) (len integers)).
  - apply indices_reversed, len_nonneg.
  - rewrite length_rev. unfold len. lia.
  - intros i x Hx. apply rev_lookup in Hx as [Hx Hi]. rewrite <- Hx. f_equal.
    unfold len. lia.
Qed.

Lemma indices_forward (n k : Z) :
  0 <= n -> 0 <= k ->
  slice_indices n (Slice (Some k) None None) = Returns (Z.min k n, 1, n - Z.min k n).
Proof.
  intros Hn Hk. unfold slice_indices, clip. simpl.
  destruct (Z.ltb_spec k 0) as [H | _]; [lia |].
  destruct (Z.leb_spec n k) as [H | H].
  - rewrite Z.min_r by lia. rewrite Z.ltb_irrefl. do 3 f_equal. lia.
  - rewrite Z.min_l by lia. destruct (Z.ltb_spec k n) as [_ | H']; [| lia].
    rewrite Z.div_1_r. do 3 f_equal. lia.
Qed.

Lemma indices_tail (n k : Z) :
  0 <= n -> 0 < k ->
  slice_indices n (Slice (Some (- k)) None None)
  = Returns (Z.max 0 (n - k), 1, n - Z.max 0 (n - k)).
Proof.
  intros Hn Hk. unfold slice_indices, clip. simpl.
  destruct (Z.ltb_spec (- k) 0) as [_ | H]; [| lia].
  destruct (Z.ltb_spec (- k + n) 0) as [H | H].
  - rewrite Z.max_l by lia. destruct (Z.ltb_spec 0 n) as [H' | H'].
    + rewrite Z.div_1_r. do 3 f_equal. lia.
    + do 3 f_equal. lia.
  - rewrite Z.max_r by lia. destruct (Z.ltb_spec (- k + n) n) as [_ | H']; [| lia].
    rewrite Z.div_1_r. do 3 f_equal; lia.
Qed.

Lemma getslice_drop {A : Type} (l : list A) (s : slice) (start : Z) :
  0 <= start <= len l ->
  slice_indices (len l) s = Returns (start, 1, len l - start) ->
  getslice l s = Returns (drop (Z.to_nat start) l).
Proof.
  intros Hstart Hs. apply (getslice_eq _ _ _ _ _ _ Hs).
  - rewrite length_drop. unfold len in *. lia.
  - intros i x Hx. rewrite lookup_drop in Hx. rewrite <- Hx. f_equal. lia.
Qed.

(** X2 (cell 46): [integers[-5:]] holds the last five items of the vector,
    and the whole vector when it has fewer than five; it never raises. *)
Theorem slice_last_five (integers : list Z) :
  integers_last_five integers = Returns (drop (length integers - 5) integers).
Proof.
  unfold integers_last_five. pose proof (len_nonneg integers) as Hn.
  rewrite (getslice_drop _ _ (Z.max 0 (len integers - 5))).
  - f_equal. f_equal. unfold len. lia.
  - lia.
  - apply (indices_tail _ 5); lia.
Qed.

(** X4 (cell 49): [integers[3::]] is the vector without its first three
    items, empty when there are no more than three. *)
Theorem slice_from_fourth (integers : list Z) :
  integers_from_fourth integers = Returns (drop 3 integers).
Proof.
  unfold integers_from_fourth. pose proof (len_nonneg integers) as Hn.
  rewrite (getslice_drop _ _ (Z.min 3 (len integers))).
  - f_equal. destruct (Z.le_gt_cases 3 (len integers)) as [H | H].
    + rewrite Z.min_l by exact H. reflexivity.
    + rewrite Z.min_r by lia. unfold len in *. rewrite Nat2Z.id.
      rewrite !drop_ge by lia. reflexivity.
  - lia.
  - apply indices_forward; lia.
Qed.

Lemma indices_back (n k : Z) :
  0 <= n -> 0 <= k ->
  slice_indices n (Slice (Some k) None (Some (-1)))
  = Returns (Z.min k (n - 1), -1, Z.min k (n - 1) + 1).
Proof.
  intros Hn Hk. unfold slice_indices, clip. simpl.
  destruct (Z.ltb_spec k 0) as [H | _]; [lia |].
  destruct (Z.leb_spec n k) as [H | H].
  - rewrite Z.min_r by lia. destruct (Z.ltb_spec (-1) (n - 1)) as [H' | H'].
    + rewrite Z.div_1_r. do 3 f_equal. lia.
    + do 3 f_equal. lia.
  - rewrite Z.min_l by lia. destruct (Z.ltb_spec (-1) k) as [_ | H']; [| lia].
    rewrite Z.div_1_r. do 3 f_equal. lia.
Qed.

(** X5 (cell 50): [integers[3::-1]] is the first four items in reverse
    order (all of them, reversed, when the vector has fewer than four). *)
Theorem slice_back_from_fourth (integers : list Z) :
  integers_back_from_fourth integers = Returns (rev (take 4 integers)).
Proof.
  pose proof (len_nonneg integers) as Hn.
  apply (getslice_eq _ _ (Z.min 3 (len integers - 1)) (-1) (Z.min 3 (len integers - 1) + 1)).
  - apply indices_back; lia.
  - rewrite length_rev, length_take. unfold len. lia.
  - intros i x Hx. apply rev_lookup in Hx as [Hx Hi]. rewrite length_take in Hx, Hi.
    rewrite lookup_take_lt in Hx by lia. rewrite <- Hx. f_equal. unfold len. lia.
Qed.

(** ** Every other item: cells 47, 68 and 69 *)

Lemma every_other_lookup {A : Type} (l : list A) (k : nat) :
  every_other l !! k = l !! (2 * k)%nat.
Proof.
  revert l. induction k as [| k IH]; intros [| a [| b l]]; try reflexivity.
  simpl every_other. replace (2 * S k)%nat with (S (S (2 * k))) by lia.
  simpl. apply IH.
Qed.

Lemma every_other_length_aux {A : Type} (n : nat) (l : list A) :
  (length l <= n)%nat -> (2 * length (every_other l) = length l + length l mod 2)%nat.
Proof.
  revert l. induction n as [| n IH]; intros [| a [| b l]] Hn; try reflexivity;
    simpl in Hn; try lia.
  simpl every_other. simpl length. specialize (IH l ltac:(lia)).
  replace (S (S (length l))) with (length l + 1 * 2)%nat by lia.
  rewrite Nat.Div0.mod_add. lia.
Qed.

Lemma every_other_length {A : Type} (l : list A) :
  len (every_other l) = (len l + 1) / 2.
Proof.
  pose proof (every_other_length_aux (length l) l (le_n _)) as H.
  pose proof (Nat.mod_upper_bound (length l) 2 ltac:(lia)) as Hmod.
  unfold len. apply Z.div_unique with (r := 1 - Z.of_nat (length l mod 2)); lia.
Qed.

Lemma indices_alternate (n : Z) :
  0 <= n -> slice_indices n (Slice None None (Some 2)) = Returns (0, 2, (n + 1) / 2).
Proof.
  intros Hn. unfold slice_indices. simpl.
  destruct (Z.ltb_spec 0 n) as [H | H].
  - do 3 f_equal. rewrite Z.sub_0_r.
    replace (n + 1) with (n - 1 + 1 * 2) by lia. rewrite Z.div_add by lia. reflexivity.
  - replace n with 0 by lia. reflexivity.
Qed.

(** X3 (cells 47, 68 and 69): [integers[::2]] holds the items at the even
    positions; on a vector of ten items the boolean mask [row_mask] selects the
    same items, and on a vector of any other length it raises [IndexError];
    the mask built from ones and zeros in cell 69 is the same mask. *)
Theorem slice_and_mask_alternate (integers : list Z) :
  integers_alternate integers = Returns (every_other integers) /\
  (forall k : nat, every_other integers !! k = integers !! (2 * k)%nat) /\
  (length integers = 10%nat ->
   integers_masked integers row_mask = Returns (every_other integers)) /\
  (length integers <> 10%nat -> integers_masked integers row_mask = Throws IndexError) /\
  row_mask_from_ints = row_mask.
Proof.
  split; [| split; [| split; [| split]]].
  - apply (getslice_eq _ _ 0 2 ((len integers + 1) / 2)).
    + apply indices_alternate, len_nonneg.
    + rewrite <- every_other_length. unfold len. lia.
    + intros i x Hx. rewrite every_other_lookup in Hx. rewrite <- Hx. f_equal. lia.
  - apply every_other_lookup.
  - intros H. do 11 (destruct integers as [| ? integers]; try discriminate).
    reflexivity.
  - intros H. unfold integers_masked, getmask.
    destruct (Nat.eqb_spec (length integers) (length row_mask)) as [Heq | _].
    + exfalso. apply H. exact Heq.
    + reflexivity.
  - reflexivity.
Qed.

(** ** Assignments into the vector: cells 43 and 53 *)

Lemma setitem_in_range {A : Type} (l : list A) (i : Z) (a : A) :
  0 <= i < len l -> setitem l i a = Returns (<[Z.to_nat i := a]> l).
Proof.
  intros Hi. unfold setitem, wrap_index.
  destruct (Z.ltb_spec i 0) as [H | _]; [lia |].
  destruct (Z.leb_spec 0 i) as [_ | H]; [| lia].
  destruct (Z.ltb_spec i (len l)) as [_ | H]; [| lia]. reflexivity.
Qed.

Lemma setitem_beyond {A : Type} (l : list A) (i : Z) (a : A) :
  len l <= i -> setitem l i a = Throws IndexError.
Proof.
  intros Hi. unfold setitem, wrap_index. pose proof (len_nonneg l).
  destruct (Z.ltb_spec i 0) as [H' | _]; [lia |].
  destruct (Z.ltb_spec i (len l)) as [H' | _]; [lia |].
  rewrite andb_false_r. reflexivity.
Qed.

(** X6 (cell 43): [integers[4] = 99.21] stores 99, the float truncated, at
    position 4 and leaves the length and every other item as they were; on a
    vector of four items or fewer it raises [IndexError]. *)
Theorem assignment_truncates (integers : list Z) :
  ((4 < length integers)%nat ->
   exists r, integers_assign integers = Returns r /\
             r !! 4%nat = Some 99 /\
             length r = length integers /\
             forall j : nat, j <> 4%nat -> r !! j = integers !! j) /\
  ((length integers <= 4)%nat -> integers_assign integers = Throws IndexError).
Proof.
  unfold integers_assign.
  change (lift (to_int64 (VFloat float_99_21))) with (Returns (A := Z) 99).
  rewrite bind_Returns. split; intros H.
  - exists (<[4%nat := 99]> integers).
    rewrite setitem_in_range by (unfold len; lia).
    split; [reflexivity |]. split; [| split].
    + apply list_lookup_insert_eq. exact H.
    + apply length_insert.
    + intros j Hj. apply list_lookup_insert_ne. congruence.
  - apply setitem_beyond. unfold len. lia.
Qed.

Lemma split_last_two {A : Type} (l : list A) :
  (2 <= length l)%nat ->
  exists pre x y, l = pre ++ [x; y] /\ take (length l - 2) l = pre.
Proof.
  intros H. exists (take (length l - 2) l).
  destruct (drop (length l - 2) l) as [| x [| y [| z tl]]] eqn:Hdrop;
    pose proof (f_equal length Hdrop) as Hlen; rewrite length_drop in Hlen;
    simpl in Hlen; try lia.
  exists x, y. rewrite <- Hdrop, take_drop. split; reflexivity.
Qed.

(** X7 (cell 53): [integers[-2:] = [-23, -46]] replaces the last two items
    and nothing else; on a vector of fewer than two items the two values
    cannot be broadcast and the assignment raises [ValueError]. *)
Theorem tail_assignment (integers : list Z) :
  ((2 <= length integers)%nat ->
   integers_assign_tail integers
   = Returns (take (length integers - 2) integers ++ [-23; -46])) /\
  ((length integers < 2)%nat ->
   integers_assign_tail integers = Throws (Standard ValueError)).
Proof.
  split; intros H.
  - destruct (split_last_two integers H) as (pre & x & y & Hl & ->).
    rewrite Hl at 1. clear Hl H. clear integers.
    unfold integers_assign_tail, setslice. pose proof (len_nonneg pre) as Hn.
    replace (len (pre ++ [x; y])) with (len pre + 2) by (rewrite len_app; reflexivity).
    rewrite (indices_tail _ 2) by lia.
    rewrite bind_Returns. cbn beta iota.
    rewrite Z.max_r by lia.
    replace (len pre + 2 - (len pre + 2 - 2)) with 2 by lia.
    change (len [-23; -46] =? 2) with true. cbn beta iota.
    change (positions (len pre + 2 - 2) 1 2)
      with [Z.to_nat (len pre + 2 - 2 + 0 * 1); Z.to_nat (len pre + 2 - 2 + 1 * 1)].
    replace (Z.to_nat (len pre + 2 - 2 + 0 * 1)) with (length pre + 0)%nat
      by (unfold len; lia).
    replace (Z.to_nat (len pre + 2 - 2 + 1 * 1)) with (length pre + 1)%nat
      by (unfold len; lia).
    simpl zip. simpl foldl. rewrite insert_app_r. simpl. rewrite insert_app_r.
    reflexivity.
  - destruct integers as [| x [| y l]]; simpl in H; try lia; reflexivity.
Qed.

(** ** The view of cells 77 to 81 *)

Lemma omap_lookup_valid {A : Type} (l : list A) (ps : list nat) :
  Forall (fun p => (p < length l)%nat) ps ->
  Forall2 (fun p x => l !! p = Some x) ps (omap (fun p => l !! p) ps).
Proof.
  induction 1 as [| p ps Hp _ IH]; simpl.
  - constructor.
  - destruct (lookup_lt_is_Some_2 l p Hp) as [x Hx]. rewrite Hx. simpl.
    constructor; assumption.
Qed.

Lemma indices_s1 (n : Z) :
  2 <= n -> slice_indices n (Slice (Some 1) None (Some 3)) = Returns (1, 3, (n + 1) / 3).
Proof.
  intros Hn. unfold slice_indices, clip. simpl.
  destruct (Z.leb_spec n 1) as [H | _]; [lia |].
  destruct (Z.ltb_spec 1 n) as [_ | H]; [| lia].
  do 3 f_equal. replace (n + 1) with (n - 1 - 1 + 1 * 3) by lia.
  rewrite Z.div_add by lia. reflexivity.
Qed.

(** X8 (cells 77 to 81): [s1 = a[1::3]] is a view: after [a[7] = 77] it
    shows 77 at its position 2 and its other items unchanged, for every vector
    [a] of eight items or more. *)
Theorem view_sees_assignment (a : list Z) (s1 : ndview)
    (Hlen : (8 <= length a)%nat) (Hs1 : view_s1 a = Returns s1) :
  assign_and_show a s1
  = Returns (<[7%nat := 77]> a, <[2%nat := 77]> (read_view a s1)).
Proof.
  unfold view_s1, view_of in Hs1.
  rewrite indices_s1 in Hs1 by (unfold len; lia). injection Hs1 as <-.
  unfold assign_and_show. rewrite setitem_in_range by (unfold len; lia).
  rewrite bind_Returns. change (Z.to_nat 7) with 7%nat. do 2 f_equal.
  unfold read_view. simpl vstart. simpl vstep. simpl vcount.
  set (count := (len a + 1) / 3).
  assert (Hcount : 3 <= count /\ 3 * count <= len a + 1).
  { unfold count. split.
    - apply Z.div_le_lower_bound; unfold len; lia.
    - apply Z.mul_div_le. lia. }
  assert (Hvalid : Forall (fun p => (p < length a)%nat) (positions 1 3 count)).
  { apply Forall_lookup. intros i p Hi.
    apply positions_lookup in Hi as [-> Hi]. unfold len in Hcount. lia. }
  pose proof (omap_lookup_valid a _ Hvalid) as Hold.
  apply omap_lookup_eq, Forall2_same_length_lookup_2.
  - rewrite length_insert. eapply Forall2_length, Hold.
  - intros i p x Hp Hx.
    pose proof (positions_lookup _ _ _ _ _ Hp) as [-> Hi].
    destruct (decide (i = 2%nat)) as [-> | Hne].
    + rewrite list_lookup_insert_eq in Hx.
      * injection Hx as <-. change (Z.to_nat (1 + Z.of_nat 2 * 3)) with 7%nat.
        apply list_lookup_insert_eq. lia.
      * rewrite <- (Forall2_length _ _ _ Hold), positions_length. lia.
    + rewrite list_lookup_insert_ne in Hx by congruence.
      rewrite list_lookup_insert_ne by lia.
      destruct (Forall2_lookup_l _ _ _ _ _ Hold Hp) as (x' & Hx' & Hax).
      rewrite Hx in Hx'. injection Hx' as <-. exact Hax.
Qed.

(** ** The second name and the copy of cells 131 to 136 *)

Lemma setitem2_origin (x v : Z) (row : list Z) (rest : list (list Z)) :
  setitem2 ((x :: row) :: rest) 0 0 v = Returns ((v :: row) :: rest).
Proof.
  unfold setitem2. change (getitem ((x :: row) :: rest) 0) with (Returns (x :: row)).
  rewrite bind_Returns.
  rewrite setitem_in_range by (unfold len; simpl; lia). rewrite bind_Returns.
  rewrite setitem_in_range by (unfold len; simpl; lia). reflexivity.
Qed.

(** X14 (cells 132 to 136): after [B = A] an assignment to [B[0,0]] shows
    in [A]; after [B = np.copy(A)] it does not, and only [B] changes. *)
Theorem name_shares_copy_does_not (s : session) (o : nat) (x : Z) (row : list Z)
    (rest : list (list Z))
    (HA : names s !! "A" = Some o)
    (Ho : objects s !! o = Some ((x :: row) :: rest)) :
  alias_and_assign s = Returns ((10 :: row) :: rest) /\
  copy_and_assign s = Returns ((x :: row) :: rest, (-5 :: row) :: rest).
Proof.
  split.
  - unfold alias_and_assign, assign_name. rewrite HA, bind_Returns.
    unfold assign_item. simpl names. simpl objects.
    rewrite lookup_insert_eq, Ho, setitem2_origin, bind_Returns.
    rewrite bind_Returns. unfold read. simpl names. simpl objects.
    rewrite lookup_insert_ne by discriminate. rewrite HA, lookup_insert_eq. reflexivity.
  - unfold copy_and_assign, assign_copy, read. rewrite HA, Ho, !bind_Returns.
    set (o' := fresh (dom (objects s))).
    assert (Hfresh : o' <> o).
    { intros Heq. apply (is_fresh (dom (objects s))). fold o'. rewrite Heq.
      apply elem_of_dom. eauto. }
    unfold assign_item. simpl names. simpl objects.
    rewrite lookup_insert_eq, lookup_insert_eq, setitem2_origin, !bind_Returns.
    simpl names. simpl objects.
    rewrite (lookup_insert_ne _ "B" "A") by discriminate. rewrite HA.
    rewrite !(lookup_insert_ne _ o' o) by exact Hfresh.
    rewrite Ho, bind_Returns. rewrite !lookup_insert_eq. reflexivity.
Qed.

(** ** The place of the maximum: cells 91 to 94 *)

Lemma argmax_from_spec (l pre : list Z) (best_at best : Z) :
  0 <= best_at < len pre ->
  pre !! Z.to_nat best_at = Some best ->
  0 <= argmax_from best_at best (len pre) l < len (pre ++ l) /\
  (pre ++ l) !! Z.to_nat (argmax_from best_at best (len pre) l)
    = Some (foldl Z.max best l).
Proof.
  revert pre best_at best. induction l as [| x l IH]; intros pre best_at best Hat Hbest.
  - simpl. rewrite app_nil_r. split; assumption.
  - simpl. replace (pre ++ x :: l) with ((pre ++ [x]) ++ l)
      by (rewrite <- app_assoc; reflexivity).
    replace (len pre + 1) with (len (pre ++ [x])) by (rewrite len_app; reflexivity).
    destruct (Z.ltb_spec best x) as [Hlt | Hge].
    + rewrite Z.max_r by lia. apply IH.
      * rewrite len_app. unfold len. simpl. lia.
      * unfold len. rewrite Nat2Z.id. apply list_lookup_middle. reflexivity.
    + rewrite Z.max_l by lia. apply IH.
      * rewrite len_app. unfold len in *. simpl. lia.
      * rewrite lookup_app_l by (unfold len in Hat; lia). exact Hbest.
Qed.

Lemma foldl_max_bound (l : list Z) (x : Z) :
  x <= foldl Z.max x l /\ Forall (fun z => z <= foldl Z.max x l) l.
Proof.
  revert x. induction l as [| y l IH]; intros x; simpl.
  - split; [lia | constructor].
  - destruct (IH (Z.max x y)) as [Hx Hl]. split; [lia |].
    constructor; [lia | exact Hl].
Qed.

(** X12 (cells 92 to 94): the item at
    [np.unravel_index(np.argmax(arr), arr.shape)] is [np.max(arr)], an item of
    the array that no item exceeds; on an empty array both raise
    [ValueError]. *)
Theorem argmax_finds_max (arr : matrix) (Hshape : well_shaped arr) :
  item_at_argmax arr = np_max arr /\
  (forall v, np_max arr = Returns v ->
             In v (flat arr) /\ Forall (fun z => z <= v) (flat arr)) /\
  (flat arr = [] -> np_max arr = Throws (Standard ValueError)).
Proof.
  destruct arr as [r c data]. destruct Hshape as (Hr & Hc & Hlen). simpl in *.
  unfold item_at_argmax, np_max, np_argmax. simpl.
  destruct data as [| x l]; [repeat split; try reflexivity; discriminate |].
  destruct (argmax_from_spec l [x] 0 x) as [Hrange Hitem];
    [unfold len; simpl; lia | reflexivity |].
  change (len [x]) with 1 in *. change ([x] ++ l) with (x :: l) in *.
  set (k := argmax_from 0 x 1 l) in *.
  assert (Hcpos : 0 < c) by (unfold len in *; simpl in *; nia).
  split; [| split; [| discriminate]].
  - rewrite bind_Returns. unfold unravel_index.
    destruct (Z.leb_spec 0 k) as [_ | H]; [| lia].
    destruct (Z.ltb_spec k (r * c)) as [_ | H]; [| lia].
    simpl andb. cbn beta iota. rewrite bind_Returns.
    unfold getitem2. simpl nrows. simpl ncols. simpl flat. simpl fst. simpl snd.
    pose proof (Z.mod_pos_bound k c Hcpos) as Hmod.
    assert (Hdiv : 0 <= k / c < r).
    { split; [apply Z.div_pos; lia | apply Z.div_lt_upper_bound; lia]. }
    unfold wrap_index.
    destruct (Z.ltb_spec (k / c) 0) as [H | _]; [lia |].
    destruct (Z.ltb_spec (k mod c) 0) as [H | _]; [lia |].
    destruct (Z.leb_spec 0 (k / c)) as [_ | H]; [| lia].
    destruct (Z.ltb_spec (k / c) r) as [_ | H]; [| lia].
    destruct (Z.leb_spec 0 (k mod c)) as [_ | H]; [| lia].
    destruct (Z.ltb_spec (k mod c) c) as [_ | H]; [| lia].
    cbn beta iota. simpl andb. cbn iota.
    replace (k / c * c + k mod c) with k by (rewrite (Z.div_mod k c) at 1; lia).
    destruct (getitem_in_range (x :: l) k Hrange) as (v & Hv & ->).
    rewrite Hitem in Hv. injection Hv as <-. reflexivity.
  - intros v [= <-]. split.
    + apply list_elem_of_In. eapply list_elem_of_lookup_2, Hitem.
    + destruct (foldl_max_bound l x) as [Hx Hl]. constructor; assumption.
Qed.

(** ** [Theta] on vectors *)

(** X16 (cell 144): on a vector of any dtype and length the vector-aware
    [Theta] returns an integer vector of the same length whose items are 0 or
    1. *)
Theorem vector_aware_shape (a : ndarray) :
  exists bits,
    VectorAware.Theta (VArr a) = Ok (VArr (AInt bits)) /\
    length bits = ndarray_size a /\
    Forall (fun b => b = 0 \/ b = 1) bits.
Proof.
  destruct a as [xs | xs | xs]; unfold VectorAware.Theta; simpl;
    eexists; (split; [reflexivity |]); rewrite !length_map; (split; [reflexivity |]);
    apply List.Forall_forall; intros b Hb;
    apply in_map_iff in Hb as (c & <- & _); destruct c; auto.
Qed.

(** X15 (cell 138): on a vector of one item the scalar [Theta] returns what
    it returns on that item. *)
Theorem Theta_single_item (a : ndarray) (x : value) (Hone : items a = [x]) :
  Scalar.Theta (VArr a) = Scalar.Theta x.
Proof.
  destruct a as [[| z [| ? ?]] | [| f [| ? ?]] | [| b [| ? ?]]]; simpl in Hone;
    try discriminate; injection Hone as <-.
  - rewrite Theta_int. unfold Scalar.Theta. simpl. destruct (0 <=? z); reflexivity.
  - rewrite Theta_float. unfold Scalar.Theta. simpl.
    destruct (SFleb float_zero f); reflexivity.
  - destruct b; reflexivity.
Qed.

(** ** Calls of [another_function] *)





(** Where the values bound to the parameters come from: a property that
    holds of every argument of the call and of every default holds of every
    bound value. *)
Section Provenance.

Variable P : value -> Prop.







End Provenance.



(** ** The array [twenty]: cells 55 to 61 *)

Lemma getslice_backwards {A : Type} (l : list A) : getslice l backwards = Returns (rev l).
Proof.
  apply (getslice_eq _ _ (len l - 1) (-1) (len l)).
  - apply indices_reversed, len_nonneg.
  - rewrite length_rev. unfold len. lia.
  - intros i x Hx. apply rev_lookup in Hx as [Hx Hi]. rewrite <- Hx. f_equal.
    unfold len. lia.
Qed.

Lemma indices_upto (n k : Z) :
  0 <= n -> 0 <= k ->
  slice_indices n (Slice None (Some k) None) = Returns (0, 1, Z.min k n).
Proof.
  intros Hn Hk. unfold slice_indices, clip. simpl.
  destruct (Z.ltb_spec k 0) as [H | _]; [lia |].
  destruct (Z.leb_spec n k) as [H | H].
  - rewrite Z.min_r by lia. destruct (Z.ltb_spec 0 n) as [H' | H'].
    + rewrite Z.div_1_r. do 3 f_equal. lia.
    + do 3 f_equal. lia.
  - rewrite Z.min_l by lia. destruct (Z.ltb_spec 0 k) as [H' | H'].
    + rewrite Z.div_1_r. do 3 f_equal. lia.
    + do 3 f_equal. lia.
Qed.

Lemma indices_whole (n : Z) : 0 <= n -> slice_indices n whole = Returns (0, 1, n).
Proof.
  intros Hn. unfold slice_indices. simpl. destruct (Z.ltb_spec 0 n) as [H | H].
  - rewrite Z.div_1_r. do 3 f_equal. lia.
  - do 3 f_equal. lia.
Qed.

Lemma getslice_upto {A : Type} (l : list A) (k : Z) :
  0 <= k -> getslice l (Slice None (Some k) None) = Returns (take (Z.to_nat k) l).
Proof.
  intros Hk. pose proof (len_nonneg l) as Hn.
  apply (getslice_eq _ _ 0 1 (Z.min k (len l))).
  - apply indices_upto; assumption.
  - rewrite length_take. unfold len. lia.
  - intros i x Hx. pose proof (lookup_lt_Some _ _ _ Hx) as Hi.
    rewrite length_take in Hi. rewrite lookup_take_lt in Hx by lia.
    rewrite <- Hx. f_equal. lia.
Qed.

Lemma getslice_whole {A : Type} (l : list A) : getslice l whole = Returns l.
Proof.
  apply (getslice_eq _ _ 0 1 (len l)).
  - apply indices_whole, len_nonneg.
  - unfold len. lia.
  - intros i x Hx. rewrite <- Hx. f_equal. lia.
Qed.

Lemma each_Returns {A B : Type} (f : A -> outcome B) (g : A -> B) (l : list A) :
  (forall a, f a = Returns (g a)) -> each f l = Returns (map g l).
Proof.
  intros Hf. induction l as [| a l IH]; simpl.
  - reflexivity.
  - rewrite Hf, bind_Returns, IH. reflexivity.
Qed.

(** X9 (cell 56): [twenty[:2, :3]] holds the first three items of each of
    the first two rows, for an array of any shape. *)
Theorem block_of_rows_and_columns (twenty : list (list Z)) :
  twenty_block twenty = Returns (map (take 3) (take 2 twenty)).
Proof.
  unfold twenty_block, getslice2. rewrite getslice_upto by lia. rewrite bind_Returns.
  apply each_Returns. intros row. apply (getslice_upto row 3). lia.
Qed.

(** X10 (cell 57): on an array of four rows and five columns
    [twenty[::3, ::4]] holds the four corner items. *)
Theorem corners_of_four_by_five (twenty : list (list Z))
    (Hrows : length twenty = 4%nat)
    (Hcolumns : Forall (fun row => length row = 5%nat) twenty) :
  exists first last_ a b c d,
    head twenty = Some first /\ last twenty = Some last_ /\
    head first = Some a /\ last first = Some b /\
    head last_ = Some c /\ last last_ = Some d /\
    twenty_corners twenty = Returns [[a; b]; [c; d]].
Proof.
  do 5 (destruct twenty as [| ? twenty]; try discriminate).
  repeat match goal with
         | H : Forall _ (_ :: _) |- _ => inversion H; clear H; subst
         end.
  repeat match goal with
         | H : length ?l = 5%nat |- _ =>
             do 6 (destruct l as [| ? l]; try discriminate); clear H
         end.
  do 6 eexists. repeat split.
Qed.

(** X11 (cells 60 and 61): [twenty[::-1, ::-1]], which is
    [np.flip(twenty, axis=(0, 1))], reverses the rows and each row, and
    [np.flipud(np.fliplr(twenty))] and [np.fliplr(np.flipud(twenty))] both
    return the same array. *)
Theorem flips_agree (twenty : list (list Z)) :
  flip_both twenty = Returns (rev (map (@rev Z) twenty)) /\
  flipud_fliplr twenty = flip_both twenty /\
  fliplr_flipud twenty = flip_both twenty.
Proof.
  assert (Hud : forall m, flipud m = Returns (rev m)).
  { intros m. unfold flipud, getslice2. rewrite getslice_backwards, bind_Returns.
    rewrite (each_Returns _ id) by (intros row; apply getslice_whole).
    rewrite map_id. reflexivity. }
  assert (Hlr : forall m, fliplr m = Returns (map (@rev Z) m)).
  { intros m. unfold fliplr, getslice2. rewrite getslice_whole, bind_Returns.
    apply each_Returns. intros row. apply getslice_backwards. }
  assert (Hboth : flip_both twenty = Returns (rev (map (@rev Z) twenty))).
  { unfold flip_both, getslice2. rewrite getslice_backwards, bind_Returns.
    rewrite (each_Returns _ (@rev Z)) by (intros row; apply getslice_backwards).
    rewrite map_rev. reflexivity. }
  split; [exact Hboth |]. split.
  - unfold flipud_fliplr. rewrite Hlr, bind_Returns, Hud, Hboth. reflexivity.
  - unfold fliplr_flipud. rewrite Hud, bind_Returns, Hlr, Hboth, map_rev. reflexivity.
Qed.

(** ** Shapes that broadcast: cells 105 to 113 *)

Lemma slice_count_whole (n : Z) : 0 <= n -> slice_count n whole = Returns n.
Proof. intros Hn. unfold slice_count. rewrite indices_whole by exact Hn. reflexivity. Qed.

Lemma slice_count_upto (n k : Z) :
  0 <= n -> 0 <= k -> slice_count n (Slice None (Some k) None) = Returns (Z.min k n).
Proof.
  intros Hn Hk. unfold slice_count. rewrite indices_upto by assumption. reflexivity.
Qed.

(** X13 (cells 111 to 113): for [vec] of [n] items and [arr] of shape
    [(r, n)], [vec * arr] has the shape of [arr]; [vec[:, None] * arr] raises
    [ValueError] unless [n] equals [r] or one of them is 1; with four rows and
    at least four items, [vec[:4, None] * arr] has the shape of [arr]. *)
Theorem broadcasting_of_the_products (n r : Z) (Hn : 0 <= n) :
  product_shape n [r; n] = Returns [r; n] /\
  (n <> r -> n <> 1 -> r <> 1 ->
   column_product_shape n [r; n] = Throws (Standard ValueError)) /\
  (4 <= n -> short_column_product_shape n [4; n] = Returns [4; n]).
Proof.
  split; [| split].
  - unfold product_shape, broadcast_shapes. cbn -[Z.eqb]. rewrite Z.eqb_refl. reflexivity.
  - intros Hnr Hn1 Hr1. unfold column_product_shape.
    rewrite slice_count_whole, bind_Returns by exact Hn.
    unfold broadcast_shapes. cbn -[Z.eqb].
    destruct (Z.eqb_spec n r) as [H | _]; [contradiction |].
    destruct (Z.eqb_spec n 1) as [H | _]; [contradiction |].
    destruct (Z.eqb_spec r 1) as [H | _]; [contradiction |].
    destruct (1 =? n); reflexivity.
  - intros H4. unfold short_column_product_shape.
    rewrite slice_count_upto, bind_Returns by lia. rewrite Z.min_l by lia.
    unfold broadcast_shapes. cbn -[Z.eqb].
    destruct (Z.eqb_spec 1 n) as [H | _]; [lia |]. reflexivity.
Qed.

(** ** Names *)

(** X23 (both notebooks): run from the first cell to the last, neither
    notebook reads a name before binding it; the numpy notebook reads [np],
    and no cell reads [plt], the name of the other import. *)
Theorem names_bound_before_read :
  unbound_names introduction_to_numpy = [] /\
  unbound_names initial_python_tutorial = [] /\
  In "np" (names_read introduction_to_numpy) /\
  ~ In "plt" (names_read all_cells).
Proof.
  split; [vm_compute; reflexivity |].
  split; [vm_compute; reflexivity |].
  split.
  - assert (Hb : existsb (String.eqb "np") (names_read introduction_to_numpy) = true)
      by (vm_compute; reflexivity).
    apply existsb_exists in Hb as (x & Hx & Heq).
    apply String.eqb_eq in Heq. rewrite Heq. exact Hx.
  - intros H. assert (Hb : existsb (String.eqb "plt") (names_read all_cells) = true).
    { apply existsb_exists. exists "plt". split; [exact H | apply String.eqb_refl]. }
    vm_compute in Hb. discriminate.
Qed.

(** ** The cells run on the notebook's values *)

Lemma search_prints_one_line_witness :
  search ["Leanord"; "Sheldon"; "Penny"] "Leanord" "Found Leanord!" "Did not find Leanord!"
    = ["Found Leanord!"] /\
  search ["Leanord"; "Sheldon"; "Penny"] "Evan" "Found Evan!" "Did not find Evan!"
    = ["Did not find Evan!"].
Proof.
  split.
  - apply (search_prints_one_line ["Leanord"; "Sheldon"; "Penny"]). simpl. tauto.
  - apply (search_prints_one_line ["Leanord"; "Sheldon"; "Penny"]). simpl.
    intros [H | [H | [H | []]]]; discriminate.
Defined.

Lemma count_up_terminates_witness :
  count_up 6 0 = Some ([0; 1; 2; 3; 4; 5], 6).
Proof. apply (count_up_terminates 6 0). simpl. lia. Defined.

Lemma list_methods_sorts_witness :
  exists d deleted,
    list_methods [0; 15; 32; 99; 852; 16] = Returns d /\
    Sorted Z.le (number_list d) /\
    15 :: deleted :: number d :: number_list d ≡ₚ [0; 15; 32; 99; 852; 16] ++ [82] /\
    length (number_list d) = (length [0; 15; 32; 99; 852; 16] - 2)%nat /\
    head (number_list d) = Some (minimum d) /\
    last (number_list d) = Some (maximum d).
Proof.
  apply (list_methods_sorts [0; 15; 32; 99; 852; 16]).
  - simpl. tauto.
  - simpl. lia.
Defined.

Lemma list_methods_fails_witness :
  list_methods [0; 32; 99; 852; 16] = Throws (Standard ValueError) /\
  list_methods [0; 15; 32] = Throws IndexError.
Proof.
  split.
  - apply (list_methods_fails [0; 32; 99; 852; 16]). simpl.
    intros [H | [H | [H | [H | [H | []]]]]]; discriminate.
  - apply (list_methods_fails [0; 15; 32]).
    + simpl. tauto.
    + simpl. lia.
Defined.

Lemma slice_and_mask_alternate_witness :
  integers_masked integers_sample row_mask = Returns (every_other integers_sample) /\
  integers_masked [12; 5; 0] row_mask = Throws IndexError.
Proof.
  split.
  - apply (slice_and_mask_alternate integers_sample). reflexivity.
  - apply (slice_and_mask_alternate [12; 5; 0]). simpl. lia.
Defined.

Lemma assignment_truncates_witness :
  (exists r, integers_assign integers_sample = Returns r /\
             r !! 4%nat = Some 99 /\
             length r = length integers_sample /\
             forall j : nat, j <> 4%nat -> r !! j = integers_sample !! j) /\
  integers_assign [12; 5; 0; 22] = Throws IndexError.
Proof.
  split.
  - apply (assignment_truncates integers_sample). simpl. lia.
  - apply (assignment_truncates [12; 5; 0; 22]). simpl. lia.
Defined.

Lemma tail_assignment_witness :
  integers_assign_tail integers_sample
    = Returns (take (length integers_sample - 2) integers_sample ++ [-23; -46]) /\
  integers_assign_tail [12] = Throws (Standard ValueError).
Proof.
  split.
  - apply (tail_assignment integers_sample). simpl. lia.
  - apply (tail_assignment [12]). simpl. lia.
Defined.

Lemma view_sees_assignment_witness :
  assign_and_show (arange 0 10) (View 1 3 3)
  = Returns (<[7%nat := 77]> (arange 0 10), <[2%nat := 77]> (read_view (arange 0 10) (View 1 3 3))).
Proof.
  apply (view_sees_assignment (arange 0 10) (View 1 3 3)).
  - simpl. lia.
  - reflexivity.
Defined.

Lemma corners_of_four_by_five_witness :
  exists first last_ a b c d,
    head [arange 0 5; arange 5 10; arange 10 15; arange 15 20] = Some first /\
    last [arange 0 5; arange 5 10; arange 10 15; arange 15 20] = Some last_ /\
    head first = Some a /\ last first = Some b /\
    head last_ = Some c /\ last last_ = Some d /\
    twenty_corners [arange 0 5; arange 5 10; arange 10 15; arange 15 20]
      = Returns [[a; b]; [c; d]].
Proof.
  apply (corners_of_four_by_five [arange 0 5; arange 5 10; arange 10 15; arange 15 20]).
  - reflexivity.
  - repeat constructor.
Defined.

Lemma argmax_finds_max_witness :
  item_at_argmax (Matrix 2 9 (arange 4 22)) = np_max (Matrix 2 9 (arange 4 22)).
Proof.
  apply (argmax_finds_max (Matrix 2 9 (arange 4 22))).
  unfold well_shaped. simpl. repeat split; lia.
Defined.

Lemma broadcasting_of_the_products_witness :
  product_shape 5 [4; 5] = Returns [4; 5] /\
  column_product_shape 5 [4; 5] = Throws (Standard ValueError) /\
  short_column_product_shape 5 [4; 5] = Returns [4; 5].
Proof.
  assert (H : 0 <= 5) by lia.
  destruct (broadcasting_of_the_products 5 4 H) as (H1 & H2 & H3).
  split; [exact H1 |]. split.
  - apply H2; lia.
  - apply H3. lia.
Defined.

Lemma name_shares_copy_does_not_witness :
  alias_and_assign session_131 = Returns [[10; 2]; [3; 4]] /\
  copy_and_assign session_131 = Returns ([[1; 2]; [3; 4]], [[-5; 2]; [3; 4]]).
Proof.
  apply (name_shares_copy_does_not session_131 0%nat 1 [2] [[3; 4]]).
  - reflexivity.
  - reflexivity.
Defined.

Lemma Theta_single_item_witness :
  Scalar.Theta (VArr (AInt [-3])) = Scalar.Theta (VInt (-3)).
Proof. apply (Theta_single_item (AInt [-3]) (VInt (-3))). reflexivity. Defined.

